(** * Request dispatch of the assistant gateway (server/web_server.py, core/chat.py,
      core/analysis.py, core/constants.py)

    A shallow embedding of the request routes and background tasks of the web
    server, of the chat and image-analysis dispatchers they call, and of the
    provider registry.  Python strings are lists of Unicode code points; the
    provider SDKs, the speech-to-text and text-to-speech engines, uuid/time
    and werkzeug's [secure_filename] are external collaborators whose results
    enter the model as inputs. *)

From Stdlib Require Import ZArith List String Ascii Bool Lia.
Import ListNotations.
Open Scope Z_scope.

(* ------------------------------------------------------------------------ *)
(** ** Python strings *)

(** A Python [str]: a sequence of code points. *)
Definition pystr := list Z.

Definition pystr_eqb (a b : pystr) : bool :=
  if list_eq_dec Z.eq_dec a b then true else false.

(** Python [in] on lists of strings (and on dict keys). *)
Definition py_in (x : pystr) (l : list pystr) : bool :=
  existsb (pystr_eqb x) l.

(** Truthiness of an [Optional[str]]: [None] and [""] are false. *)
Definition truthy (o : option pystr) : bool :=
  match o with Some (_ :: _) => true | _ => false end.

Definition is_cont (b : Z) : bool := (128 <=? b) && (b <=? 191).
Definition in_range (lo hi b : Z) : bool := (lo <=? b) && (b <=? hi).

(** CPython's UTF-8 decoder with [errors='ignore']: well-formed sequences
    (no overlong forms, no surrogates, nothing above U+10FFFF) become one
    code point; a byte that does not start a well-formed sequence is
    dropped.  Dropping bytes one at a time drops exactly the maximal
    ill-formed subparts CPython drops, since continuation bytes never start
    a sequence. *)
Fixpoint utf8_decode_ignore (bs : list Z) : pystr :=
  match bs with
  | [] => []
  | b0 :: r0 =>
      if b0 <? 128 then b0 :: utf8_decode_ignore r0
      else if in_range 194 223 b0 then
        match r0 with
        | b1 :: r1 =>
            if is_cont b1
            then Z.lor (Z.shiftl (Z.land b0 31) 6) (Z.land b1 63)
                   :: utf8_decode_ignore r1
            else utf8_decode_ignore r0
        | [] => []
        end
      else if in_range 224 239 b0 then
        match r0 with
        | b1 :: b2 :: r2 =>
            let ok1 := if b0 =? 224 then in_range 160 191 b1
                       else if b0 =? 237 then in_range 128 159 b1
                       else is_cont b1 in
            if ok1 && is_cont b2
            then Z.lor (Z.shiftl (Z.land b0 15) 12)
                   (Z.lor (Z.shiftl (Z.land b1 63) 6) (Z.land b2 63))
                   :: utf8_decode_ignore r2
            else utf8_decode_ignore r0
        | _ => utf8_decode_ignore r0
        end
      else if in_range 240 244 b0 then
        match r0 with
        | b1 :: b2 :: b3 :: r3 =>
            let ok1 := if b0 =? 240 then in_range 144 191 b1
                       else if b0 =? 244 then in_range 128 143 b1
                       else is_cont b1 in
            if ok1 && is_cont b2 && is_cont b3
            then Z.lor (Z.shiftl (Z.land b0 7) 18)
                   (Z.lor (Z.shiftl (Z.land b1 63) 12)
                      (Z.lor (Z.shiftl (Z.land b2 63) 6) (Z.land b3 63)))
                   :: utf8_decode_ignore r3
            else utf8_decode_ignore r0
        | _ => utf8_decode_ignore r0
        end
      else utf8_decode_ignore r0
  end.

Definition bytes_of_string (s : string) : list Z :=
  map (fun c => Z.of_nat (nat_of_ascii c)) (list_ascii_of_string s).

(** A Python string literal, written as a UTF-8 Rocq string. *)
Definition py (s : string) : pystr := utf8_decode_ignore (bytes_of_string s).

(** [str.isspace] *)
Definition py_isspace (c : Z) : bool :=
  in_range 9 13 c || in_range 28 32 c || (c =? 133) || (c =? 160)
  || (c =? 5760) || in_range 8192 8202 c || (c =? 8232) || (c =? 8233)
  || (c =? 8239) || (c =? 8287) || (c =? 12288).

Fixpoint lstrip (s : pystr) : pystr :=
  match s with
  | c :: r => if py_isspace c then lstrip r else s
  | [] => []
  end.

(** [str.strip()] *)
Definition strip (s : pystr) : pystr := rev (lstrip (rev (lstrip s))).

(** [str.lower()] on the ASCII range (model ids and file extensions). *)
Definition lower (s : pystr) : pystr :=
  map (fun c => if in_range 65 90 c then c + 32 else c) s.

Fixpoint starts_with (p s : pystr) : bool :=
  match p, s with
  | [], _ => true
  | x :: p', y :: s' => (x =? y) && starts_with p' s'
  | _ :: _, [] => false
  end.

(** Python's substring test [p in s]. *)
Fixpoint substr (p s : pystr) : bool :=
  starts_with p s || match s with [] => false | _ :: s' => substr p s' end.

(** [str(x)] of an [Optional[str]]. *)
Definition str_opt (o : option pystr) : pystr :=
  match o with Some s => s | None => py "None" end.

(* ------------------------------------------------------------------------ *)
(** ** core/constants.py: the provider registry *)

Module ModelProvider.
Definition OPENAI : pystr := py "openai".
Definition GEMINI : pystr := py "gemini".
Definition CLAUDE : pystr := py "claude".
Definition GROK : pystr := py "grok".
End ModelProvider.

Definition DEFAULT_MODEL_OPENAI : pystr := py "gpt-4o".
Definition DEFAULT_MODEL_GEMINI : pystr := py "gemini-2.5-flash-preview-04-17".
Definition DEFAULT_MODEL_CLAUDE : pystr := py "claude-3.7-sonnet".
Definition DEFAULT_MODEL_GROK : pystr := py "grok-1.5".

(** An [OrderedDict]: an association list in insertion order. *)
Definition odict (V : Type) := list (pystr * V).

Definition odict_keys {V} (d : odict V) : list pystr := map fst d.

Fixpoint odict_get {V} (d : odict V) (k : pystr) : option V :=
  match d with
  | [] => None
  | (k', v) :: d' => if pystr_eqb k k' then Some v else odict_get d' k
  end.

Definition mk_odict (l : list (string * string)) : odict pystr :=
  map (fun '(k, v) => (py k, py v)) l.

Definition _AVAILABLE_OPENAI_MODELS : odict pystr := mk_odict [
  ("gpt-4o", "OpenAI GPT-4o (旗舰多模态)");
  ("o4-mini", "OpenAI o4-mini (快速)");
  ("o3", "OpenAI o3 (强大)");
  ("o1-pro", "OpenAI o1-pro (高质量)");
  ("gpt-4.1", "OpenAI GPT-4.1 (新一代旗舰)");
  ("gpt-4.1-mini", "OpenAI GPT-4.1 Mini (轻量)");
  ("gpt-4.1-nano", "OpenAI GPT-4.1 Nano (超轻量)");
  ("gpt-3.5-turbo", "OpenAI GPT-3.5 Turbo (均衡)")]%string.

Definition _AVAILABLE_GEMINI_MODELS : odict pystr := mk_odict [
  ("gemini-2.5-pro-preview-05-06", "Gemini 2.5 Pro (实验版)");
  ("gemini-2.5-flash-preview-04-17", "Gemini 2.5 Flash (实验版)");
  ("gemini-2.0-flash", "Gemini 2.0 Flash Spark (增强多模态)");
  ("gemini-1.5-pro", "Gemini 1.5 Pro (强大)");
  ("gemini-1.5-flash", "Gemini 1.5 Flash (快速)");
  ("gemini-1.0-pro", "Gemini 1.0 Pro (均衡)")]%string.

Definition _AVAILABLE_CLAUDE_MODELS : odict pystr := mk_odict [
  ("claude-3.7-sonnet", "Claude 3.7 Sonnet (最新混合推理)");
  ("claude-3.5-sonnet", "Claude 3.5 Sonnet (强大)");
  ("claude-3.5-haiku", "Claude 3.5 Haiku (快速)");
  ("claude-3-opus", "Claude 3 Opus (旗舰)");
  ("claude-3-sonnet", "Claude 3 Sonnet (均衡)");
  ("claude-3-haiku", "Claude 3 Haiku (快速)")]%string.

Definition _AVAILABLE_GROK_MODELS : odict pystr := mk_odict [
  ("grok-1.5", "Grok 1.5 (X AI 模型，实时上下文)");
  ("grok-1", "Grok 1.0 (早期版本)")]%string.

Definition ALL_AVAILABLE_MODELS : odict (odict pystr) := [
  (ModelProvider.OPENAI, _AVAILABLE_OPENAI_MODELS);
  (ModelProvider.GEMINI, _AVAILABLE_GEMINI_MODELS);
  (ModelProvider.CLAUDE, _AVAILABLE_CLAUDE_MODELS);
  (ModelProvider.GROK, _AVAILABLE_GROK_MODELS)].

Definition get_default_model_for_provider (provider_identifier : pystr) : option pystr :=
  if pystr_eqb provider_identifier ModelProvider.OPENAI then Some DEFAULT_MODEL_OPENAI
  else if pystr_eqb provider_identifier ModelProvider.GEMINI then Some DEFAULT_MODEL_GEMINI
  else if pystr_eqb provider_identifier ModelProvider.CLAUDE then Some DEFAULT_MODEL_CLAUDE
  else if pystr_eqb provider_identifier ModelProvider.GROK then Some DEFAULT_MODEL_GROK
  else match odict_get ALL_AVAILABLE_MODELS provider_identifier with
       | Some ((m, _) :: _) => Some m
       | _ => None
       end.

(** The [for p_name, models in ALL_AVAILABLE_MODELS.items(): if model in
    models: ...; break] scan: the first provider, in registry order, whose
    model dict has the model id as a key. *)
Fixpoint scan_providers (reg : odict (odict pystr)) (model : pystr) : option pystr :=
  match reg with
  | [] => None
  | (p_name, models) :: reg' =>
      if py_in model (odict_keys models) then Some p_name
      else scan_providers reg' model
  end.

(** [final_model_id in ALL_AVAILABLE_MODELS.get(final_provider, {})] *)
Definition registered (provider model : pystr) : bool :=
  match odict_get ALL_AVAILABLE_MODELS provider with
  | Some models => py_in model (odict_keys models)
  | None => false
  end.

(* ------------------------------------------------------------------------ *)
(** ** core/settings.py: the fields the server reads *)

(** The global [settings] object, a pydantic [BaseSettings] with
    [extra="ignore"].  Only the fields the modelled code reads are kept.  The
    class declares no [stt_provider], [DEFAULT_CHAT_PROVIDER],
    [MAX_TEXT_FILE_CHARS], [GEMINI_MAX_TOKENS] or [GEMINI_MAX_TOKENS_STREAM]:
    the code that reads one of them raises [AttributeError], and assigning
    one raises [ValueError] (see [settings_no_attribute] and
    [settings_no_field] below). *)
Record Settings := mkSettings {
  image_analysis_provider : pystr;
  openai_api_key : option pystr;
  gemini_api_key : option pystr
}.

(* ------------------------------------------------------------------------ *)
(** ** server/web_server.py: [_determine_model_and_provider] *)

(** Returns [(final_model_id, final_provider)], both [None] when the pair is
    not in the registry.  [settings.image_analysis_provider] is read in the
    fallback branch. *)
Definition _determine_model_and_provider (st : Settings)
    (requested_model_id requested_provider : option pystr)
    (default_provider_type : pystr) : option pystr * option pystr :=
  let final_provider :=
    if truthy requested_provider then requested_provider
    else
      let inferred :=
        match requested_model_id with
        | Some m => if truthy requested_model_id
                    then scan_providers ALL_AVAILABLE_MODELS m else None
        | None => None
        end in
      if truthy inferred then inferred
      else if truthy (Some (image_analysis_provider st))
           then Some (image_analysis_provider st)
           else Some default_provider_type in
  let final_model_id :=
    if truthy requested_model_id then requested_model_id
    else match final_provider with
         | Some p => get_default_model_for_provider p
         | None => None
         end in
  match final_model_id, final_provider with
  | Some m, Some p =>
      if truthy final_model_id && truthy final_provider
         && py_in p (odict_keys ALL_AVAILABLE_MODELS) && registered p m
      then (Some m, Some p) else (None, None)
  | _, _ => (None, None)
  end.

Definition nl : pystr := [10].

(* ------------------------------------------------------------------------ *)
(** ** base64 (the standard library module the routes call) *)

Definition b64_value (c : Z) : Z :=
  if in_range 65 90 c then c - 65
  else if in_range 97 122 c then c - 71
  else if in_range 48 57 c then c + 4
  else if c =? 43 then 62
  else if c =? 47 then 63
  else 64.

Definition b64_char (v : Z) : Z :=
  if v <? 26 then v + 65
  else if v <? 52 then v + 71
  else if v <? 62 then v - 4
  else if v =? 62 then 43 else 47.

(** [binascii.a2b_base64(s, strict_mode=False)]: characters outside the
    alphabet are skipped; a pad sequence completing a quad ends the input;
    the input fails when it ends inside a quad.  [qp] is [quad_pos], [acc]
    the bytes written so far, reversed. *)
Fixpoint a2b_base64 (s : list Z) (qp leftchar pads : Z) (acc : list Z) : option (list Z) :=
  match s with
  | [] => if qp =? 0 then Some (rev acc) else None
  | c :: s' =>
      if c =? 61 then
        if (2 <=? qp) && (4 <=? qp + (pads + 1)) then Some (rev acc)
        else a2b_base64 s' qp leftchar (if 2 <=? qp then pads + 1 else pads) acc
      else
        let v := b64_value c in
        if 64 <=? v then a2b_base64 s' qp leftchar pads acc
        else if qp =? 0 then a2b_base64 s' 1 v 0 acc
        else if qp =? 1 then
          a2b_base64 s' 2 (Z.land v 15)
            0 (Z.land (Z.lor (Z.shiftl leftchar 2) (Z.shiftr v 4)) 255 :: acc)
        else if qp =? 2 then
          a2b_base64 s' 3 (Z.land v 3)
            0 (Z.land (Z.lor (Z.shiftl leftchar 4) (Z.shiftr v 2)) 255 :: acc)
        else
          a2b_base64 s' 0 0 0 (Z.land (Z.lor (Z.shiftl leftchar 6) v) 255 :: acc)
  end.

(** [base64.b64decode(s)] for a [str]: a non-ASCII character raises
    [ValueError], a failing [a2b_base64] raises [binascii.Error]; both are
    [None] here. *)
Definition b64decode (s : pystr) : option (list Z) :=
  if forallb (fun c => c <? 128) s then a2b_base64 s 0 0 0 [] else None.

Fixpoint b64encode_aux (fuel : nat) (bs : list Z) : pystr :=
  match fuel with
  | O => []
  | S fuel' =>
      match bs with
      | [] => []
      | [a] =>
          [b64_char (Z.shiftr a 2); b64_char (Z.shiftl (Z.land a 3) 4); 61; 61]
      | [a; b] =>
          [b64_char (Z.shiftr a 2);
           b64_char (Z.lor (Z.shiftl (Z.land a 3) 4) (Z.shiftr b 4));
           b64_char (Z.shiftl (Z.land b 15) 2); 61]
      | a :: b :: c :: rest =>
          [b64_char (Z.shiftr a 2);
           b64_char (Z.lor (Z.shiftl (Z.land a 3) 4) (Z.shiftr b 4));
           b64_char (Z.lor (Z.shiftl (Z.land b 15) 2) (Z.shiftr c 6));
           b64_char (Z.land c 63)] ++ b64encode_aux fuel' rest
      end
  end.

(** [base64.b64encode(bs).decode('utf-8')] *)
Definition b64encode (bs : list Z) : pystr := b64encode_aux (List.length bs) bs.

(* ------------------------------------------------------------------------ *)
(** ** Values, events and the task monad *)

(** Python exceptions that reach the modelled code. *)
Inductive exn :=
| ValueError (msg : pystr)
| TypeError (msg : pystr)
| OpenAIAPIError (msg : pystr)      (* openai.APIError *)
| GenaiAPIError (msg : pystr)       (* google.genai.errors.APIError *)
| GoogleAPIError (msg : pystr)      (* google.api_core.exceptions.GoogleAPIError *)
| AttributeError (msg : pystr)
| OtherError (msg : pystr).

(** [str(e)] *)
Definition exn_str (e : exn) : pystr :=
  match e with
  | ValueError m | TypeError m | OpenAIAPIError m | GenaiAPIError m
  | GoogleAPIError m | AttributeError m | OtherError m => m
  end.

(** A double quote, for messages that contain one. *)
Definition dq : pystr := [34].

(** [settings.name] for a [name] the [Settings] class does not declare:
    pydantic's [BaseModel.__getattr__] raises [AttributeError]. *)
Definition settings_no_attribute (name : pystr) : exn :=
  AttributeError (py "'Settings' object has no attribute '" ++ name ++ py "'").

(** [settings.name = v] for such a [name]: pydantic's [BaseModel.__setattr__]
    raises [ValueError] before anything is assigned. *)
Definition settings_no_field (name : pystr) : exn :=
  ValueError (dq ++ py "Settings" ++ dq ++ py " object has no field " ++ dq ++ name ++ dq).

Definition is_value_error (e : exn) : bool :=
  match e with ValueError _ => true | _ => false end.

(** Values of the dicts the code builds ([timestamp_ms / 1000] is kept as
    its millisecond numerator). *)
Inductive pyval := VStr (s : pystr) | VNone | VSeconds (ms : Z).

Definition payload := list (pystr * pyval).

Definition kv (k : string) (v : pyval) : pystr * pyval := (py k, v).

Fixpoint dict_get (d : payload) (k : pystr) : option pyval :=
  match d with
  | [] => None
  | (k', v) :: d' => if pystr_eqb k k' then Some v else dict_get d' k
  end.

(** [d.get(k, default)] *)
Definition dict_get_default (d : payload) (k : pystr) (dflt : pyval) : pyval :=
  match dict_get d k with Some v => v | None => dflt end.

(** [str(v)] *)
Definition py_str (v : pyval) : pystr :=
  match v with VStr s => s | VNone => py "None" | VSeconds _ => py "<float>" end.

(** One [socketio.emit(name, data, to=...)]; [ev_to = None] broadcasts. *)
Record emission := mkEmission {
  ev_name : pystr;
  ev_data : payload;
  ev_to : option pystr
}.

(** Observable effects of a task, in the order they happen. *)
Inductive effect :=
| Emit (e : emission)
| SdkCall (provider model : pystr)   (* a request sent to a provider SDK *)
| SttCall                            (* transcribe_audio *)
| TtsCall (text : pystr)             (* generate_tts *)
| DeleteFile.                        (* unlink of the temporary audio file *)

(** The state shared by all requests: the global [settings] object, the
    module-level [HISTORY] list, and the trace of effects; [w_buf] is the
    cell of the running task's [nonlocal full_response_text]. *)
Record world := mkWorld {
  w_settings : Settings;
  w_history : list payload;
  w_trace : list effect;
  w_buf : pystr
}.

Inductive outcome (A : Type) := Ok (a : A) | Raised (e : exn).
Arguments Ok {A} a.
Arguments Raised {A} e.

(** A state monad with Python exceptions. *)
Definition M (A : Type) := world -> outcome A * world.

Definition ret {A} (a : A) : M A := fun w => (Ok a, w).
Definition bind {A B} (m : M A) (k : A -> M B) : M B :=
  fun w => match m w with
           | (Ok a, w') => k a w'
           | (Raised e, w') => (Raised e, w')
           end.
Definition raise {A} (e : exn) : M A := fun w => (Raised e, w).

Notation "x <- m ;; k" := (bind m (fun x => k))
  (at level 61, m at next level, right associativity).
Notation "m ;; k" := (bind m (fun _ => k)) (at level 61, right associativity).

(** [try: m except Exception as e: h e] *)
Definition try_except {A} (m : M A) (h : exn -> M A) : M A :=
  fun w => match m w with
           | (Raised e, w') => h e w'
           | r => r
           end.

(** [try: m finally: f] *)
Definition try_finally {A} (m : M A) (f : M unit) : M A :=
  fun w => match m w with
           | (r, w') => match f w' with
                        | (Ok _, w'') => (r, w'')
                        | (Raised e, w'') => (Raised e, w'')
                        end
           end.

Definition get_settings : M Settings := fun w => (Ok (w_settings w), w).
(** Reading [settings.name] for a [name] the class does not declare. *)
Definition settings_getattr_missing {A} (name : pystr) : M A := raise (settings_no_attribute name).
Definition tell (e : effect) : M unit :=
  fun w => (Ok tt, mkWorld (w_settings w) (w_history w) (w_trace w ++ [e]) (w_buf w)).
(** [with HISTORY_LOCK: HISTORY.append(entry)] *)
Definition history_append (entry : payload) : M unit :=
  fun w => (Ok tt, mkWorld (w_settings w) (w_history w ++ [entry]) (w_trace w) (w_buf w)).
Definition get_buf : M pystr := fun w => (Ok (w_buf w), w).
Definition put_buf (b : pystr) : M unit :=
  fun w => (Ok tt, mkWorld (w_settings w) (w_history w) (w_trace w) b).

Definition emit (name : string) (data : payload) (to : option pystr) : M unit :=
  tell (Emit (mkEmission (py name) data to)).

(** [socketio.emit(n, d, to=sid) if sid else socketio.emit(n, d)] *)
Definition emit_sid (name : string) (data : payload) (sid : option pystr) : M unit :=
  emit name data (if truthy sid then sid else None).

(* ------------------------------------------------------------------------ *)
(** ** core/chat.py: request construction *)

(** An item of a history turn's ["parts"] list: a dict, with its ["text"]
    value when it has that key, or anything else. *)
Inductive part_item := PartDict (text : option pystr) | PartOther.

(** A history turn: ["role"], ["parts"] when it is a list, ["content"] when
    it is a [str]. *)
Record turn := mkTurn {
  turn_role : option pystr;
  turn_parts : option (list part_item);
  turn_content : option pystr
}.

Inductive content_part := PartText (t : pystr) | PartImageUrl (url : pystr).

(** An OpenAI chat message. *)
Inductive message :=
| Msg (role content : pystr)
| UserParts (parts : list content_part).

Fixpoint join (sep : pystr) (l : list pystr) : pystr :=
  match l with
  | [] => []
  | [x] => x
  | x :: l' => x ++ sep ++ join sep l'
  end.

Definition SYSTEM_PROMPT : pystr :=
  py "你是一个有用的AI助手。请提供准确、有帮助的信息。" ++ nl ++
  py "如果分析图像，请详细描述图像内容，并指出任何不寻常之处。" ++ nl ++
  py "如果需要展示数学公式，可以使用 LaTeX 语法：" ++ nl ++
  py "- 行内公式使用 $...$ 或 \(...\)" ++ nl ++
  py "- 行间公式使用 $$...$$  或 \[...\]" ++ nl ++
  py "例如：爱因斯坦质能方程: $E=mc^2$" ++ nl.

(** [_prepare_system_message(ModelProvider.OPENAI)] *)
Definition openai_system_message : message := Msg (py "system") SYSTEM_PROMPT.

Definition openai_role (role : option pystr) : option pystr :=
  match role with
  | Some r => if pystr_eqb r (py "model") then Some (py "assistant") else Some r
  | None => None
  end.

Definition role_ok (r : option pystr) : bool :=
  match r with Some r => py_in r [py "user"; py "assistant"] | None => false end.

(** History turn of [_chat_openai]: the texts of the dict parts joined by
    spaces, else the [content] string. *)
Definition openai_turn_text (t : turn) : option pystr :=
  match turn_parts t with
  | Some (_ :: _ as ps) =>
      let items := flat_map (fun p => match p with
                                      | PartDict (Some x) => [x]
                                      | _ => []
                                      end) ps in
      match items with
      | [] => None
      | _ => Some (join (py " ")
                     (filter (fun x => truthy (Some x)) items))
      end
  | _ => turn_content t
  end.

Definition openai_history (f : turn -> option pystr) (history : list turn) : list message :=
  flat_map (fun t => let r := openai_role (turn_role t) in
                     match r, f t with
                     | Some r', Some x =>
                         if role_ok r && truthy (Some x) then [Msg r' x] else []
                     | _, _ => []
                     end) history.

(** History turn of [_chat_openai_stream]: [turn["parts"][0].get("text", "")];
    an item that is not a dict raises [AttributeError]. *)
Definition openai_stream_turn_text (t : turn) : outcome (option pystr) :=
  match turn_parts t with
  | Some (PartDict (Some x) :: _) => Ok (Some x)
  | Some (PartDict None :: _) => Ok (Some [])
  | Some (PartOther :: _) =>
      Raised (OtherError (py "'str' object has no attribute 'get'"))
  | _ => Ok (turn_content t)
  end.

Fixpoint openai_stream_history (history : list turn) : outcome (list message) :=
  match history with
  | [] => Ok []
  | t :: h =>
      match openai_stream_turn_text t, openai_stream_history h with
      | Raised e, _ => Raised e
      | _, Raised e => Raised e
      | Ok x, Ok ms =>
          match openai_role (turn_role t), x with
          | Some r', Some x' =>
              if role_ok (Some r') && truthy (Some x') then Ok (Msg r' x' :: ms) else Ok ms
          | _, _ => Ok ms
          end
      end
  end.

(** The text and image parts of the current user turn. *)
Definition openai_user_parts (prompt : pystr) (images_base64 : option (list pystr))
    : list content_part :=
  (if truthy (Some prompt) then [PartText prompt] else []) ++
  match images_base64 with
  | Some imgs =>
      flat_map (fun s => if truthy (Some (strip s))
                         then [PartImageUrl (py "data:image/jpeg;base64," ++ s)]
                         else []) imgs
  | None => []
  end.

(** A Gemini content part and content block. *)
Inductive gpart := GText (t : pystr) | GData (data : list Z) (mime : pystr).
Record gcontent := mkGContent { gc_role : pystr; gc_parts : list gpart }.

Definition gemini_turn_parts (t : turn) : list gpart :=
  match turn_parts t with
  | Some ps =>
      flat_map (fun p => match p with
                         | PartDict (Some x) => if truthy (Some (strip x)) then [GText x] else []
                         | _ => []
                         end) ps
  | None =>
      match turn_content t with
      | Some c => if truthy (Some (strip c)) then [GText c] else []
      | None => []
      end
  end.

(** The [try] body for one image of [_prepare_gemini_contents]:
    [base64.b64decode], then [genai_types.Part.from_data].  The
    [google.genai] types define no [Part.from_data] (their constructor is
    [Part.from_bytes]), so the lookup raises [AttributeError] after a
    successful decode; a failed decode raises [binascii.Error], whose message
    is only logged. *)
Definition gemini_image_part (img_b64_string : pystr) : outcome gpart :=
  match b64decode img_b64_string with
  | Some _ => Raised (AttributeError (py "type object 'Part' has no attribute 'from_data'"))
  | None => Raised (OtherError (py "binascii.Error"))
  end.

(** [_prepare_gemini_contents]: the content blocks and
    [num_images_processed]; the [except Exception] of the image loop skips
    an image whose [try] body raises. *)
Definition _prepare_gemini_contents (prompt : pystr) (history : list turn)
    (images_base64 : option (list pystr)) : list gcontent * nat :=
  let hist :=
    flat_map (fun t =>
      match turn_role t with
      | Some r =>
          if py_in r [py "user"; py "model"] then
            match gemini_turn_parts t with
            | [] => []
            | ps => [mkGContent r ps]
            end
          else []
      | None => []
      end) history in
  let imgs :=
    match images_base64 with
    | Some l =>
        flat_map (fun s => if truthy (Some (strip s)) then
                             match gemini_image_part s with
                             | Ok image_part => [image_part]
                             | Raised _ => []
                             end
                           else []) l
    | None => [] end in
  let user := (if truthy (Some prompt) then [GText prompt] else []) ++ imgs in
  (hist ++ (match user with [] => [] | _ => [mkGContent (py "user") user] end),
   List.length imgs).

(** What the Gemini SDK returns for [generate_content]. *)
Inductive finish_reason :=
| FinishStop | FinishUnspecified | FinishSafety | FinishOther (name : pystr).

Record gemini_response := mkGeminiResponse {
  gr_text : pystr;                       (* response.text, or its parts' texts *)
  gr_block_reason : option pystr;        (* prompt_feedback.block_reason.name *)
  gr_finish : option finish_reason       (* candidates[0].finish_reason *)
}.

(** One chunk of a Gemini stream: its text and its block reason, if any. *)
Record gemini_chunk := mkGeminiChunk {
  gch_text : pystr;
  gch_block_reason : option pystr
}.

(** A streamed SDK response: the chunks it yields, then either the normal end
    of the iteration or the exception raised there. *)
Record sdk_stream (C : Type) := mkStream {
  ss_chunks : list C;
  ss_end : option exn
}.
Arguments mkStream {C} ss_chunks ss_end.
Arguments ss_chunks {C} s.
Arguments ss_end {C} s.

(** The external collaborators, as the answers they give: the provider SDKs
    (given the model and the request built by the code), speech-to-text and
    text-to-speech.  [Raised] is an exception thrown by the collaborator.
    The OpenAI stream chunks are [chunk.choices[0].delta.content] ([None]
    when absent). *)
Record Backend := mkBackend {
  openai_create : pystr -> list message -> outcome (option pystr);
  openai_create_stream : pystr -> list message -> sdk_stream (option pystr);
  gemini_generate : pystr -> list gcontent -> outcome gemini_response;
  gemini_generate_stream : pystr -> list gcontent -> sdk_stream gemini_chunk;
  transcribe_audio_result : outcome (option pystr);
  generate_tts_result : pystr -> outcome pystr
}.

(* ------------------------------------------------------------------------ *)
(** ** core/chat.py: the provider functions *)

Section Providers.
Variable be : Backend.

Definition opt_or (o : option pystr) (d : option pystr) : option pystr :=
  if truthy o then o else d.

(** [_chat_openai] *)
Definition _chat_openai (prompt : pystr) (history : list turn) (model_id : option pystr)
    (images_base64 : option (list pystr)) : M pystr :=
  st <- get_settings ;;
  if negb (truthy (openai_api_key st))
  then raise (ValueError (py "OpenAI API key not configured."))
  else
  let effective_model_id :=
    match opt_or model_id (get_default_model_for_provider ModelProvider.OPENAI) with
    | Some m => if truthy (Some m) then m else py "gpt-4o"
    | None => py "gpt-4o" end in
  let messages := openai_system_message :: openai_history openai_turn_text history in
  let parts := openai_user_parts prompt images_base64 in
  match parts, messages, truthy (Some prompt) with
  | [], [], false => ret (py "请输入您的问题或提供有效的图片。")
  | _, _, _ =>
    let messages := match parts with [] => messages | _ => messages ++ [UserParts parts] end in
    tell (SdkCall ModelProvider.OPENAI effective_model_id) ;;
    match openai_create be effective_model_id messages with
    | Ok content => ret (match content with
                         | Some c => if truthy (Some c) then strip c else []
                         | None => [] end)
    | Raised e => raise e
    end
  end.

(** The [for chunk in stream] loop of [_chat_openai_stream]. *)
Fixpoint openai_stream_loop (stream_callback : pystr -> M unit)
    (chunks : list (option pystr)) (full_response_text : pystr) : M pystr :=
  match chunks with
  | [] => ret full_response_text
  | Some c :: cs =>
      if truthy (Some c) then
        stream_callback c ;; openai_stream_loop stream_callback cs (full_response_text ++ c)
      else openai_stream_loop stream_callback cs full_response_text
  | None :: cs => openai_stream_loop stream_callback cs full_response_text
  end.

(** [_chat_openai_stream] *)
Definition _chat_openai_stream (prompt : pystr) (history : list turn)
    (stream_callback : pystr -> M unit) (model_id : option pystr)
    (images_base64 : option (list pystr)) : M pystr :=
  st <- get_settings ;;
  if negb (truthy (openai_api_key st))
  then raise (ValueError (py "OpenAI API key not configured."))
  else
  let effective_model_id :=
    match opt_or model_id (get_default_model_for_provider ModelProvider.OPENAI) with
    | Some m => if truthy (Some m) then m else py "gpt-4o"
    | None => py "gpt-4o" end in
  match openai_stream_history history with
  | Raised e => raise e
  | Ok hist =>
  let messages := openai_system_message :: hist in
  let parts := openai_user_parts prompt images_base64 in
  match parts, messages, truthy (Some prompt) with
  | [], [], false =>
      stream_callback (py "[ERROR: 请输入您的问题或提供有效的图片。]") ;;
      ret (py "请输入您的问题或提供有效的图片。")
  | _, _, _ =>
    let messages := match parts with [] => messages | _ => messages ++ [UserParts parts] end in
    try_except
      (tell (SdkCall ModelProvider.OPENAI effective_model_id) ;;
       let stream := openai_create_stream be effective_model_id messages in
       full_response_text <- openai_stream_loop stream_callback (ss_chunks stream) [] ;;
       match ss_end stream with
       | None => ret (strip full_response_text)
       | Some e => raise e
       end)
      (fun e =>
         match e with
         | OpenAIAPIError _ =>
             stream_callback (py "[ERROR: OpenAI API Error - " ++ exn_str e ++ py "]") ;;
             raise e
         | _ =>
             stream_callback (py "[ERROR: Unexpected error during stream - " ++ exn_str e ++ py "]") ;;
             raise e
         end)
  end
  end.

(** [get_gemini_client()] *)
Definition get_gemini_client : M unit :=
  st <- get_settings ;;
  if truthy (gemini_api_key st) then ret tt
  else raise (ValueError (py "Gemini API key not configured in settings.")).

Definition ends_with (suffix s : pystr) : bool := starts_with (rev suffix) (rev s).

(** [_chat_gemini] *)
Definition _chat_gemini (prompt : pystr) (history : list turn) (model_id : option pystr)
    (images_base64 : option (list pystr)) : M pystr :=
  get_gemini_client ;;
  let m0 := match opt_or model_id (get_default_model_for_provider ModelProvider.GEMINI) with
            | Some m => if truthy (Some m) then m else py "gemini-1.5-flash-latest"
            | None => py "gemini-1.5-flash-latest" end in
  let effective_model_id :=
    if substr (py "gemini-") m0 && negb (starts_with (py "models/") m0)
       && negb (ends_with (py "-001") m0 || ends_with (py "-preview") m0)
    then py "models/" ++ m0 else m0 in
  let '(contents, _) := _prepare_gemini_contents prompt history images_base64 in
  match contents with
  | [] => ret (py "请求内容为空，请输入问题或提供有效图片。")
  | _ =>
    (* [_prepare_system_message(GEMINI)] reads no state; the
       [generation_config_dict] literal reads [settings.GEMINI_MAX_TOKENS]
       before the [try] *)
    settings_getattr_missing (A:=Z) (py "GEMINI_MAX_TOKENS") ;;
    tell (SdkCall ModelProvider.GEMINI effective_model_id) ;;
    match gemini_generate be effective_model_id contents with
    | Raised _ =>
        (* the first handler, [except Exception], catches every exception *)
        ret (py "(您的请求因包含不当内容被阻止)")
    | Ok resp =>
        let response_text := gr_text resp in
        let early :=
          if truthy (Some response_text) then None
          else match gr_block_reason resp with
               | Some r => Some (py "(内容因 " ++ r ++ py " 被阻止)")
               | None =>
                   match gr_finish resp with
                   | Some FinishSafety => Some (py "(内容因安全原因被终止或过滤)")
                   | Some (FinishOther n) => Some (py "(AI回复因 " ++ n ++ py " 提前结束)")
                   | _ => None
                   end
               end in
        match early with
        | Some r => ret r
        | None => ret (if truthy (Some response_text) then strip response_text
                       else py "(AI未能生成有效文本回复)")
        end
    end
  end.

(** The [for stream_chunk in response_stream] loop of [_chat_gemini_stream]:
    [inl acc] when the iteration ends, [inr r] when the loop returns [r]. *)
Fixpoint gemini_stream_loop (stream_callback : pystr -> M unit)
    (chunks : list gemini_chunk) (acc : pystr) : M (pystr + pystr) :=
  match chunks with
  | [] => ret (inl acc)
  | ch :: cs =>
      let t := gch_text ch in
      (if truthy (Some t) then stream_callback t else ret tt) ;;
      let acc' := if truthy (Some t) then acc ++ t else acc in
      match gch_block_reason ch with
      | Some reason_name =>
          ret (inr (let a := strip acc' in
                    if truthy (Some a) then a
                    else py "[Content blocked due to " ++ reason_name ++ py "]"))
      | None => gemini_stream_loop stream_callback cs acc'
      end
  end.

(** [_chat_gemini_stream] *)
Definition _chat_gemini_stream (prompt : pystr) (history : list turn)
    (stream_callback : pystr -> M unit) (model_id : option pystr)
    (images_base64 : option (list pystr)) : M pystr :=
  get_gemini_client ;;
  let effective_model_id :=
    match opt_or model_id (get_default_model_for_provider ModelProvider.GEMINI) with
    | Some m => m | None => [] end in
  let '(contents, _) := _prepare_gemini_contents prompt history images_base64 in
  match contents with
  | [] => stream_callback (py "[错误: 请求内容为空。]") ;; ret (py "请求内容为空。")
  | _ =>
    (* [GenerateContentConfig(max_output_tokens=settings.GEMINI_MAX_TOKENS_STREAM, ...)],
       before the [try] *)
    settings_getattr_missing (A:=Z) (py "GEMINI_MAX_TOKENS_STREAM") ;;
    try_except
      (tell (SdkCall ModelProvider.GEMINI effective_model_id) ;;
       let stream := gemini_generate_stream be effective_model_id contents in
       r <- gemini_stream_loop stream_callback (ss_chunks stream) [] ;;
       match r with
       | inr v => ret v
       | inl acc =>
           match ss_end stream with
           | None => ret (strip acc)
           | Some e => raise e
           end
       end)
      (fun e =>
         let error_msg :=
           match e with
           | GenaiAPIError m => py "[Gemini API 错误: " ++ m ++ py "]"
           | GoogleAPIError m => py "[Google API核心错误: " ++ m ++ py "]"
           | _ => py "[错误: Gemini流处理中发生未知错误 - " ++ exn_str e ++ py "]"
           end in
         stream_callback error_msg ;; ret error_msg)
  end.

(** The provider and model determination shared, line for line, by
    [chat_only] and [chat_only_stream]: [(current_model_id, current_provider)]
    and whether the final validation passes.  Without a provider and without
    a registered model id, the fallback [settings.DEFAULT_CHAT_PROVIDER or
    ModelProvider.OPENAI] raises [AttributeError]; this is before the [try]
    of both callers. *)
Definition chat_determine (model_id provider : option pystr)
    : outcome (option pystr * option pystr * bool) :=
  let current_provider :=
    if truthy provider then Ok provider
    else
      let inferred :=
        match model_id with
        | Some m => if truthy model_id then scan_providers ALL_AVAILABLE_MODELS m else None
        | None => None end in
      if truthy inferred then Ok inferred
      else Raised (settings_no_attribute (py "DEFAULT_CHAT_PROVIDER")) in
  match current_provider with
  | Raised e => Raised e
  | Ok current_provider =>
    let current_model_id :=
      if truthy model_id then model_id
      else match current_provider with
           | Some p => get_default_model_for_provider p
           | None => None end in
    let valid :=
      match current_model_id, current_provider with
      | Some m, Some p =>
          truthy current_model_id && truthy current_provider
          && py_in p (odict_keys ALL_AVAILABLE_MODELS) && registered p m
      | _, _ => false
      end in
    Ok (current_model_id, current_provider, valid)
  end.

Definition opt_val (o : option pystr) : pyval :=
  match o with Some s => VStr s | None => VNone end.

(** A result dict of the dispatchers. *)
Definition result_dict (provider : pystr) (model_id : option pystr) (message : pystr) : payload :=
  [kv "provider" (VStr provider); kv "model_id" (opt_val model_id); kv "message" (VStr message)].

(** [chat_only] *)
Definition chat_only (prompt : pystr) (history : list turn) (model_id provider : option pystr)
    (images_base64 : option (list pystr)) : M payload :=
  st <- get_settings ;;
  match chat_determine model_id provider with
  | Raised e => raise e
  | Ok (current_model_id, current_provider, valid) =>
  let p := str_opt current_provider in
  let m := str_opt current_model_id in
  if negb valid then
    ret (result_dict (py "error") current_model_id
           (py "无法为聊天确定有效的模型或提供商。Provider: " ++ p ++ py ", Model: " ++ m))
  else
  try_except
    (if pystr_eqb p ModelProvider.OPENAI then
       if negb (truthy (openai_api_key st)) then raise (ValueError (py "OpenAI API Key missing."))
       else msg_text <- _chat_openai prompt history current_model_id images_base64 ;;
            ret (result_dict p current_model_id msg_text)
     else if pystr_eqb p ModelProvider.GEMINI then
       if negb (truthy (gemini_api_key st)) then raise (ValueError (py "Gemini API Key missing."))
       else msg_text <- _chat_gemini prompt history current_model_id images_base64 ;;
            ret (result_dict p current_model_id msg_text)
     else
       ret (result_dict (py "error") current_model_id
              (py "聊天功能未启用或提供商 '" ++ p ++ py "' 不支持。")))
    (fun e =>
       if is_value_error e then
         ret (result_dict (py "error") current_model_id (py "配置错误: " ++ exn_str e))
       else
         ret (result_dict (py "error") current_model_id
                (py "与 AI (" ++ p ++ py "/" ++ m ++ py ") 通信时出错: " ++ exn_str e)))
  end.

(** [chat_only_stream] (the server always passes a [stream_callback]). *)
Definition chat_only_stream (prompt : pystr) (history : list turn)
    (stream_callback : pystr -> M unit) (model_id provider : option pystr)
    (images_base64 : option (list pystr)) : M payload :=
  st <- get_settings ;;
  match chat_determine model_id provider with
  | Raised e => raise e
  | Ok (current_model_id, current_provider, valid) =>
  let p := str_opt current_provider in
  let m := str_opt current_model_id in
  if negb valid then
    let err_msg := py "无法为流式聊天确定有效的模型或提供商。Provider: " ++ p
                   ++ py ", Model: " ++ m in
    stream_callback (py "[ERROR: " ++ err_msg ++ py "]") ;;
    ret (result_dict (py "error") current_model_id err_msg)
  else
  try_except
    (if pystr_eqb p ModelProvider.OPENAI then
       if negb (truthy (openai_api_key st)) then raise (ValueError (py "OpenAI API Key missing."))
       else full_msg_text <- _chat_openai_stream prompt history stream_callback
                               current_model_id images_base64 ;;
            ret (result_dict p current_model_id full_msg_text)
     else if pystr_eqb p ModelProvider.GEMINI then
       if negb (truthy (gemini_api_key st)) then raise (ValueError (py "Gemini API Key missing."))
       else full_msg_text <- _chat_gemini_stream prompt history stream_callback
                               current_model_id images_base64 ;;
            ret (result_dict p current_model_id full_msg_text)
     else
       stream_callback (py "[ERROR: 流式聊天功能未启用或提供商 '" ++ p ++ py "' 不支持。]") ;;
       ret (result_dict (py "error") current_model_id (py "流式聊天功能未启用或提供商不支持。")))
    (fun e =>
       if is_value_error e then
         stream_callback (py "[ERROR: 配置错误 - " ++ exn_str e ++ py "]") ;;
         ret (result_dict (py "error") current_model_id (py "配置错误: " ++ exn_str e))
       else
         stream_callback (py "[ERROR: 与 AI (" ++ p ++ py "/" ++ m ++ py ") 流式通信时出错 - "
                          ++ exn_str e ++ py "]") ;;
         ret (result_dict (py "error") current_model_id
                (py "与 AI (" ++ p ++ py "/" ++ m ++ py ") 流式通信时出错: " ++ exn_str e)))
  end.

End Providers.

(* ------------------------------------------------------------------------ *)
(** ** core/analysis.py: [analyze_image] *)

(** A Python call with keyword arguments: an argument name that matches no
    parameter raises [TypeError] before the callee's body runs. *)
Definition call_with_kwargs {A} (fname : pystr) (params kwargs : list pystr) (body : M A) : M A :=
  match find (fun k => negb (py_in k params)) kwargs with
  | Some k => raise (TypeError (fname ++ py "() got an unexpected keyword argument '" ++ k ++ py "'"))
  | None => body
  end.

(** The parameters of [chat_only]. *)
Definition chat_only_params : list pystr :=
  [py "prompt"; py "history"; py "model_id"; py "provider"; py "images_base64"].

Definition DEFAULT_ANALYSIS_PROMPT : pystr :=
  py "详细描述这张图片中的内容，并指出任何不寻常或有趣的地方。".

Definition get_or (d : payload) (k : string) (dflt : pyval) : pyval :=
  dict_get_default d (py k) dflt.

Section Analysis.
Variable be : Backend.

Definition analyze_image (img_bytes : list Z) (prompt model_id provider : option pystr)
    : M payload :=
  st <- get_settings ;;
  let current_provider :=
    if truthy provider then provider
    else
      let inferred :=
        match model_id with
        | Some m => if truthy model_id then scan_providers ALL_AVAILABLE_MODELS m else None
        | None => None end in
      if truthy inferred then inferred
      else if truthy (Some (image_analysis_provider st)) then Some (image_analysis_provider st)
      else Some ModelProvider.OPENAI in
  let current_model_id :=
    if truthy model_id then model_id
    else
      let d := match current_provider with
               | Some p => get_default_model_for_provider p | None => None end in
      match current_provider, d with
      | Some p, Some m =>
          if pystr_eqb p ModelProvider.GEMINI && truthy d
             && negb (existsb (fun kw => substr kw (lower m))
                        [py "vision"; py "flash"; py "pro"; py "ultra"])
          then Some (py "gemini-1.5-flash-latest")
          else if pystr_eqb p ModelProvider.OPENAI && truthy d
                  && negb (substr (py "gpt-4o") (lower m))
                  && negb (substr (py "vision") (lower m))
          then Some (py "gpt-4o")
          else d
      | _, _ => d
      end in
  match current_model_id, current_provider with
  | Some m, Some p =>
    if negb (truthy current_model_id && truthy current_provider) then
      ret [kv "provider" (VStr (py "error"));
           kv "message" (VStr (py "无法为图像分析确定AI模型或提供商。"))]
    else if negb (py_in p (odict_keys ALL_AVAILABLE_MODELS) && registered p m) then
      ret (result_dict (py "error") (Some m)
             (py "模型 " ++ m ++ py " 对提供商 " ++ p ++ py " 无效进行图像分析。"))
    else
    let analysis_prompt := match prompt with
                           | Some s => if truthy prompt then s else DEFAULT_ANALYSIS_PROMPT
                           | None => DEFAULT_ANALYSIS_PROMPT end in
    try_except
      (let image_base64_data := b64encode img_bytes in
       (* [chat_only(prompt=..., history=None, model_id=..., provider=...,
          image_base64=image_base64_data)]: the keyword [image_base64] names
          no parameter of [chat_only], so its body never runs *)
       chat_result <- call_with_kwargs (py "chat_only") chat_only_params
                        [py "prompt"; py "history"; py "model_id"; py "provider"; py "image_base64"]
                        (chat_only be analysis_prompt [] (Some m) (Some p) None) ;;
       if match dict_get chat_result (py "provider") with
          | Some (VStr s) => pystr_eqb s (py "error") | _ => false end
       then ret chat_result
       else ret [kv "provider" (get_or chat_result "provider" (VStr p));
                 kv "model_id" (get_or chat_result "model_id" (VStr m));
                 kv "message" (get_or chat_result "message" (VStr (py "图像分析未返回消息。")))])
      (fun e =>
         if is_value_error e then
           ret (result_dict (py "error") (Some m) (py "配置错误: " ++ exn_str e))
         else
           ret (result_dict (py "error") (Some m)
                  (py "图像分析出错 (" ++ p ++ py "/" ++ m ++ py "): " ++ exn_str e)))
  | _, _ =>
      ret [kv "provider" (VStr (py "error"));
           kv "message" (VStr (py "无法为图像分析确定AI模型或提供商。"))]
  end.

End Analysis.

(* ------------------------------------------------------------------------ *)
(** ** server/web_server.py: the background tasks *)

Fixpoint digits_rev (fuel : nat) (n : Z) : pystr :=
  match fuel with
  | O => []
  | S f => (48 + n mod 10) :: (if n <? 10 then [] else digits_rev f (n / 10))
  end.

(** [str(n)] for a [len(...)] *)
Definition nat_str (n : nat) : pystr := rev (digits_rev 20 (Z.of_nat n)).

Section Tasks.
Variable be : Backend.

(** [_task_analyze_image]; [fresh_uuid] is [str(uuid.uuid4())]. *)
Definition _task_analyze_image (img_bytes : list Z) (url : pystr) (timestamp_ms : Z)
    (prompt request_id sid model_id provider_name : option pystr) (fresh_uuid : pystr)
    : M unit :=
  let task_id := match request_id with
                 | Some r => if truthy request_id then r else fresh_uuid
                 | None => fresh_uuid end in
  st <- get_settings ;;
  match _determine_model_and_provider st model_id provider_name (image_analysis_provider st) with
  | (Some final_model_id, Some final_provider) =>
    try_except
      (let analysis_prompt_to_use :=
         match prompt with
         | Some s => if truthy prompt then s else DEFAULT_ANALYSIS_PROMPT
         | None => DEFAULT_ANALYSIS_PROMPT end in
       result <- analyze_image be img_bytes (Some analysis_prompt_to_use)
                   (Some final_model_id) (Some final_provider) ;;
       let analysis_text := py_str (get_or result "message" (VStr (py "分析未返回消息文本。"))) in
       let provider_used := get_or result "provider" (VStr final_provider) in
       let model_id_used := get_or result "model_id" (VStr final_model_id) in
       let entry := [kv "image_url" (VStr url); kv "analysis" (VStr analysis_text);
                     kv "prompt" (VStr analysis_prompt_to_use);
                     kv "timestamp" (VSeconds timestamp_ms);
                     kv "provider" provider_used; kv "model_id" model_id_used] in
       history_append entry ;;
       let emit_data := [kv "request_id" (VStr task_id); kv "provider" provider_used;
                         kv "model_id" model_id_used; kv "image_url" (VStr url);
                         kv "analysis" (VStr analysis_text);
                         kv "prompt" (VStr analysis_prompt_to_use);
                         kv "timestamp" (VSeconds timestamp_ms)] in
       emit_sid "analysis_result" emit_data sid ;;
       emit "new_screenshot" entry None)
      (fun e =>
         emit_sid "analysis_error"
           [kv "request_id" (VStr task_id); kv "image_url" (VStr url);
            kv "error" (VStr (exn_str e)); kv "provider" (VStr final_provider);
            kv "model_id" (VStr final_model_id)] sid)
  | _ =>
    let err_msg := py "无法为图像分析确定有效的模型或提供商。请求的模型: " ++ str_opt model_id
                   ++ py ", 提供商: " ++ str_opt provider_name in
    emit_sid "analysis_error"
      [kv "request_id" (VStr task_id); kv "image_url" (VStr url); kv "error" (VStr err_msg)] sid
  end.

(** The [stream_callback] closure of [_task_chat_only]. *)
Definition chat_stream_callback (request_id : pystr) (sid : option pystr)
    (final_provider final_model_id : pystr) (chunk : pystr) : M unit :=
  full_response_text <- get_buf ;;
  put_buf (full_response_text ++ chunk) ;;
  emit_sid "chat_stream_chunk"
    [kv "request_id" (VStr request_id); kv "chunk" (VStr chunk);
     kv "provider" (VStr final_provider); kv "model_id" (VStr final_model_id)] sid.

Definition opt_list_truthy {A} (o : option (list A)) : bool :=
  match o with Some (_ :: _) => true | _ => false end.

(** [_task_chat_only] *)
Definition _task_chat_only (prompt : pystr) (history : list turn) (request_id : pystr)
    (sid : option pystr) (use_streaming : bool) (model_id provider_name : option pystr)
    (image_base64 : option pystr) (all_images_base64 : option (list pystr)) : M unit :=
  st <- get_settings ;;
  match _determine_model_and_provider st model_id provider_name ModelProvider.OPENAI with
  | (Some final_model_id, Some final_provider) =>
    let images_to_send_to_core :=
      if opt_list_truthy all_images_base64 then all_images_base64
      else match image_base64 with
           | Some i => if truthy image_base64 then Some [i] else None
           | None => None end in
    let num_images_being_sent :=
      match images_to_send_to_core with Some l => List.length l | None => O end in
    try_except
      (if use_streaming then
         put_buf [] ;;
         chat_only_stream be prompt history
           (chat_stream_callback request_id sid final_provider final_model_id)
           (Some final_model_id) (Some final_provider) images_to_send_to_core ;;
         full_response_text <- get_buf ;;
         emit_sid "chat_stream_end"
           [kv "request_id" (VStr request_id); kv "provider" (VStr final_provider);
            kv "model_id" (VStr final_model_id); kv "full_message" (VStr full_response_text)] sid
       else
         result <- chat_only be prompt history (Some final_model_id) (Some final_provider)
                     images_to_send_to_core ;;
         let m := py_str (get_or result "message" (VStr [])) in
         let message_text := if truthy (Some m) then m else py "AI未返回有效内容" in
         emit_sid "chat_response"
           [kv "request_id" (VStr request_id); kv "message" (VStr message_text);
            kv "provider" (VStr final_provider); kv "model_id" (VStr final_model_id)] sid)
      (fun e =>
         let error_message :=
           py "处理聊天请求时出错 (模型: " ++ final_provider ++ py "/" ++ final_model_id
           ++ py ", 图片数: " ++ nat_str num_images_being_sent ++ py "): " ++ exn_str e in
         if truthy sid then
           emit "task_error"
             [kv "request_id" (VStr request_id); kv "error" (VStr error_message);
              kv "provider" (VStr final_provider); kv "model_id" (VStr final_model_id)] sid
         else ret tt)
  | _ =>
    let err_msg := py "无法为聊天确定有效的模型或提供商。请求的模型: " ++ str_opt model_id
                   ++ py ", 提供商: " ++ str_opt provider_name in
    if truthy sid then
      emit "task_error" [kv "request_id" (VStr request_id); kv "error" (VStr err_msg)] sid
    else ret tt
  end.

(** [_task_process_voice].  The temporary audio file exists when the task
    starts (the route saves it before spawning the task); only the [finally]
    clause of the [try] unlinks it.  Both accesses to [settings.stt_provider]
    that come before the [try] fail, since the class has no such field: the
    assignment raises [ValueError], the read in the [log.info] f-string raises
    [AttributeError]. *)
Definition _task_process_voice (request_id : pystr) (sid : option pystr)
    (model_id provider_name stt_provider : option pystr) : M unit :=
  (* [if stt_provider: settings.stt_provider = stt_provider] *)
  (if truthy stt_provider then raise (settings_no_field (py "stt_provider")) else ret tt) ;;
  st <- get_settings ;;
  let final_chat := _determine_model_and_provider st model_id provider_name ModelProvider.OPENAI in
  (* the [log.info] f-string *)
  settings_getattr_missing (A:=pystr) (py "stt_provider") ;;
  emit_stt_provider <- settings_getattr_missing (py "stt_provider") ;;
  try_finally
    (try_except
      (cont <- try_except
          (tell SttCall ;;
           transcript <- (fun w => (transcribe_audio_result be, w)) ;;
           match transcript with
           | Some t =>
             if truthy transcript then
               emit_sid "stt_result"
                 [kv "request_id" (VStr request_id); kv "transcript" (VStr t);
                  kv "provider" (VStr emit_stt_provider)] sid ;;
               ret (Some t)
             else
               emit_sid "stt_error"
                 [kv "request_id" (VStr request_id); kv "error" (VStr (py "语音识别未返回结果"));
                  kv "provider" (VStr emit_stt_provider)] sid ;;
               ret None
           | None =>
               emit_sid "stt_error"
                 [kv "request_id" (VStr request_id); kv "error" (VStr (py "语音识别未返回结果"));
                  kv "provider" (VStr emit_stt_provider)] sid ;;
               ret None
           end)
          (fun stt_err =>
             emit_sid "stt_error"
               [kv "request_id" (VStr request_id);
                kv "error" (VStr (py "语音识别出错: " ++ exn_str stt_err));
                kv "provider" (VStr emit_stt_provider)] sid ;;
             ret None) ;;
       match cont with
       | None => ret tt
       | Some transcript =>
         match final_chat with
         | (Some final_chat_model_id, Some final_chat_provider) =>
           try_except
             (chat_result <- chat_only be transcript [] (Some final_chat_model_id)
                               (Some final_chat_provider) None ;;
              let message_text := py_str (get_or chat_result "message" (VStr (py "AI 未返回有效回复。"))) in
              let provider_used := get_or chat_result "provider" (VStr final_chat_provider) in
              let model_used := get_or chat_result "model_id" (VStr final_chat_model_id) in
              emit_sid "voice_chat_response"
                [kv "request_id" (VStr request_id); kv "transcript" (VStr transcript);
                 kv "stt_provider" (VStr emit_stt_provider); kv "chat_provider" provider_used;
                 kv "chat_model_id" model_used; kv "message" (VStr message_text)] sid ;;
              tell (TtsCall message_text) ;;
              audio_url <- (fun w => (generate_tts_result be message_text, w)) ;;
              emit_sid "voice_answer_audio"
                [kv "request_id" (VStr request_id); kv "audio_url" (VStr audio_url)] sid)
             (fun chat_err =>
                emit_sid "chat_error"
                  [kv "request_id" (VStr request_id); kv "transcript" (VStr transcript);
                   kv "stt_provider" (VStr emit_stt_provider);
                   kv "chat_provider" (VStr final_chat_provider);
                   kv "chat_model_id" (VStr final_chat_model_id);
                   kv "error" (VStr (py "AI 聊天处理失败: " ++ exn_str chat_err))] sid)
         | _ =>
           emit_sid "chat_error"
             [kv "request_id" (VStr request_id); kv "transcript" (VStr transcript);
              kv "stt_provider" (VStr emit_stt_provider);
              kv "error" (VStr (py "无法为语音转文字后的聊天确定AI模型。"));
              kv "chat_provider" (VStr (py "error")); kv "chat_model_id" (VStr (py "error"))] sid
         end
       end)
      (* every statement that sets [final_result_sent = True] is the last one
         of its branch, so the flag is False whenever this handler runs *)
      (fun _ =>
         emit_sid "task_error"
           [kv "request_id" (VStr request_id);
            kv "error" (VStr (py "语音处理任务发生未知错误"))] sid))
    (tell DeleteFile).

End Tasks.

(* ------------------------------------------------------------------------ *)
(** ** server/web_server.py: the HTTP routes *)

(** The JSON value of a request field: a string, or any other JSON value. *)
Inductive jval := JStr (s : pystr) | JOther.

Definition jstr (v : option jval) : option pystr :=
  match v with Some (JStr s) => Some s | _ => None end.

(** The JSON body of a [/upload_raw] request ([None] for a body that is not a
    JSON object); a key absent from the object is [None].  Only the ["image"]
    value is kept as a raw JSON value; the optional fields are modelled as
    strings when present. *)
Record upload_raw_request := mkUploadRaw {
  ur_image : option jval;
  ur_model_id : option pystr;
  ur_provider : option pystr;
  ur_prompt : option pystr
}.

(** The JSON body of a [/chat] request. *)
Record chat_request := mkChatRequest {
  cr_prompt : option pystr;
  cr_history : list turn;
  cr_use_streaming : bool;
  cr_model_id : option pystr;
  cr_provider : option pystr;
  cr_image_data : option pystr
}.

Record http_response := mkResponse {
  status_code : Z;
  body : payload
}.

(** A call of [socketio.start_background_task]; every HTTP route passes
    [sid=None]. *)
Inductive spawn :=
| SpawnAnalyze (img_bytes : list Z) (url : pystr) (timestamp_ms : Z)
    (prompt request_id model_id provider_name : option pystr)
| SpawnChat (prompt : pystr) (history : list turn) (request_id : pystr) (use_streaming : bool)
    (model_id provider_name image_base64 : option pystr)
    (all_images_base64 : option (list pystr)).

(** [str(n)] of a non-negative integer *)
Definition z_str (n : Z) : pystr := rev (digits_rev 20 n).

Definition run_spawn (be : Backend) (fresh_uuid : pystr) (sp : spawn) : M unit :=
  match sp with
  | SpawnAnalyze img url ts prompt rid model prov =>
      _task_analyze_image be img url ts prompt rid None model prov fresh_uuid
  | SpawnChat prompt history rid streaming model prov img imgs =>
      _task_chat_only be prompt history rid None streaming model prov img imgs
  end.

(** [s.split(c, 1)] when [c] occurs in [s]. *)
Fixpoint split_at_first (c : Z) (s : pystr) : option (pystr * pystr) :=
  match s with
  | [] => None
  | x :: xs => if x =? c then Some ([], xs)
               else match split_at_first c xs with
                    | Some (a, b) => Some (x :: a, b) | None => None end
  end.

(** The [try] block of [upload_raw_route]: [None] when it raises. *)
Definition upload_raw_normalize (b64_string : pystr) : pystr :=
  (* [b64_string.split(',', 1)[1] if ',' in b64_string else b64_string] *)
  let b64_data := match split_at_first 44 b64_string with
                  | Some (_, after) => after | None => b64_string end in
  b64_data ++ repeat 61 (Z.to_nat ((- Z.of_nat (List.length b64_data)) mod 4)).

Definition upload_raw_decode (image : jval) : option (list Z) :=
  match image with
  | JStr b64_string => b64decode (upload_raw_normalize b64_string)
  | JOther => None   (* [',' in x], [len(x)] or [x + '='*k] raise TypeError *)
  end.

(** [upload_raw_route]: [request_id] is the fresh [uuid4], [timestamp_ms] the
    clock, [save_ok] whether [write_bytes] succeeds. *)
Definition upload_raw_route (request_id : pystr) (data : option upload_raw_request)
    (timestamp_ms : Z) (save_ok : bool) : http_response * option spawn :=
  match data with
  | Some d =>
    match ur_image d with
    | Some image =>
      match upload_raw_decode image with
      | Some img_bytes =>
        let filename := py "raw_" ++ z_str timestamp_ms ++ py ".png" in
        if negb save_ok then
          (mkResponse 500 [kv "error" (VStr (py "Failed to save image file"));
                           kv "request_id" (VStr request_id)], None)
        else
        let url := py "/screenshots/" ++ filename in
        (mkResponse 202 [kv "status" (VStr (py "processing"));
                         kv "message" (VStr (py "Upload accepted, analysis started."));
                         kv "request_id" (VStr request_id); kv "image_url" (VStr url)],
         Some (SpawnAnalyze img_bytes url timestamp_ms (ur_prompt d) (Some request_id)
                 (ur_model_id d) (ur_provider d)))
      | None =>
        (mkResponse 400 [kv "error" (VStr (py "Invalid base64 image data"));
                         kv "request_id" (VStr request_id)], None)
      end
    | None =>
      (mkResponse 400 [kv "error" (VStr (py "Missing image data in JSON"));
                       kv "request_id" (VStr request_id)], None)
    end
  | None =>
    (mkResponse 400 [kv "error" (VStr (py "Missing image data in JSON"));
                     kv "request_id" (VStr request_id)], None)
  end.

(** [http_chat_route] *)
Definition http_chat_route (request_id : pystr) (data : option chat_request)
    : http_response * option spawn :=
  match data with
  | Some d =>
    let prompt := strip (match cr_prompt d with Some p => p | None => [] end) in
    if negb (truthy (Some prompt)) then
      (mkResponse 400 [kv "error" (VStr (py "Missing or empty prompt in JSON"));
                       kv "request_id" (VStr request_id)], None)
    else
      (mkResponse 202 [kv "status" (VStr (py "processing"));
                       kv "message" (VStr (py "请求已收到，AI正在后台处理..."));
                       kv "request_id" (VStr request_id)],
       Some (SpawnChat prompt (cr_history d) request_id (cr_use_streaming d)
               (cr_model_id d) (cr_provider d) (cr_image_data d) None))
  | None =>
    (mkResponse 400 [kv "error" (VStr (py "Missing or empty prompt in JSON"));
                     kv "request_id" (VStr request_id)], None)
  end.

Definition ALLOWED_IMAGE_EXT : list pystr :=
  [py ".jpg"; py ".jpeg"; py ".png"; py ".webp"; py ".gif"].
Definition ALLOWED_TEXT_EXT : list pystr :=
  [py ".txt"; py ".md"; py ".py"; py ".js"; py ".css"; py ".html"; py ".json";
   py ".csv"; py ".log"; py ".xml"; py ".yaml"; py ".yml"].

(** [s.rsplit(c, 1)] when [c] occurs in [s]. *)
Fixpoint rsplit_last (c : Z) (s : pystr) : option (pystr * pystr) :=
  match s with
  | [] => None
  | x :: xs => match rsplit_last c xs with
               | Some (a, b) => Some (x :: a, b)
               | None => if x =? c then Some ([], xs) else None
               end
  end.

(** [os.path.splitext(p)[1]] (posixpath): the suffix from the last dot of the
    last path component, unless only dots precede that dot. *)
Definition splitext_ext (p : pystr) : pystr :=
  let base := match rsplit_last 47 p with Some (_, b) => b | None => p end in
  match rsplit_last 46 base with
  | Some (before, after) =>
      if existsb (fun x => negb (x =? 46)) before then 46 :: after else []
  | None => []
  end.

(** Universal-newline translation of text-mode reading: ["\r\n"] and ["\r"]
    become ["\n"]. *)
Fixpoint translate_newlines (s : pystr) : pystr :=
  match s with
  | [] => []
  | x :: r =>
      if x =? 13 then
        10 :: match r with
              | y :: r' => if y =? 10 then translate_newlines r' else translate_newlines r
              | [] => []
              end
      else x :: translate_newlines r
  end.

(** [path.read_text(encoding='utf-8', errors='ignore')] *)
Definition read_text (bytes : list Z) : pystr :=
  translate_newlines (utf8_decode_ignore bytes).

(** A file of the multipart ["files"] field: its client file name and the
    bytes saved to the temporary file. *)
Record upload := mkUpload {
  up_filename : pystr;
  up_bytes : list Z
}.

(** The form of a [/chat_with_file] request.  [cf_pasted] is the parsed
    ["pasted_images_base64_json_array"] field when it is a JSON list of
    strings, and [None] otherwise (the route then uses no pasted image). *)
Record chat_file_form := mkChatFileForm {
  cf_request_id : option pystr;
  cf_prompt : option pystr;
  cf_history : list turn;
  cf_model_id : option pystr;
  cf_provider : option pystr;
  cf_use_streaming : bool;
  cf_pasted : option (list pystr);
  cf_files : list upload
}.

Definition TRUNCATION_MARKER : pystr := nl ++ py "[...文件内容过长，已截断...]".

Section ChatWithFile.
(** [werkzeug.utils.secure_filename] *)
Variable secure_filename : pystr -> pystr.
(** The module constant [MAX_TEXT_FILE_CHARS].  web_server.py binds it to
    [settings.MAX_TEXT_FILE_CHARS] at import, a read that raises
    [AttributeError] (see [Settings]); the route is modelled for any value
    of the constant. *)
Variable MAX_TEXT_FILE_CHARS : nat.

(** The body of the [for file_obj in uploaded_file_objects] loop: the images
    and prompt parts collected so far, updated for one file. *)
Definition process_upload (acc : list pystr * list pystr) (file_obj : upload)
    : list pystr * list pystr :=
  let (final_all_images_base64, additional_text_parts_for_prompt) := acc in
  if negb (truthy (Some (up_filename file_obj))) then acc
  else
  let original_filename := secure_filename (up_filename file_obj) in
  let file_ext := lower (splitext_ext original_filename) in
  if py_in file_ext ALLOWED_IMAGE_EXT then
    (final_all_images_base64 ++ [b64encode (up_bytes file_obj)], additional_text_parts_for_prompt)
  else if py_in file_ext ALLOWED_TEXT_EXT then
    let file_content_str := firstn MAX_TEXT_FILE_CHARS (read_text (up_bytes file_obj)) in
    let file_content_str :=
      if (List.length file_content_str =? MAX_TEXT_FILE_CHARS)%nat
         && (MAX_TEXT_FILE_CHARS <? List.length (up_bytes file_obj))%nat
      then file_content_str ++ TRUNCATION_MARKER
      else file_content_str in
    let text_file_header :=
      nl ++ nl ++ py "--- 用户上传的文本文件: " ++ original_filename ++ py " ---" ++ nl in
    (final_all_images_base64,
     additional_text_parts_for_prompt
       ++ [text_file_header ++ file_content_str ++ nl ++ py "--- 文件结束 ---"])
  else
    (final_all_images_base64,
     additional_text_parts_for_prompt
       ++ [nl ++ nl ++ py "[用户上传了文件: " ++ original_filename ++ py " (类型: "
           ++ file_ext ++ py ", 不支持内容预览)]"]).

(** [chat_with_file_route] *)
Definition chat_with_file_route (form : chat_file_form) : http_response * option spawn :=
  match cf_request_id form with
  | Some form_request_id =>
    if negb (truthy (cf_request_id form)) then
      (mkResponse 400 [kv "error" (VStr (py "Missing 'request_id' in form data"))], None)
    else
    let prompt_from_user := strip (match cf_prompt form with Some p => p | None => [] end) in
    let direct_pasted_images_base64 :=
      match cf_pasted form with Some l => l | None => [] end in
    let uploaded_file_objects := cf_files form in
    if negb (truthy (Some prompt_from_user)) && negb (opt_list_truthy (Some uploaded_file_objects))
       && negb (opt_list_truthy (Some direct_pasted_images_base64)) then
      (mkResponse 400 [kv "error" (VStr (py "Request needs a prompt, files, or pasted images."));
                       kv "request_id" (VStr form_request_id)], None)
    else
    let '(final_all_images_base64, additional_text_parts_for_prompt) :=
      fold_left process_upload uploaded_file_objects (direct_pasted_images_base64, []) in
    let final_prompt_for_ai := prompt_from_user ++ List.concat additional_text_parts_for_prompt in
    (mkResponse 202 [kv "status" (VStr (py "processing"));
                     kv "message" (VStr (py "请求已收到，AI正在后台处理..."));
                     kv "request_id" (VStr form_request_id)],
     Some (SpawnChat final_prompt_for_ai (cf_history form) form_request_id
             (cf_use_streaming form) (cf_model_id form) (cf_provider form) None
             (if opt_list_truthy (Some final_all_images_base64)
              then Some final_all_images_base64 else None)))
  | None =>
    (mkResponse 400 [kv "error" (VStr (py "Missing 'request_id' in form data"))], None)
  end.

End ChatWithFile.

(* ------------------------------------------------------------------------ *)
(** ** core/constants.py: the derived tables *)

(** [FLAT_MODEL_ID_LIST] *)
Definition FLAT_MODEL_ID_LIST : list pystr :=
  flat_map (fun '(_, provider_models) => odict_keys provider_models) ALL_AVAILABLE_MODELS.

(** [MODEL_TO_PROVIDER_MAP]: the [model_id: provider_key] pairs of the
    comprehension, in the order it inserts them. *)
Definition MODEL_TO_PROVIDER_MAP : list (pystr * pystr) :=
  flat_map (fun '(provider_key, provider_models) =>
              map (fun model_id => (model_id, provider_key)) (odict_keys provider_models))
    ALL_AVAILABLE_MODELS.

(** Lookup in the dict a comprehension builds from these pairs: a later
    insertion of a key overwrites an earlier one. *)
Fixpoint dict_lookup_last {V} (l : list (pystr * V)) (k : pystr) : option V :=
  match l with
  | [] => None
  | (k', v) :: l' =>
      match dict_lookup_last l' k with
      | Some v' => Some v'
      | None => if pystr_eqb k k' then Some v else None
      end
  end.

(* ------------------------------------------------------------------------ *)
(** ** server/web_server.py: [check_token] and [/api_info] *)

(** [check_token()]: [true] when the request proceeds, [false] when it is
    aborted with 401.  [dashboard_token] is [settings.dashboard_token],
    [authorization] the request's [Authorization] header. *)
Definition check_token (dashboard_token authorization : option pystr) : bool :=
  if truthy dashboard_token then
    match dashboard_token, authorization with
    | Some t, Some a => pystr_eqb a (py "Bearer " ++ t)
    | _, _ => false
    end
  else true.

(** The response of [abort(401, description=...)]. *)
Definition unauthorized : http_response :=
  mkResponse 401 [kv "description" (VStr (py "Unauthorized: Invalid or missing token."))].

(** [api_info_route] *)
Definition api_info_route (dashboard_token authorization : option pystr) (st : Settings)
    : http_response :=
  if negb (check_token dashboard_token authorization) then unauthorized
  else
  let primary_provider :=
    if truthy (Some (image_analysis_provider st)) then image_analysis_provider st
    else ModelProvider.OPENAI in
  let default_model_id := get_default_model_for_provider primary_provider in
  mkResponse 200
    [kv "provider" (VStr primary_provider);
     kv "default_model_id"
       (VStr (match default_model_id with
              | Some m => if truthy default_model_id then m else py "N/A"
              | None => py "N/A" end))].

(* ------------------------------------------------------------------------ *)
(** ** server/web_server.py: the [chat_message] socket event *)

(** A JSON value as python-socketio hands it to the handler ([float] values
    are not represented).  A [dict] is an association list with distinct
    keys. *)
#[warnings="-register-all"] Inductive sval :=
| SStr (s : pystr)
| SBool (b : bool)
| SInt (n : Z)
| SNull
| SList (l : list sval)
| SDict (d : list (pystr * sval)).

(** [str(n)] of an [int] *)
Definition int_str (n : Z) : pystr :=
  if n <? 0 then 45 :: rev (digits_rev (S (Z.to_nat (Z.log2 (- n)))) (- n))
  else rev (digits_rev (S (Z.to_nat (Z.log2 n))) n).

(** [str(v)] when [repr] is false, [repr(v)] when it is true; inside a
    container a string is written between single quotes without escaping
    its characters. *)
Fixpoint sval_fmt (repr : bool) (v : sval) : pystr :=
  match v with
  | SStr s => if repr then 39 :: s ++ [39] else s
  | SBool b => if b then py "True" else py "False"
  | SInt n => int_str n
  | SNull => py "None"
  | SList l => 91 :: join (py ", ") (map (sval_fmt true) l) ++ [93]
  | SDict d =>
      123 :: join (py ", ")
               (map (fun '(k, x) => (39 :: k ++ [39]) ++ py ": " ++ sval_fmt true x) d)
      ++ [125]
  end.

(** [str(v)] *)
Definition sval_str (v : sval) : pystr := sval_fmt false v.

Definition sval_truthy (v : sval) : bool :=
  match v with
  | SStr s => truthy (Some s)
  | SBool b => b
  | SInt n => negb (n =? 0)
  | SNull => false
  | SList l => match l with [] => false | _ => true end
  | SDict d => match d with [] => false | _ => true end
  end.

(** [type(v).__name__] *)
Definition type_name (v : sval) : pystr :=
  match v with
  | SStr _ => py "str" | SBool _ => py "bool" | SInt _ => py "int" | SNull => py "NoneType"
  | SList _ => py "list" | SDict _ => py "dict"
  end.

Definition is_dict (v : sval) : bool := match v with SDict _ => true | _ => false end.

(** [d.get(k, default)] on a JSON object *)
Definition sdict_get (d : list (pystr * sval)) (k : pystr) (dflt : sval) : sval :=
  match find (fun e => pystr_eqb k (fst e)) d with Some (_, v) => v | None => dflt end.

(** What the handler does: raise, [socketio.emit(name, data, to=sid)] and
    return, or start [_task_chat_only] (with [sid=sid] and
    [image_base64=None]). *)
Inductive chat_socket_outcome :=
| SocketRaised (e : exn)
| SocketEmit (name : pystr) (data : list (pystr * sval))
| SocketSpawn (prompt : pystr) (history request_id : sval) (use_streaming : bool)
    (model_id provider_name : sval) (all_images_base64 : option (list sval)).

(** [handle_chat_message_socket]; [fresh_uuid] is [str(uuid.uuid4())].  The
    log line before the [isinstance] test evaluates [list(data.keys())]. *)
Definition handle_chat_message_socket (data : sval) (fresh_uuid : pystr) : chat_socket_outcome :=
  match data with
  | SDict d =>
    if negb (is_dict data) then
      SocketEmit (py "task_error") [(py "message", SStr (py "Invalid request format."))]
    else
    match sdict_get d (py "prompt") (SStr []) with
    | SStr prompt_raw =>
      let prompt := strip prompt_raw in
      let history_data := sdict_get d (py "history") (SList []) in
      let client_request_id := sdict_get d (py "request_id") SNull in
      let use_streaming_str :=
        lower (sval_str (sdict_get d (py "use_streaming") (SStr (py "true")))) in
      let use_streaming := pystr_eqb use_streaming_str (py "true")
                           || pystr_eqb use_streaming_str (py "yes")
                           || pystr_eqb use_streaming_str (py "1") in
      let selected_model_id := sdict_get d (py "model_id") SNull in
      let selected_provider := sdict_get d (py "provider") SNull in
      let single_image_base64_data := sdict_get d (py "image_data") SNull in
      let image_array_from_socket := sdict_get d (py "image_data_array") SNull in
      let images_for_task :=
        match image_array_from_socket with
        | SList l => if sval_truthy image_array_from_socket then Some l else None
        | _ => None end in
      let images_for_task :=
        if sval_truthy image_array_from_socket
           && match image_array_from_socket with SList _ => true | _ => false end
        then images_for_task
        else match single_image_base64_data with
             | SStr _ => if sval_truthy single_image_base64_data
                         then Some [single_image_base64_data] else None
             | _ => None end in
      if negb (truthy (Some prompt)) && negb (opt_list_truthy images_for_task) then
        SocketEmit (py "task_error")
          [(py "request_id", client_request_id);
           (py "error", SStr (py "Prompt or images cannot be empty."))]
      else
        SocketSpawn prompt history_data
          (if sval_truthy client_request_id then client_request_id else SStr fresh_uuid)
          use_streaming selected_model_id selected_provider images_for_task
    | v => SocketRaised (OtherError (py "'" ++ type_name v ++ py "' object has no attribute 'strip'"))
    end
  | _ => SocketRaised (OtherError (py "'" ++ type_name data ++ py "' object has no attribute 'keys'"))
  end.

(* ------------------------------------------------------------------------ *)
(** ** server/web_server.py: [/upload_screenshot] *)

(** [os.path.splitext(p)] *)
Definition splitext (p : pystr) : pystr * pystr :=
  let ext := splitext_ext p in (firstn (List.length p - List.length ext) p, ext).

(** [s.replace(old, new)] for one-character [old] and [new] *)
Definition replace_char (old new : Z) (s : pystr) : pystr :=
  map (fun c => if c =? old then new else c) s.

(** The multipart request of [/upload_screenshot]: the ["image"] file, when
    the request has one, and the form fields. *)
Record screenshot_form := mkScreenshotForm {
  sf_image : option upload;
  sf_prompt : option pystr;
  sf_model_id : option pystr;
  sf_provider : option pystr
}.

(** [upload_screenshot_route]: [request_id] is the fresh [uuid4],
    [timestamp_ms] the clock, [save_ok] whether [uploaded_file.save]
    succeeds; [read_bytes] then returns the uploaded bytes. *)
Definition upload_screenshot_route (secure_filename : pystr -> pystr) (request_id : pystr)
    (form : screenshot_form) (timestamp_ms : Z) (save_ok : bool) : http_response * option spawn :=
  match sf_image form with
  | None =>
    (mkResponse 400 [kv "error" (VStr (py "Missing image file"));
                     kv "request_id" (VStr request_id)], None)
  | Some uploaded_file =>
    let original_filename :=
      secure_filename (if truthy (Some (up_filename uploaded_file))
                       then up_filename uploaded_file else py "uploaded.png") in
    let '(base, ext) := splitext original_filename in
    let save_ext := if py_in (lower ext) ALLOWED_IMAGE_EXT then lower ext else py ".png" in
    let filename := py "form_upload_" ++ z_str timestamp_ms ++ py "_"
                    ++ replace_char 32 95 (firstn 20 base) ++ save_ext in
    if negb save_ok then
      (mkResponse 500 [kv "error" (VStr (py "Failed to save image"));
                       kv "request_id" (VStr request_id)], None)
    else
    let img_bytes_content := up_bytes uploaded_file in
    let url := py "/screenshots/" ++ filename in
    match img_bytes_content with
    | _ :: _ =>
      (mkResponse 202 [kv "status" (VStr (py "processing")); kv "image_url" (VStr url);
                       kv "message" (VStr (py "Upload accepted, analysis started."));
                       kv "request_id" (VStr request_id)],
       Some (SpawnAnalyze img_bytes_content url timestamp_ms (sf_prompt form) (Some request_id)
               (sf_model_id form) (sf_provider form)))
    | [] =>
      (mkResponse 500 [kv "error" (VStr (py "Failed to process image after save"));
                       kv "request_id" (VStr request_id)], None)
    end
  end.

(* ------------------------------------------------------------------------ *)
(** ** server/web_server.py: the crop box of [/crop_image] *)

Inductive crop_result :=
| CropInvalidDimensions                 (* 400 'Invalid crop dimensions' *)
| CropAreaInvalid                       (* 400 'Calculated crop area invalid' *)
| CropBox (x1 y1 x2 y2 : Z).            (* the box passed to [img.crop] *)

(** From the parsed [x, y, w, h] to the box [img.crop] receives, for an
    image of size [width] x [height]. *)
Definition crop_box (x y w h width height : Z) : crop_result :=
  if (w <=? 0) || (h <=? 0) then CropInvalidDimensions
  else
  let box_x1 := Z.max 0 x in
  let box_y1 := Z.max 0 y in
  let box_x2 := Z.min width (x + w) in
  let box_y2 := Z.min height (y + h) in
  if (box_x2 <=? box_x1) || (box_y2 <=? box_y1) then CropAreaInvalid
  else CropBox box_x1 box_y1 box_x2 box_y2.

(* ------------------------------------------------------------------------ *)
(** ** core/settings.py: proxy helpers and the provider validator *)

(** A [Dict[str, str]] built by the proxy helpers: an association list in
    insertion order. *)
Definition odict_mem {V} (d : odict V) (k : pystr) : bool :=
  py_in k (odict_keys d).

(** [d[k] = v]: an existing key keeps its position. *)
Fixpoint odict_setitem {V} (d : odict V) (k : pystr) (v : V) : odict V :=
  match d with
  | [] => [(k, v)]
  | (k', v') :: d' =>
      if pystr_eqb k k' then (k', v) :: d' else (k', v') :: odict_setitem d' k v
  end.

(** [d.setdefault(k, v)] *)
Definition odict_setdefault {V} (d : odict V) (k : pystr) (v : V) : odict V :=
  if odict_mem d k then d else d ++ [(k, v)].

(** [x if "://" in x else f"http://{x}"] *)
Definition proxy_url (x : pystr) : pystr :=
  if substr (py "://") x then x else py "http://" ++ x.

(** [Settings.get_proxy_dict]; [http_proxy] and [https_proxy] are the two
    settings fields it reads. *)
Definition get_proxy_dict (http_proxy https_proxy : option pystr) : option (odict pystr) :=
  let proxies : odict pystr := [] in
  let proxies :=
    if truthy https_proxy
    then odict_setitem proxies (py "https") (proxy_url (str_opt https_proxy))
    else proxies in
  let proxies :=
    if truthy http_proxy then
      let http_proxy_url := proxy_url (str_opt http_proxy) in
      odict_setitem (odict_setdefault proxies (py "https") http_proxy_url)
        (py "http") http_proxy_url
    else proxies in
  match proxies with [] => None | _ => Some proxies end.

(** [Settings.get_httpx_client]: the proxy map of the client it returns,
    [None] when it returns [None].  [httpx_installed] says whether the
    import succeeded, [client_ok] whether [httpx.Client(...)] returned
    without raising. *)
Definition get_httpx_client (httpx_installed client_ok : bool)
    (http_proxy https_proxy : option pystr) : option (odict pystr) :=
  if negb httpx_installed then None else
  let proxies_for_httpx : odict pystr := [] in
  let proxies_for_httpx :=
    if truthy http_proxy then
      let http_proxy_url := proxy_url (str_opt http_proxy) in
      odict_setdefault (odict_setitem proxies_for_httpx (py "http://") http_proxy_url)
        (py "https://") http_proxy_url
    else proxies_for_httpx in
  let proxies_for_httpx :=
    if truthy https_proxy
    then odict_setitem proxies_for_httpx (py "https://") (proxy_url (str_opt https_proxy))
    else proxies_for_httpx in
  match proxies_for_httpx with
  | [] => None
  | _ => if client_ok then Some proxies_for_httpx else None
  end.

(** The [image_analysis_provider] field validator [_norm_provider]; [None]
    is the [ValueError].  Pydantic runs it on the [str] field, so the
    [isinstance] test always passes.  [lower] maps the ASCII range only; no
    other code point lowers to a character of ["openai"] or ["gemini"] or to
    whitespace, so the accepted inputs are the same. *)
Definition _norm_provider (v : pystr) : option pystr :=
  let v := strip (lower v) in
  if py_in v [py "openai"; py "gemini"] then Some v else None.

(* ------------------------------------------------------------------------ *)
(** ** Auxiliary definitions for the further properties *)

(** The registry's tables; the [use_streaming] test on [str(v).lower()];
    integer ranges, bytes and the base64 sextet checks; Gemini data parts. *)
Definition flat_keys (reg : odict (odict pystr)) : list pystr :=
  flat_map (fun '(_, provider_models) => odict_keys provider_models) reg.

Definition provider_pairs (reg : odict (odict pystr)) : list (pystr * pystr) :=
  flat_map (fun '(provider_key, provider_models) =>
              map (fun model_id => (model_id, provider_key)) (odict_keys provider_models)) reg.

Definition streaming_word (s : pystr) : bool :=
  pystr_eqb s (py "true") || pystr_eqb s (py "yes") || pystr_eqb s (py "1").

Definition zrange (n : nat) : list Z := map Z.of_nat (seq 0 n).
Definition is_byte (b : Z) : Prop := 0 <= b < 256.

Definition b64_sextet_ok (v : Z) : bool :=
  (b64_value (b64_char v) =? v) && negb (b64_char v =? 61)
  && (b64_char v <? 128) && negb (py_isspace (b64_char v)).

Definition sextet (v : Z) : bool := (0 <=? v) && (v <? 64).

Definition enc_first_ok (a b : Z) : bool :=
  let v1 := Z.shiftr a 2 in
  let v2 := Z.lor (Z.shiftl (Z.land a 3) 4) (Z.shiftr b 4) in
  sextet v1 && sextet v2
  && (Z.land (Z.lor (Z.shiftl v1 2) (Z.shiftr v2 4)) 255 =? a)
  && (Z.land v2 15 =? Z.shiftr b 4).

Definition enc_second_ok (b c : Z) : bool :=
  let v3 := Z.lor (Z.shiftl (Z.land b 15) 2) (Z.shiftr c 6) in
  sextet v3
  && (Z.land (Z.lor (Z.shiftl (Z.shiftr b 4) 4) (Z.shiftr v3 2)) 255 =? b)
  && (Z.land v3 3 =? Z.shiftr c 6).

Definition enc_single_ok (a : Z) : bool :=
  let v1 := Z.shiftr a 2 in
  let v2 := Z.shiftl (Z.land a 3) 4 in
  let v3 := Z.shiftl (Z.land a 15) 2 in
  let v4 := Z.land a 63 in
  sextet v1 && sextet v2 && sextet v3 && sextet v4
  && (Z.land (Z.lor (Z.shiftl v1 2) (Z.shiftr v2 4)) 255 =? a)
  && (Z.land (Z.lor (Z.shiftl (Z.shiftr a 4) 4) (Z.shiftr v3 2)) 255 =? a)
  && (Z.land (Z.lor (Z.shiftl (Z.shiftr a 6) 6) v4) 255 =? a).

Definition is_gdata (p : gpart) : bool :=
  match p with GData _ _ => true | GText _ => false end.

(* ------------------------------------------------------------------------ *)
(** ** Auxiliary definitions for the statements *)

(** The message of the [TypeError] raised by the call of [chat_only] in
    [analyze_image]. *)
Definition image_base64_kwarg_error : pystr :=
  py "chat_only" ++ py "() got an unexpected keyword argument '" ++ py "image_base64" ++ py "'".

(** The prompt part [chat_with_file_route] builds for a text upload. *)
Definition text_file_part (name content : pystr) : pystr :=
  nl ++ nl ++ py "--- 用户上传的文本文件: " ++ name ++ py " ---" ++ nl
  ++ content ++ nl ++ py "--- 文件结束 ---".

(** The base64 images of the uploads with an image extension, in upload order. *)
Definition uploaded_images (secure_filename : pystr -> pystr) (files : list upload) : list pystr :=
  flat_map (fun f =>
    if truthy (Some (up_filename f))
       && py_in (lower (splitext_ext (secure_filename (up_filename f)))) ALLOWED_IMAGE_EXT
    then [b64encode (up_bytes f)] else []) files.

(** A computation that leaves the global [settings] object as it found it. *)
Definition keeps_settings {A} (m : M A) : Prop :=
  forall w, w_settings (snd (m w)) = w_settings w.

(** A computation that changes the [HISTORY] list only by appending to it. *)
Definition appends_history {A} (m : M A) : Prop :=
  forall w, exists l, w_history (snd (m w)) = w_history w ++ l.

(** Concurrent tasks.  Every background task runs in a green thread of its
    own with its own locals (its [full_response_text] cell among them), so a
    task runs on a world of its own; the tasks share the settings object,
    which no task changes, and the socket, which carries the events of all
    of them interleaved.  [own_trace t w] is what task [t] emits when it
    starts on the shared settings and history of [w]. *)
Definition own_trace (t : M unit) (w : world) : list effect :=
  w_trace (snd (t (mkWorld (w_settings w) (w_history w) [] (w_buf w)))).

(** The events of the socket trace [g] tagged with task index [i]. *)
Definition task_events (i : nat) (g : list (nat * effect)) : list effect :=
  map snd (filter (fun e => Nat.eqb (fst e) i) g).

(** [g] interleaves the task traces [ts]: every event is tagged with the
    index of a task, and the events of task [i] are [nth i ts], in order. *)
Definition interleaves (ts : list (list effect)) (g : list (nat * effect)) : Prop :=
  Forall (fun e => (fst e < List.length ts)%nat) g /\
  forall i, (i < List.length ts)%nat -> task_events i g = nth i ts [].

Definition opt_pystr_eqb (a b : option pystr) : bool :=
  match a, b with
  | Some x, Some y => pystr_eqb x y
  | None, None => true
  | _, _ => false
  end.

(** The socket events addressed to [to] ([None]: broadcast). *)
Definition delivered_to (to : option pystr) (e : effect) : bool :=
  match e with Emit em => opt_pystr_eqb (ev_to em) to | _ => false end.

(** Sample inputs for the concrete runs: settings with both API keys set,
    an empty world, a backend that answers every call, and a backend whose
    every call raises. *)
Definition sample_settings : Settings :=
  mkSettings (py "gemini") (Some (py "sk-test")) (Some (py "g-test")).
Definition sample_world : world := mkWorld sample_settings [] [] [].
Definition stub_backend (chunks : list pystr) : Backend :=
  mkBackend (fun _ _ => Ok (Some (py "hi"))) (fun _ _ => mkStream (map Some chunks) None)
    (fun _ _ => Ok (mkGeminiResponse (py "hi") None (Some FinishStop)))
    (fun _ _ => mkStream (map (fun c => mkGeminiChunk c None) chunks) None)
    (Ok (Some (py "hello"))) (fun _ => Ok (py "/static/tts.mp3")).
Definition failing_backend (msg : pystr) : Backend :=
  mkBackend (fun _ _ => Raised (OpenAIAPIError msg)) (fun _ _ => mkStream [] (Some (OpenAIAPIError msg)))
    (fun _ _ => Raised (GenaiAPIError msg)) (fun _ _ => mkStream [] (Some (GenaiAPIError msg)))
    (Raised (OtherError msg)) (fun _ => Raised (OtherError msg)).

(** The events [_task_chat_only] emits in streaming mode: one per chunk,
    and one at the end of the stream. *)
Definition chunk_event (request_id : pystr) (sid : option pystr) (p m c : pystr) : effect :=
  Emit (mkEmission (py "chat_stream_chunk")
          [kv "request_id" (VStr request_id); kv "chunk" (VStr c);
           kv "provider" (VStr p); kv "model_id" (VStr m)]
          (if truthy sid then sid else None)).

Definition end_event (request_id : pystr) (sid : option pystr) (p m full : pystr) : effect :=
  Emit (mkEmission (py "chat_stream_end")
          [kv "request_id" (VStr request_id); kv "provider" (VStr p);
           kv "model_id" (VStr m); kv "full_message" (VStr full)]
          (if truthy sid then sid else None)).

(** The chunks [stream_callback] is called with: the non-empty ones. *)
Definition nonempty (c : pystr) : bool := truthy (Some c).

(* ------------------------------------------------------------------------ *)
(** ** Properties *)

Lemma pystr_eqb_true (a b : pystr) : pystr_eqb a b = true <-> a = b.
Proof. unfold pystr_eqb; destruct (list_eq_dec Z.eq_dec a b); split; congruence. Qed.

Lemma pystr_eqb_refl (a : pystr) : pystr_eqb a a = true.
Proof. apply pystr_eqb_true; reflexivity. Qed.

Lemma py_in_In (x : pystr) (l : list pystr) : py_in x l = true <-> In x l.
Proof.
  unfold py_in; rewrite existsb_exists; split.
  - intros [y [Hy Hxy]]; apply pystr_eqb_true in Hxy; subst; exact Hy.
  - intros H; exists x; split; [exact H | apply pystr_eqb_refl].
Qed.

Lemma scan_providers_first (pre post : odict (odict pystr)) (p m : pystr) (ms : odict pystr) :
  forallb (fun e => negb (py_in m (odict_keys (snd e)))) pre = true ->
  py_in m (odict_keys ms) = true ->
  scan_providers (pre ++ (p, ms) :: post) m = Some p.
Proof.
  induction pre as [|[q qs] pre IH]; simpl; intros Hpre Hin.
  - rewrite Hin; reflexivity.
  - apply andb_true_iff in Hpre as [Hq Hpre].
    apply negb_true_iff in Hq; rewrite Hq; apply IH; assumption.
Qed.

Lemma odict_get_middle {V} (pre post : odict V) (k : pystr) (v : V) :
  NoDup (odict_keys (pre ++ (k, v) :: post)) ->
  odict_get (pre ++ (k, v) :: post) k = Some v.
Proof.
  induction pre as [|[k' v'] pre IH]; simpl; intros Hnd.
  - rewrite pystr_eqb_refl; reflexivity.
  - inversion Hnd as [|? ? Hnotin Hnd']; subst.
    destruct (pystr_eqb k k') eqn:E.
    + apply pystr_eqb_true in E; subst k'.
      exfalso; apply Hnotin; unfold odict_keys; rewrite map_app; apply in_or_app; right; left; reflexivity.
    + apply IH; exact Hnd'.
Qed.

Lemma ALL_AVAILABLE_MODELS_keys_NoDup : NoDup (odict_keys ALL_AVAILABLE_MODELS).
Proof.
  vm_compute.
  repeat constructor; simpl; intuition discriminate.
Qed.

Lemma ALL_AVAILABLE_MODELS_keys_truthy :
  forallb (fun k => truthy (Some k)) (odict_keys ALL_AVAILABLE_MODELS) = true.
Proof. vm_compute; reflexivity. Qed.

Lemma registry_entry_valid (pre post : odict (odict pystr)) (p m : pystr) (ms : odict pystr) :
  ALL_AVAILABLE_MODELS = pre ++ (p, ms) :: post ->
  py_in m (odict_keys ms) = true ->
  truthy (Some p) = true /\ py_in p (odict_keys ALL_AVAILABLE_MODELS) = true /\ registered p m = true.
Proof.
  intros Hreg Hin.
  assert (Hk : In p (odict_keys ALL_AVAILABLE_MODELS)).
  { rewrite Hreg; unfold odict_keys; rewrite map_app; apply in_or_app; right; left; reflexivity. }
  split; [|split].
  - pose proof ALL_AVAILABLE_MODELS_keys_truthy as Ht.
    rewrite forallb_forall in Ht; exact (Ht p Hk).
  - apply py_in_In; exact Hk.
  - unfold registered; rewrite Hreg, odict_get_middle; [exact Hin|].
    rewrite <- Hreg; apply ALL_AVAILABLE_MODELS_keys_NoDup.
Qed.

(** Claim C8: with no provider requested and a model given, the resolver
    returns the first provider of the registry, in registry order, whose
    model table contains the model, and that pair passes the registry
    membership check. *)
Theorem determine_infers_first_provider (st : Settings) (m : pystr)
    (requested_provider : option pystr) (default_provider_type : pystr)
    (pre post : odict (odict pystr)) (p : pystr) (ms : odict pystr)
    (Hprov : truthy requested_provider = false)
    (Hm : truthy (Some m) = true)
    (Hreg : ALL_AVAILABLE_MODELS = pre ++ (p, ms) :: post)
    (Hin : py_in m (odict_keys ms) = true)
    (Hfirst : forallb (fun e => negb (py_in m (odict_keys (snd e)))) pre = true) :
  _determine_model_and_provider st (Some m) requested_provider default_provider_type
    = (Some m, Some p)
  /\ py_in p (odict_keys ALL_AVAILABLE_MODELS) = true /\ registered p m = true.
Proof.
  destruct (registry_entry_valid pre post p m ms Hreg Hin) as [Hp [Hk Hr]].
  assert (Hscan : scan_providers ALL_AVAILABLE_MODELS m = Some p).
  { rewrite Hreg; apply scan_providers_first; assumption. }
  split; [|split; assumption].
  unfold _determine_model_and_provider.
  rewrite Hprov, Hm, Hscan, Hp, Hk, Hr.
  destruct m; [discriminate|]; destruct p; [discriminate|]; reflexivity.
Qed.

(** A concrete run of [determine_infers_first_provider]. *)
Lemma determine_infers_first_provider_witness :
  _determine_model_and_provider
    (mkSettings (py "gemini") None None)
    (Some (py "claude-3-opus")) None ModelProvider.OPENAI
  = (Some (py "claude-3-opus"), Some ModelProvider.CLAUDE)
  /\ py_in ModelProvider.CLAUDE (odict_keys ALL_AVAILABLE_MODELS) = true
  /\ registered ModelProvider.CLAUDE (py "claude-3-opus") = true.
Proof.
  apply (determine_infers_first_provider _ (py "claude-3-opus") None ModelProvider.OPENAI
           [(ModelProvider.OPENAI, _AVAILABLE_OPENAI_MODELS); (ModelProvider.GEMINI, _AVAILABLE_GEMINI_MODELS)]
           [(ModelProvider.GROK, _AVAILABLE_GROK_MODELS)] ModelProvider.CLAUDE _AVAILABLE_CLAUDE_MODELS);
  vm_compute; reflexivity.
Defined.

Lemma resolution_check_inv (fm fp : option pystr) (m p : pystr) :
  match fm, fp with
  | Some m0, Some p0 =>
      if truthy fm && truthy fp && py_in p0 (odict_keys ALL_AVAILABLE_MODELS) && registered p0 m0
      then (Some m0, Some p0) else (None, None)
  | _, _ => (None, None)
  end = (Some m, Some p) ->
  fm = Some m /\ fp = Some p /\ truthy (Some m) = true /\ truthy (Some p) = true
  /\ py_in p (odict_keys ALL_AVAILABLE_MODELS) = true /\ registered p m = true.
Proof.
  destruct fm as [m0|], fp as [p0|]; try discriminate.
  destruct (truthy (Some m0) && truthy (Some p0) && py_in p0 (odict_keys ALL_AVAILABLE_MODELS)
            && registered p0 m0) eqn:E; [|discriminate].
  intros H; inversion H; subst.
  repeat rewrite andb_true_iff in E; destruct E as [[[E1 E2] E3] E4].
  repeat split; assumption.
Qed.

Lemma determine_resolved (st : Settings) (model prov : option pystr) (d m p : pystr) :
  _determine_model_and_provider st model prov d = (Some m, Some p) ->
  truthy (Some m) = true /\ truthy (Some p) = true
  /\ py_in p (odict_keys ALL_AVAILABLE_MODELS) = true /\ registered p m = true
  /\ (truthy model = true -> model = Some m)
  /\ (truthy prov = true -> prov = Some p).
Proof.
  unfold _determine_model_and_provider; intros H.
  apply resolution_check_inv in H as [Ea [Eb [E1 [E2 [E3 E4]]]]].
  repeat split; try assumption.
  - intros Hm; rewrite Hm in Ea; exact Ea.
  - intros Hp; rewrite Hp in Eb; exact Eb.
Qed.

Lemma analyze_image_kwargs_rejected :
  find (fun k => negb (py_in k chat_only_params))
    [py "prompt"; py "history"; py "model_id"; py "provider"; py "image_base64"]
  = Some (py "image_base64").
Proof. vm_compute; reflexivity. Qed.

Lemma analyze_image_error (be : Backend) (img : list Z) (prompt : option pystr) (m p : pystr)
    (w : world) :
  truthy (Some m) = true -> truthy (Some p) = true ->
  py_in p (odict_keys ALL_AVAILABLE_MODELS) = true -> registered p m = true ->
  analyze_image be img prompt (Some m) (Some p) w
  = (Ok (result_dict (py "error") (Some m)
           (py "图像分析出错 (" ++ p ++ py "/" ++ m ++ py "): " ++ image_base64_kwarg_error)), w).
Proof.
  intros Hm Hp Hk Hr.
  unfold analyze_image, get_settings, bind, try_except, call_with_kwargs.
  rewrite analyze_image_kwargs_rejected, Hm, Hp, Hk, Hr.
  destruct m as [|cm m]; [discriminate|]; destruct p as [|cp p]; [discriminate|].
  cbv beta iota zeta delta [truthy negb andb raise is_value_error ret exn_str].
  unfold image_base64_kwarg_error; reflexivity.
Qed.

Lemma result_dict_get_provider (pr : pystr) (mo : option pystr) (msg : pystr) (d : pyval) :
  get_or (result_dict pr mo msg) "provider" d = VStr pr.
Proof. reflexivity. Qed.

Lemma result_dict_get_message (pr : pystr) (mo : option pystr) (msg : pystr) (d : pyval) :
  get_or (result_dict pr mo msg) "message" d = VStr msg.
Proof. reflexivity. Qed.

(** Claim C1: an image-analysis task whose target resolves always appends one
    history entry and broadcasts it as [new_screenshot], even though the
    analysis failed.  [analyze_image] passes the keyword [image_base64], which
    [chat_only] does not accept, so every resolved analysis returns an error
    dict with provider "error"; [_task_analyze_image] appends that dict's
    data to the history and broadcasts it. *)
Theorem analysis_task_records_failed_analysis (be : Backend) (img : list Z) (url : pystr)
    (timestamp_ms : Z) (prompt request_id sid model_id provider_name : option pystr)
    (fresh_uuid : pystr) (w : world) (m p : pystr) :
  _determine_model_and_provider (w_settings w) model_id provider_name
    (image_analysis_provider (w_settings w)) = (Some m, Some p) ->
  let '(r, w') := _task_analyze_image be img url timestamp_ms prompt request_id sid
                    model_id provider_name fresh_uuid w in
  exists entry,
    r = Ok tt
    /\ w_history w' = w_history w ++ [entry]
    /\ dict_get entry (py "provider") = Some (VStr (py "error"))
    /\ In (Emit (mkEmission (py "new_screenshot") entry None)) (w_trace w').
Proof.
  intros Hdet.
  destruct (determine_resolved _ _ _ _ _ _ Hdet) as [Hm [Hp [Hk [Hr _]]]].
  unfold _task_analyze_image, get_settings, bind, try_except.
  rewrite Hdet.
  rewrite analyze_image_error by assumption.
  rewrite !result_dict_get_provider, !result_dict_get_message.
  cbv beta iota zeta delta [history_append emit_sid emit tell ret w_history w_trace].
  eexists; split; [reflexivity|]; split; [reflexivity|]; split.
  - reflexivity.
  - apply in_or_app; right; left; reflexivity.
Qed.

Lemma chat_determine_resolved (m p : pystr) :
  truthy (Some m) = true -> truthy (Some p) = true ->
  py_in p (odict_keys ALL_AVAILABLE_MODELS) = true -> registered p m = true ->
  chat_determine (Some m) (Some p) = Ok (Some m, Some p, true).
Proof.
  intros Hm Hp Hk Hr; unfold chat_determine.
  rewrite Hm, Hp, Hk, Hr.
  destruct m; [discriminate|]; destruct p; [discriminate|]; reflexivity.
Qed.

Lemma openai_error_message_truthy (x : pystr) :
  truthy (Some (py "与 AI (" ++ x)) = true.
Proof. reflexivity. Qed.

(** Claim C4: when the OpenAI SDK raises [APIError] in a non-streaming chat
    task, [chat_only] turns the exception into a result dict, and the task
    emits it as an ordinary [chat_response]: its message is the error text
    and its provider is the real provider.  No [task_error] is emitted. *)
Theorem chat_task_reports_backend_failure_as_response (be : Backend) (prompt : pystr)
    (history : list turn) (request_id : pystr) (sid model_id provider_name image_base64 : option pystr)
    (all_images_base64 : option (list pystr)) (w : world) (m e : pystr) :
  _determine_model_and_provider (w_settings w) model_id provider_name ModelProvider.OPENAI
    = (Some m, Some ModelProvider.OPENAI) ->
  truthy (openai_api_key (w_settings w)) = true ->
  (forall msgs, openai_create be m msgs = Raised (OpenAIAPIError e)) ->
  _task_chat_only be prompt history request_id sid false model_id provider_name
    image_base64 all_images_base64 w
  = (Ok tt,
     {| w_settings := w_settings w;
        w_history := w_history w;
        w_trace := w_trace w ++
          [SdkCall ModelProvider.OPENAI m;
           Emit (mkEmission (py "chat_response")
                   [kv "request_id" (VStr request_id);
                    kv "message" (VStr (py "与 AI (" ++ ModelProvider.OPENAI ++ py "/" ++ m
                                        ++ py ") 通信时出错: " ++ e));
                    kv "provider" (VStr ModelProvider.OPENAI);
                    kv "model_id" (VStr m)]
                   (if truthy sid then sid else None))];
        w_buf := w_buf w |}).
Proof.
  intros Hdet Hkey Hcreate.
  destruct (determine_resolved _ _ _ _ _ _ Hdet) as [Hm [Hp [Hk [Hr _]]]].
  unfold _task_chat_only, get_settings, bind, try_except.
  rewrite Hdet.
  unfold chat_only, get_settings, bind, try_except.
  rewrite (chat_determine_resolved _ _ Hm Hp Hk Hr).
  cbv beta iota zeta delta [negb str_opt].
  rewrite pystr_eqb_refl, Hkey.
  unfold _chat_openai, get_settings, bind.
  rewrite Hkey.
  unfold opt_or; rewrite Hm.
  cbv beta iota zeta delta [negb tell].
  rewrite Hm, !Hcreate.
  match goal with |- context [match openai_user_parts ?a ?b with _ => _ end] =>
    destruct (openai_user_parts a b) end;
  cbv beta iota zeta delta [raise is_value_error ret exn_str w_settings w_trace w_history w_buf];
  rewrite result_dict_get_message;
  cbv beta iota zeta delta [py_str];
  rewrite openai_error_message_truthy;
  unfold emit_sid, emit, tell, ret;
  destruct w; cbn -[py]; rewrite <- app_assoc; reflexivity.
Qed.

(** Claim C2: [/chat] does not check the (model_id, provider) pair.  With a
    non-empty prompt it answers 202 and spawns [_task_chat_only].  When the
    pair does not resolve, the task stops before any backend call; for an
    HTTP request ([sid=None]) it emits nothing and leaves the world
    unchanged, so the caller never sees the error. *)
Theorem chat_route_defers_resolution_to_task (be : Backend) (fresh_uuid request_id : pystr)
    (d : chat_request) (w : world) :
  truthy (Some (strip (match cr_prompt d with Some p => p | None => [] end))) = true ->
  _determine_model_and_provider (w_settings w) (cr_model_id d) (cr_provider d)
    ModelProvider.OPENAI = (None, None) ->
  let '(resp, spawned) := http_chat_route request_id (Some d) in
  status_code resp = 202
  /\ exists t, spawned = Some t /\ run_spawn be fresh_uuid t w = (Ok tt, w).
Proof.
  intros Hprompt Hdet.
  unfold http_chat_route; rewrite Hprompt; cbn [negb].
  split; [reflexivity|].
  eexists; split; [reflexivity|].
  unfold run_spawn, _task_chat_only, get_settings, bind.
  rewrite Hdet; reflexivity.
Qed.

Lemma voice_task_run (be : Backend) (request_id : pystr)
    (sid model_id provider_name stt_provider : option pystr) (w : world) :
  _task_process_voice be request_id sid model_id provider_name stt_provider w
  = (Raised (if truthy stt_provider then settings_no_field (py "stt_provider")
             else settings_no_attribute (py "stt_provider")), w).
Proof.
  unfold _task_process_voice, settings_getattr_missing, get_settings, bind, ret, raise.
  destruct (truthy stt_provider); reflexivity.
Qed.

(** Claim C9: the voice task fails before its [try], whatever the STT
    outcome would be.  With an [stt_provider] the assignment to
    [settings.stt_provider] raises [ValueError]; without one, the read of
    [settings.stt_provider] for the log line raises [AttributeError].  The
    task ends with that exception and leaves the world as it found it: no
    STT call, no event at all (so no [stt_error] event when speech-to-text
    would fail), no chat or TTS call, and no unlink of the audio file. *)
Theorem voice_task_raises_before_stt (be : Backend) (request_id : pystr)
    (sid model_id provider_name stt_provider : option pystr) (w : world) :
  _task_process_voice be request_id sid model_id provider_name stt_provider w
  = (Raised (if truthy stt_provider then settings_no_field (py "stt_provider")
             else settings_no_attribute (py "stt_provider")), w).
Proof.
  unfold _task_process_voice, settings_getattr_missing, get_settings, bind, ret, raise.
  destruct (truthy stt_provider); reflexivity.
Qed.

Lemma b64_value_ascii (c : Z) : (b64_value c <? 64) = true -> (c <? 128) = true.
Proof.
  unfold b64_value, in_range; intros H.
  repeat match goal with
         | H : context [if ?b then _ else _] |- _ => destruct b eqn:?
         end;
  repeat match goal with
         | H : (_ && _)%bool = true |- _ => apply andb_true_iff in H as [? ?]
         end;
  rewrite ?Z.leb_le, ?Z.ltb_lt, ?Z.eqb_eq in *; lia.
Qed.

(** Decoding a run of alphabet characters from quad position [qp] (with no
    pad pending) ends at quad position [(qp + n) mod 4], with no pad pending. *)
Lemma a2b_base64_alphabet (t r : list Z) (qp lc : Z) (acc : list Z) :
  0 <= qp < 4 ->
  forallb (fun c => b64_value c <? 64) t = true ->
  exists lc' acc',
    a2b_base64 (t ++ r) qp lc 0 acc
    = a2b_base64 r ((qp + Z.of_nat (List.length t)) mod 4) lc' 0 acc'.
Proof.
  revert qp lc acc; induction t as [|c t IH]; intros qp lc acc Hqp Ht.
  - exists lc, acc; simpl; rewrite Z.add_0_r, Z.mod_small by lia; reflexivity.
  - simpl in Ht; apply andb_true_iff in Ht as [Hc Ht].
    assert (Hc61 : (c =? 61) = false).
    { destruct (c =? 61) eqn:E; [|reflexivity].
      apply Z.eqb_eq in E; subst; vm_compute in Hc; discriminate. }
    assert (Hv : (64 <=? b64_value c) = false).
    { apply Z.ltb_lt in Hc; apply Z.leb_gt; lia. }
    simpl app; cbn [a2b_base64]; rewrite Hc61, Hv.
    replace ((qp + Z.of_nat (List.length (c :: t))) mod 4)
      with (((qp + 1) mod 4 + Z.of_nat (List.length t)) mod 4)
      by (cbn [List.length]; rewrite Nat2Z.inj_succ, Zplus_mod_idemp_l; f_equal; lia).
    assert (Hq : qp = 0 \/ qp = 1 \/ qp = 2 \/ qp = 3) by lia.
    destruct Hq as [-> | [-> | [-> | ->]]]; cbn [Z.eqb Pos.eqb Z.add Z.modulo];
      (apply IH; [first [apply Z.mod_pos_bound; lia | lia] | exact Ht]).
Qed.

Lemma split_at_first_none (c : Z) (s : pystr) :
  ~ In c s -> split_at_first c s = None.
Proof.
  induction s as [|x s IH]; simpl; intros H; [reflexivity|].
  destruct (x =? c) eqn:E; [apply Z.eqb_eq in E; subst; tauto|].
  rewrite IH by tauto; reflexivity.
Qed.

Lemma split_at_first_app (c : Z) (pre t : pystr) :
  ~ In c pre -> split_at_first c (pre ++ c :: t) = Some (pre, t).
Proof.
  induction pre as [|x pre IH]; simpl; intros H.
  - rewrite Z.eqb_refl; reflexivity.
  - destruct (x =? c) eqn:E; [apply Z.eqb_eq in E; subst; tauto|].
    rewrite IH by tauto; reflexivity.
Qed.

(** A comma-free base64 payload of length not 1 modulo 4, padded as the
    route pads it, decodes. *)
Lemma padded_payload_decodes (t : pystr) :
  forallb (fun c => b64_value c <? 64) t = true ->
  Z.of_nat (List.length t) mod 4 <> 1 ->
  b64decode (t ++ repeat 61 (Z.to_nat ((- Z.of_nat (List.length t)) mod 4))) <> None.
Proof.
  intros Ht Hlen.
  unfold b64decode.
  rewrite forallb_app.
  replace (forallb (fun c => c <? 128) t) with true.
  2:{ symmetry; rewrite forallb_forall in *; intros c Hc; apply b64_value_ascii, Ht, Hc. }
  replace (forallb (fun c => c <? 128) (repeat 61 _)) with true.
  2:{ symmetry; apply forallb_forall; intros c Hc; apply repeat_spec in Hc; subst; reflexivity. }
  simpl andb.
  destruct (a2b_base64_alphabet t (repeat 61 (Z.to_nat ((- Z.of_nat (List.length t)) mod 4)))
              0 0 [] ltac:(lia) Ht) as [lc' [acc' ->]].
  rewrite Z.add_0_l.
  set (n := Z.of_nat (List.length t)) in *.
  assert (Hr : n mod 4 = 0 \/ n mod 4 = 2 \/ n mod 4 = 3)
    by (pose proof (Z.mod_pos_bound n 4 ltac:(lia)); lia).
  assert (Hq : n = 4 * (n / 4) + n mod 4) by (apply Z.div_mod; lia).
  destruct Hr as [Hr | [Hr | Hr]]; rewrite Hr.
  - replace ((- n) mod 4) with ((0 + (- (n / 4)) * 4) mod 4) by (f_equal; lia).
    rewrite Z_mod_plus_full; discriminate.
  - replace ((- n) mod 4) with ((2 + (- (n / 4) - 1) * 4) mod 4) by (f_equal; lia).
    rewrite Z_mod_plus_full; discriminate.
  - replace ((- n) mod 4) with ((1 + (- (n / 4) - 1) * 4) mod 4) by (f_equal; lia).
    rewrite Z_mod_plus_full; discriminate.
Qed.

Lemma upload_raw_normalize_spec (pre t : pystr) :
  ~ In 44 t ->
  ~ In 44 pre ->
  upload_raw_normalize (pre ++ 44 :: t)
    = t ++ repeat 61 (Z.to_nat ((- Z.of_nat (List.length t)) mod 4))
  /\ upload_raw_normalize t
    = t ++ repeat 61 (Z.to_nat ((- Z.of_nat (List.length t)) mod 4)).
Proof.
  intros Ht Hpre; unfold upload_raw_normalize.
  rewrite split_at_first_app, split_at_first_none by assumption; split; reflexivity.
Qed.

Lemma pad_multiple_of_4 (n : nat) :
  (Z.of_nat n + Z.of_nat (Z.to_nat ((- Z.of_nat n) mod 4))) mod 4 = 0.
Proof.
  rewrite Z2Nat.id by (apply Z.mod_pos_bound; lia).
  rewrite Zplus_mod_idemp_r; replace (Z.of_nat n + - Z.of_nat n) with 0 by lia; reflexivity.
Qed.

Lemma b64_alphabet_no_comma (t : pystr) :
  forallb (fun c => b64_value c <? 64) t = true -> ~ In 44 t.
Proof.
  intros H Hin; rewrite forallb_forall in H; specialize (H 44 Hin); vm_compute in H; discriminate.
Qed.

(** Claim C10: [/upload_raw] answers 400 and spawns no task exactly when
    base64 decoding of the normalized string fails.  Normalization drops
    everything up to and including the first comma and pads with '=' to a
    multiple of 4.  Consequently a data-URL or unpadded payload over the
    base64 alphabet, whose length is not 1 modulo 4, is accepted (202, task
    spawned) when the image is saved. *)
Theorem upload_raw_rejects_exactly_undecodable (request_id : pystr) (d : upload_raw_request)
    (timestamp_ms : Z) (save_ok : bool) (s : pystr) :
  ur_image d = Some (JStr s) ->
  ((status_code (fst (upload_raw_route request_id (Some d) timestamp_ms save_ok)) = 400
    /\ snd (upload_raw_route request_id (Some d) timestamp_ms save_ok) = None)
   <-> b64decode (upload_raw_normalize s) = None)
  /\ (forall pre t, ~ In 44 pre -> ~ In 44 t ->
       (s = pre ++ 44 :: t \/ s = t) ->
       exists k, upload_raw_normalize s = t ++ repeat 61 k
                 /\ (Z.of_nat (List.length t) + Z.of_nat k) mod 4 = 0)
  /\ (forall pre t, ~ In 44 pre ->
       forallb (fun c => b64_value c <? 64) t = true ->
       Z.of_nat (List.length t) mod 4 <> 1 ->
       (s = pre ++ 44 :: t \/ s = t) ->
       save_ok = true ->
       status_code (fst (upload_raw_route request_id (Some d) timestamp_ms save_ok)) = 202
       /\ snd (upload_raw_route request_id (Some d) timestamp_ms save_ok) <> None).
Proof.
  intros Himg.
  assert (Hnorm : forall pre t, ~ In 44 pre -> ~ In 44 t -> (s = pre ++ 44 :: t \/ s = t) ->
            upload_raw_normalize s
            = t ++ repeat 61 (Z.to_nat ((- Z.of_nat (List.length t)) mod 4))).
  { intros pre t Hpre Ht [-> | ->]; apply (upload_raw_normalize_spec pre t Ht Hpre). }
  split; [|split].
  - unfold upload_raw_route; rewrite Himg; unfold upload_raw_decode.
    destruct (b64decode (upload_raw_normalize s)); [|simpl; tauto].
    destruct save_ok; simpl; split; [intros [H _]; discriminate | discriminate
                                    | intros [H _]; discriminate | discriminate].
  - intros pre t Hpre Ht Hs; eexists; split; [apply (Hnorm pre t Hpre Ht Hs)|].
    apply pad_multiple_of_4.
  - intros pre t Hpre Ht Hlen Hs Hsave; subst save_ok.
    pose proof (padded_payload_decodes t Ht Hlen) as Hdec.
    rewrite <- (Hnorm pre t Hpre (b64_alphabet_no_comma t Ht) Hs) in Hdec.
    unfold upload_raw_route; rewrite Himg; unfold upload_raw_decode.
    destruct (b64decode (upload_raw_normalize s)); [|congruence].
    simpl; split; [reflexivity | discriminate].
Qed.

Lemma utf8_decode_ignore_length (bs : list Z) :
  (List.length (utf8_decode_ignore bs) <= List.length bs)%nat.
Proof.
  assert (Hgen : forall n bs, (List.length bs <= n)%nat ->
            (List.length (utf8_decode_ignore bs) <= List.length bs)%nat).
  2: exact (Hgen _ bs (le_n _)).
  induction n as [|n IH]; intros l Hle.
  - destruct l; [simpl; lia | simpl in Hle; lia].
  - destruct l as [|b0 r0]; [simpl; lia|].
    simpl in Hle.
    cbn [utf8_decode_ignore].
    repeat match goal with
           | |- context [if ?b then _ else _] => destruct b
           | |- context [match ?l with _ => _ end] => destruct l
           end;
    cbn [List.length] in *;
    repeat match goal with
           | |- context [utf8_decode_ignore ?r] =>
               match goal with
               | H : (List.length (utf8_decode_ignore r) <= _)%nat |- _ => fail 1
               | _ => pose proof (IH r ltac:(cbn [List.length] in *; lia))
               end
           end;
    cbn [List.length] in *; lia.
Qed.

Lemma translate_newlines_length (s : pystr) :
  (List.length (translate_newlines s) <= List.length s)%nat.
Proof.
  assert (Hgen : forall n s, (List.length s <= n)%nat ->
            (List.length (translate_newlines s) <= List.length s)%nat).
  2: exact (Hgen _ s (le_n _)).
  induction n as [|n IH]; intros l Hle.
  - destruct l; [simpl; lia | simpl in Hle; lia].
  - destruct l as [|x r]; [simpl; lia|].
    cbn [List.length] in Hle; cbn [translate_newlines].
    destruct (x =? 13); [destruct r as [|y r']; [simpl; lia|]; destruct (y =? 10)|];
    cbn [List.length] in *;
    repeat match goal with
           | |- context [translate_newlines ?r] =>
               match goal with
               | H : (List.length (translate_newlines r) <= _)%nat |- _ => fail 1
               | _ => pose proof (IH r ltac:(cbn [List.length] in *; lia))
               end
           end;
    cbn [List.length] in *; lia.
Qed.

Lemma read_text_length (bs : list Z) :
  (List.length (read_text bs) <= List.length bs)%nat.
Proof.
  unfold read_text; etransitivity; [apply translate_newlines_length | apply utf8_decode_ignore_length].
Qed.

Lemma text_ext_not_image (e : pystr) :
  py_in e ALLOWED_TEXT_EXT = true -> py_in e ALLOWED_IMAGE_EXT = false.
Proof.
  intros H; apply py_in_In in H.
  unfold ALLOWED_TEXT_EXT in H.
  repeat (destruct H as [<- | H]; [vm_compute; reflexivity|]); destruct H.
Qed.

(** Claim C7: a text upload whose decoded content is longer than
    [MAX_TEXT_FILE_CHARS] contributes exactly its first [MAX_TEXT_FILE_CHARS]
    characters followed by the truncation marker, both to the collected
    parts and to the prompt of the spawned task. *)
Theorem long_text_upload_truncated_with_marker (secure_filename : pystr -> pystr)
    (MAX_TEXT_FILE_CHARS : nat) (f : upload) :
  let name := secure_filename (up_filename f) in
  let content := read_text (up_bytes f) in
  truthy (Some (up_filename f)) = true ->
  py_in (lower (splitext_ext name)) ALLOWED_TEXT_EXT = true ->
  (MAX_TEXT_FILE_CHARS < List.length content)%nat ->
  let part := text_file_part name (firstn MAX_TEXT_FILE_CHARS content ++ TRUNCATION_MARKER) in
  (forall images parts,
     process_upload secure_filename MAX_TEXT_FILE_CHARS (images, parts) f
     = (images, parts ++ [part]))
  /\ (forall form request_id,
        cf_request_id form = Some request_id ->
        truthy (Some request_id) = true ->
        cf_files form = [f] ->
        exists images,
          snd (chat_with_file_route secure_filename MAX_TEXT_FILE_CHARS form)
          = Some (SpawnChat
                    (strip (match cf_prompt form with Some p => p | None => [] end) ++ part)
                    (cf_history form) request_id (cf_use_streaming form)
                    (cf_model_id form) (cf_provider form) None images)).
Proof.
  intros name content Hname Hext Hlong part.
  assert (Hstep : forall images parts,
     process_upload secure_filename MAX_TEXT_FILE_CHARS (images, parts) f
     = (images, parts ++ [part])).
  { intros images parts; unfold process_upload.
    rewrite Hname; cbn [negb].
    fold name; rewrite (text_ext_not_image _ Hext), Hext.
    fold content.
    pose proof (read_text_length (up_bytes f)) as Hbytes; fold content in Hbytes.
    rewrite firstn_length_le by lia.
    rewrite Nat.eqb_refl.
    replace (MAX_TEXT_FILE_CHARS <? List.length (up_bytes f))%nat with true
      by (symmetry; apply Nat.ltb_lt; lia).
    unfold part, text_file_part; cbn [andb].
    rewrite <- !app_assoc; reflexivity. }
  split; [exact Hstep|].
  intros form request_id Hrid Htruthy Hfiles.
  unfold chat_with_file_route; rewrite Hrid, Htruthy, Hfiles; cbn [negb opt_list_truthy andb].
  rewrite andb_false_r; cbn [andb].
  cbn [fold_left]; rewrite Hstep; cbn [app List.concat].
  rewrite app_nil_r.
  eexists; reflexivity.
Qed.

Lemma process_upload_images (secure_filename : pystr -> pystr) (MAX_TEXT_FILE_CHARS : nat)
    (files : list upload) (images parts : list pystr) :
  fst (fold_left (process_upload secure_filename MAX_TEXT_FILE_CHARS) files (images, parts))
  = images ++ uploaded_images secure_filename files.
Proof.
  revert images parts; induction files as [|f files IH]; intros images parts.
  - simpl; rewrite app_nil_r; reflexivity.
  - cbn [fold_left uploaded_images flat_map].
    destruct (process_upload secure_filename MAX_TEXT_FILE_CHARS (images, parts) f)
      as [images' parts'] eqn:E.
    rewrite IH.
    unfold process_upload in E.
    destruct (truthy (Some (up_filename f))); cbn [negb andb] in *.
    + destruct (py_in (lower (splitext_ext (secure_filename (up_filename f)))) ALLOWED_IMAGE_EXT);
        [|destruct (py_in (lower (splitext_ext (secure_filename (up_filename f)))) ALLOWED_TEXT_EXT)];
        injection E as E1 _; subst images'; rewrite ?app_assoc, ?app_nil_r; reflexivity.
    + injection E as E1 _; subst images'; rewrite ?app_nil_r; reflexivity.
Qed.

(** Claim C5: in [/chat_with_file] the image list handed to the task is the
    pasted images first, in paste order, followed by the uploaded files with
    an image extension, in upload order. *)
Theorem chat_with_file_images_pasted_first (secure_filename : pystr -> pystr)
    (MAX_TEXT_FILE_CHARS : nat) (form : chat_file_form) (request_id : pystr)
    (pasted : list pystr) :
  cf_request_id form = Some request_id ->
  truthy (Some request_id) = true ->
  cf_pasted form = Some pasted ->
  pasted <> [] ->
  exists prompt,
    snd (chat_with_file_route secure_filename MAX_TEXT_FILE_CHARS form)
    = Some (SpawnChat prompt (cf_history form) request_id (cf_use_streaming form)
              (cf_model_id form) (cf_provider form) None
              (Some (pasted ++ uploaded_images secure_filename (cf_files form)))).
Proof.
  intros Hrid Htruthy Hpasted Hne.
  unfold chat_with_file_route; rewrite Hrid, Htruthy, Hpasted; cbn [negb].
  destruct pasted as [|p0 ps]; [congruence|]; cbn [opt_list_truthy negb].
  rewrite andb_false_r.
  pose proof (process_upload_images secure_filename MAX_TEXT_FILE_CHARS (cf_files form) (p0 :: ps) [])
    as Himgs.
  destruct (fold_left (process_upload secure_filename MAX_TEXT_FILE_CHARS) (cf_files form) (p0 :: ps, []))
    as [images parts]; cbn [fst] in Himgs; subst images.
  eexists; reflexivity.
Qed.

(** Claim C5, a concrete request: one pasted image and one uploaded PNG; the
    pasted image comes first in the spawned task's image list. *)
Lemma chat_with_file_images_pasted_first_counterexample :
  match snd (chat_with_file_route (fun name => name) 4000
               (mkChatFileForm (Some (py "req-1")) (Some (py "describe")) [] None None false
                  (Some [py "UA=="]) [mkUpload (py "shot.png") [1; 2; 3]])) with
  | Some (SpawnChat _ _ _ _ _ _ _ images) =>
      images = Some [py "UA=="; py "AQID"] /\ images <> Some [py "AQID"; py "UA=="]
  | _ => False
  end.
Proof. vm_compute; split; [reflexivity | intros H; inversion H]. Qed.

Create HintDb keeps.

Lemma keeps_ret {A} (a : A) : keeps_settings (ret a).
Proof. intros w; reflexivity. Qed.
Lemma keeps_raise {A} (e : exn) : keeps_settings (@raise A e).
Proof. intros w; reflexivity. Qed.
Lemma keeps_get_settings : keeps_settings get_settings.
Proof. intros w; reflexivity. Qed.
Lemma keeps_tell (e : effect) : keeps_settings (tell e).
Proof. intros w; reflexivity. Qed.
Lemma keeps_history_append (entry : payload) : keeps_settings (history_append entry).
Proof. intros w; reflexivity. Qed.
Lemma keeps_get_buf : keeps_settings get_buf.
Proof. intros w; reflexivity. Qed.
Lemma keeps_put_buf (b : pystr) : keeps_settings (put_buf b).
Proof. intros w; reflexivity. Qed.
Lemma keeps_oracle {A} (o : outcome A) : keeps_settings (fun w => (o, w)).
Proof. intros w; reflexivity. Qed.
Lemma keeps_emit (name : string) (data : payload) (to : option pystr) :
  keeps_settings (emit name data to).
Proof. intros w; reflexivity. Qed.
Lemma keeps_emit_sid (name : string) (data : payload) (sid : option pystr) :
  keeps_settings (emit_sid name data sid).
Proof. intros w; reflexivity. Qed.

Lemma keeps_bind {A B} (m : M A) (k : A -> M B) :
  keeps_settings m -> (forall a, keeps_settings (k a)) -> keeps_settings (bind m k).
Proof.
  intros Hm Hk w; unfold bind.
  specialize (Hm w); destruct (m w) as [[a|e] w'] eqn:E; simpl in *.
  - rewrite Hk; exact Hm.
  - exact Hm.
Qed.

Lemma keeps_try_except {A} (m : M A) (h : exn -> M A) :
  keeps_settings m -> (forall e, keeps_settings (h e)) -> keeps_settings (try_except m h).
Proof.
  intros Hm Hh w; unfold try_except.
  specialize (Hm w); destruct (m w) as [[a|e] w'] eqn:E; simpl in *.
  - exact Hm.
  - rewrite Hh; exact Hm.
Qed.

Lemma keeps_try_finally {A} (m : M A) (f : M unit) :
  keeps_settings m -> keeps_settings f -> keeps_settings (try_finally m f).
Proof.
  intros Hm Hf w; unfold try_finally.
  specialize (Hm w); destruct (m w) as [r w'] eqn:E; simpl in *.
  specialize (Hf w'); destruct (f w') as [[u|e] w''] eqn:F; simpl in *; congruence.
Qed.

#[export] Hint Resolve keeps_ret keeps_raise keeps_get_settings keeps_tell keeps_history_append
  keeps_get_buf keeps_put_buf keeps_oracle keeps_emit keeps_emit_sid : keeps.

Ltac keeps_step :=
  match goal with
  | |- keeps_settings (bind _ _) => apply keeps_bind; [|intro]
  | |- keeps_settings (try_except _ _) => apply keeps_try_except; [|intro]
  | |- keeps_settings (try_finally _ _) => apply keeps_try_finally
  | |- keeps_settings (let _ := _ in _) => cbv zeta
  | |- keeps_settings (match ?x with _ => _ end) => destruct x
  | |- keeps_settings (if ?b then _ else _) => destruct b
  | |- _ => solve [eauto with keeps]
  end.

Ltac keeps_tac := repeat keeps_step.

Section Frames.
Variable be : Backend.

Lemma keeps_chat_openai prompt history model_id images :
  keeps_settings (_chat_openai be prompt history model_id images).
Proof. unfold _chat_openai; keeps_tac. Qed.

Lemma keeps_openai_stream_loop cb chunks acc :
  (forall c, keeps_settings (cb c)) -> keeps_settings (openai_stream_loop cb chunks acc).
Proof.
  intros Hcb; revert acc; induction chunks as [|[c|] cs IH]; intros acc; simpl; keeps_tac.
Qed.

Lemma keeps_gemini_stream_loop cb chunks acc :
  (forall c, keeps_settings (cb c)) -> keeps_settings (gemini_stream_loop cb chunks acc).
Proof.
  intros Hcb; revert acc; induction chunks as [|ch cs IH]; intros acc; simpl; keeps_tac.
Qed.

Lemma keeps_chat_openai_stream prompt history cb model_id images :
  (forall c, keeps_settings (cb c)) ->
  keeps_settings (_chat_openai_stream be prompt history cb model_id images).
Proof.
  intros Hcb; unfold _chat_openai_stream; keeps_tac;
    apply keeps_openai_stream_loop; assumption.
Qed.

Lemma keeps_chat_gemini prompt history model_id images :
  keeps_settings (_chat_gemini be prompt history model_id images).
Proof. unfold _chat_gemini, get_gemini_client; keeps_tac. Qed.

Lemma keeps_chat_gemini_stream prompt history cb model_id images :
  (forall c, keeps_settings (cb c)) ->
  keeps_settings (_chat_gemini_stream be prompt history cb model_id images).
Proof.
  intros Hcb; unfold _chat_gemini_stream, get_gemini_client; keeps_tac;
    apply keeps_gemini_stream_loop; assumption.
Qed.
End Frames.

#[export] Hint Resolve keeps_chat_openai keeps_chat_gemini keeps_openai_stream_loop
  keeps_gemini_stream_loop keeps_chat_openai_stream keeps_chat_gemini_stream : keeps.

Lemma keeps_chat_only be prompt history model_id provider images :
  keeps_settings (chat_only be prompt history model_id provider images).
Proof. unfold chat_only; keeps_tac. Qed.

Lemma keeps_chat_only_stream be prompt history cb model_id provider images :
  (forall c, keeps_settings (cb c)) ->
  keeps_settings (chat_only_stream be prompt history cb model_id provider images).
Proof. intros Hcb; unfold chat_only_stream; keeps_tac. Qed.

Lemma keeps_call_with_kwargs {A} fname params kwargs (body : M A) :
  keeps_settings body -> keeps_settings (call_with_kwargs fname params kwargs body).
Proof. intros Hb; unfold call_with_kwargs; keeps_tac. Qed.

#[export] Hint Resolve keeps_chat_only keeps_chat_only_stream keeps_call_with_kwargs : keeps.

Lemma keeps_analyze_image be img prompt model_id provider :
  keeps_settings (analyze_image be img prompt model_id provider).
Proof. unfold analyze_image; keeps_tac. Qed.

Lemma keeps_chat_stream_callback request_id sid p m c :
  keeps_settings (chat_stream_callback request_id sid p m c).
Proof. unfold chat_stream_callback; keeps_tac. Qed.

#[export] Hint Resolve keeps_analyze_image keeps_chat_stream_callback : keeps.

Lemma keeps_task_analyze_image be img url ts prompt request_id sid model_id provider_name uuid :
  keeps_settings (_task_analyze_image be img url ts prompt request_id sid model_id provider_name uuid).
Proof. unfold _task_analyze_image; keeps_tac. Qed.

Lemma keeps_task_chat_only be prompt history request_id sid use_streaming model_id provider_name
    image_base64 all_images_base64 :
  keeps_settings (_task_chat_only be prompt history request_id sid use_streaming model_id
                    provider_name image_base64 all_images_base64).
Proof. unfold _task_chat_only; keeps_tac. Qed.

Create HintDb appends.

Lemma appends_ret {A} (a : A) : appends_history (ret a).
Proof. intros w; exists []; symmetry; apply app_nil_r. Qed.
Lemma appends_raise {A} (e : exn) : appends_history (@raise A e).
Proof. intros w; exists []; symmetry; apply app_nil_r. Qed.
Lemma appends_get_settings : appends_history get_settings.
Proof. intros w; exists []; symmetry; apply app_nil_r. Qed.
Lemma appends_tell (e : effect) : appends_history (tell e).
Proof. intros w; exists []; symmetry; apply app_nil_r. Qed.
Lemma appends_history_append (entry : payload) : appends_history (history_append entry).
Proof. intros w; exists [entry]; reflexivity. Qed.
Lemma appends_get_buf : appends_history get_buf.
Proof. intros w; exists []; symmetry; apply app_nil_r. Qed.
Lemma appends_put_buf (b : pystr) : appends_history (put_buf b).
Proof. intros w; exists []; symmetry; apply app_nil_r. Qed.
Lemma appends_oracle {A} (o : outcome A) : appends_history (fun w => (o, w)).
Proof. intros w; exists []; symmetry; apply app_nil_r. Qed.
Lemma appends_emit (name : string) (data : payload) (to : option pystr) :
  appends_history (emit name data to).
Proof. intros w; exists []; symmetry; apply app_nil_r. Qed.
Lemma appends_emit_sid (name : string) (data : payload) (sid : option pystr) :
  appends_history (emit_sid name data sid).
Proof. intros w; exists []; symmetry; apply app_nil_r. Qed.

Lemma appends_bind {A B} (m : M A) (k : A -> M B) :
  appends_history m -> (forall a, appends_history (k a)) -> appends_history (bind m k).
Proof.
  intros Hm Hk w; unfold bind.
  destruct (Hm w) as [l1 H1]; destruct (m w) as [[a|e] w'] eqn:E; simpl in *.
  - destruct (Hk a w') as [l2 H2]; exists (l1 ++ l2); rewrite H2, H1, app_assoc; reflexivity.
  - exists l1; exact H1.
Qed.

Lemma appends_try_except {A} (m : M A) (h : exn -> M A) :
  appends_history m -> (forall e, appends_history (h e)) -> appends_history (try_except m h).
Proof.
  intros Hm Hh w; unfold try_except.
  destruct (Hm w) as [l1 H1]; destruct (m w) as [[a|e] w'] eqn:E; simpl in *.
  - exists l1; exact H1.
  - destruct (Hh e w') as [l2 H2]; exists (l1 ++ l2); rewrite H2, H1, app_assoc; reflexivity.
Qed.

Lemma appends_try_finally {A} (m : M A) (f : M unit) :
  appends_history m -> appends_history f -> appends_history (try_finally m f).
Proof.
  intros Hm Hf w; unfold try_finally.
  destruct (Hm w) as [l1 H1]; destruct (m w) as [r w'] eqn:E; simpl in *.
  destruct (Hf w') as [l2 H2]; destruct (f w') as [[u|e] w''] eqn:F; simpl in *;
    exists (l1 ++ l2); rewrite H2, H1, app_assoc; reflexivity.
Qed.

#[export] Hint Resolve appends_ret appends_raise appends_get_settings appends_tell
  appends_history_append appends_get_buf appends_put_buf appends_oracle appends_emit
  appends_emit_sid : appends.

Ltac appends_step :=
  match goal with
  | |- appends_history (bind _ _) => apply appends_bind; [|intro]
  | |- appends_history (try_except _ _) => apply appends_try_except; [|intro]
  | |- appends_history (try_finally _ _) => apply appends_try_finally
  | |- appends_history (let _ := _ in _) => cbv zeta
  | |- appends_history (match ?x with _ => _ end) => destruct x
  | |- appends_history (if ?b then _ else _) => destruct b
  | |- _ => solve [eauto with appends]
  end.

Ltac appends_tac := repeat appends_step.

Section HistoryFrames.
Variable be : Backend.

Lemma appends_chat_openai prompt history model_id images :
  appends_history (_chat_openai be prompt history model_id images).
Proof. unfold _chat_openai; appends_tac. Qed.

Lemma appends_openai_stream_loop cb chunks acc :
  (forall c, appends_history (cb c)) -> appends_history (openai_stream_loop cb chunks acc).
Proof.
  intros Hcb; revert acc; induction chunks as [|[c|] cs IH]; intros acc; simpl; appends_tac.
Qed.

Lemma appends_gemini_stream_loop cb chunks acc :
  (forall c, appends_history (cb c)) -> appends_history (gemini_stream_loop cb chunks acc).
Proof.
  intros Hcb; revert acc; induction chunks as [|ch cs IH]; intros acc; simpl; appends_tac.
Qed.

Lemma appends_chat_openai_stream prompt history cb model_id images :
  (forall c, appends_history (cb c)) ->
  appends_history (_chat_openai_stream be prompt history cb model_id images).
Proof.
  intros Hcb; unfold _chat_openai_stream; appends_tac;
    apply appends_openai_stream_loop; assumption.
Qed.

Lemma appends_chat_gemini prompt history model_id images :
  appends_history (_chat_gemini be prompt history model_id images).
Proof. unfold _chat_gemini, get_gemini_client, settings_getattr_missing; appends_tac. Qed.

Lemma appends_chat_gemini_stream prompt history cb model_id images :
  (forall c, appends_history (cb c)) ->
  appends_history (_chat_gemini_stream be prompt history cb model_id images).
Proof.
  intros Hcb; unfold _chat_gemini_stream, get_gemini_client, settings_getattr_missing; appends_tac;
    apply appends_gemini_stream_loop; assumption.
Qed.
End HistoryFrames.

#[export] Hint Resolve appends_chat_openai appends_chat_gemini appends_openai_stream_loop
  appends_gemini_stream_loop appends_chat_openai_stream appends_chat_gemini_stream : appends.

Lemma appends_chat_only be prompt history model_id provider images :
  appends_history (chat_only be prompt history model_id provider images).
Proof. unfold chat_only; appends_tac. Qed.

Lemma appends_chat_only_stream be prompt history cb model_id provider images :
  (forall c, appends_history (cb c)) ->
  appends_history (chat_only_stream be prompt history cb model_id provider images).
Proof. intros Hcb; unfold chat_only_stream; appends_tac. Qed.

Lemma appends_call_with_kwargs {A} fname params kwargs (body : M A) :
  appends_history body -> appends_history (call_with_kwargs fname params kwargs body).
Proof. intros Hb; unfold call_with_kwargs; appends_tac. Qed.

#[export] Hint Resolve appends_chat_only appends_chat_only_stream appends_call_with_kwargs : appends.

Lemma appends_analyze_image be img prompt model_id provider :
  appends_history (analyze_image be img prompt model_id provider).
Proof. unfold analyze_image; appends_tac. Qed.

Lemma appends_chat_stream_callback request_id sid p m c :
  appends_history (chat_stream_callback request_id sid p m c).
Proof. unfold chat_stream_callback; appends_tac. Qed.

#[export] Hint Resolve appends_analyze_image appends_chat_stream_callback : appends.

Lemma appends_task_analyze_image be img url ts prompt request_id sid model_id provider_name uuid :
  appends_history (_task_analyze_image be img url ts prompt request_id sid model_id provider_name uuid).
Proof. unfold _task_analyze_image; appends_tac. Qed.

Lemma appends_task_chat_only be prompt history request_id sid use_streaming model_id provider_name
    image_base64 all_images_base64 :
  appends_history (_task_chat_only be prompt history request_id sid use_streaming model_id
                     provider_name image_base64 all_images_base64).
Proof. unfold _task_chat_only; appends_tac. Qed.

(** Claim C6: no task changes the global settings object, and a task
    changes the history list only by appending to it.  Chat tasks and
    image-analysis tasks never write [settings]; a voice task's assignment
    to [settings.stt_provider] raises before anything is written (pydantic
    refuses a name that is not a field), so the voice task leaves the whole
    world unchanged.  A task's [w_buf] is its own local
    [full_response_text] (see [own_trace]), and the provider catalog is a
    constant of the model. *)
Theorem tasks_settings_frame :
  (forall be prompt history request_id sid use_streaming model_id provider_name image_base64
          all_images_base64,
      let t := _task_chat_only be prompt history request_id sid use_streaming model_id
                 provider_name image_base64 all_images_base64 in
      keeps_settings t /\ appends_history t) /\
  (forall be img url timestamp_ms prompt request_id sid model_id provider_name fresh_uuid,
      let t := _task_analyze_image be img url timestamp_ms prompt request_id sid model_id
                 provider_name fresh_uuid in
      keeps_settings t /\ appends_history t) /\
  (forall be request_id sid model_id provider_name stt_provider,
      let t := _task_process_voice be request_id sid model_id provider_name stt_provider in
      keeps_settings t /\ appends_history t).
Proof.
  split; [|split]; intros.
  - split; [apply keeps_task_chat_only | apply appends_task_chat_only].
  - split; [apply keeps_task_analyze_image | apply appends_task_analyze_image].
  - split; intros w; unfold t; rewrite voice_task_run; simpl;
      [reflexivity | exists []; symmetry; apply app_nil_r].
Qed.

Lemma concat_filter_nonempty (cs : list pystr) : List.concat (filter nonempty cs) = List.concat cs.
Proof.
  induction cs as [|c cs IH]; [reflexivity|].
  destruct c as [|x c]; simpl; [exact IH|rewrite IH; reflexivity].
Qed.

Lemma chat_stream_callback_run request_id sid p m c w :
  chat_stream_callback request_id sid p m c w
  = (Ok tt, mkWorld (w_settings w) (w_history w) (w_trace w ++ [chunk_event request_id sid p m c])
                    (w_buf w ++ c)).
Proof. reflexivity. Qed.

Lemma openai_stream_loop_run request_id sid p m cs acc w :
  openai_stream_loop (chat_stream_callback request_id sid p m) (map Some cs) acc w
  = (Ok (acc ++ List.concat (filter nonempty cs)),
     mkWorld (w_settings w) (w_history w)
       (w_trace w ++ map (chunk_event request_id sid p m) (filter nonempty cs))
       (w_buf w ++ List.concat (filter nonempty cs))).
Proof.
  revert acc w; induction cs as [|c cs IH]; intros acc w.
  - destruct w; cbn [map filter List.concat openai_stream_loop]; unfold ret.
    rewrite !app_nil_r; reflexivity.
  - cbn [map openai_stream_loop filter]; unfold nonempty.
    destruct (truthy (Some c)) eqn:Ec.
    + unfold bind; rewrite chat_stream_callback_run, IH.
      cbn [List.concat map w_settings w_history w_trace w_buf].
      rewrite <- !app_assoc; reflexivity.
    + apply IH.
Qed.

Lemma gemini_stream_loop_run request_id sid p m cs acc w :
  gemini_stream_loop (chat_stream_callback request_id sid p m)
    (map (fun c => mkGeminiChunk c None) cs) acc w
  = (Ok (inl (acc ++ List.concat (filter nonempty cs))),
     mkWorld (w_settings w) (w_history w)
       (w_trace w ++ map (chunk_event request_id sid p m) (filter nonempty cs))
       (w_buf w ++ List.concat (filter nonempty cs))).
Proof.
  revert acc w; induction cs as [|c cs IH]; intros acc w.
  - destruct w; cbn [map filter List.concat gemini_stream_loop]; unfold ret.
    rewrite !app_nil_r; reflexivity.
  - cbn [map gemini_stream_loop filter gch_text gch_block_reason]; unfold nonempty.
    destruct (truthy (Some c)) eqn:Ec.
    + unfold bind; rewrite chat_stream_callback_run, IH.
      cbn [List.concat map w_settings w_history w_trace w_buf].
      rewrite <- !app_assoc; reflexivity.
    + unfold bind, ret; rewrite IH; reflexivity.
Qed.

Lemma chat_openai_stream_run be prompt history request_id sid p m' m images w hist cs :
  truthy (openai_api_key (w_settings w)) = true -> truthy (Some m) = true ->
  openai_stream_history history = Ok hist ->
  (forall msgs, openai_create_stream be m msgs = mkStream (map Some cs) None) ->
  _chat_openai_stream be prompt history (chat_stream_callback request_id sid p m') (Some m) images w
  = (Ok (strip (List.concat (filter nonempty cs))),
     mkWorld (w_settings w) (w_history w)
       (w_trace w ++ SdkCall ModelProvider.OPENAI m
                     :: map (chunk_event request_id sid p m') (filter nonempty cs))
       (w_buf w ++ List.concat (filter nonempty cs))).
Proof.
  intros Hkey Hm Hhist Hstream.
  unfold _chat_openai_stream, get_settings, bind.
  rewrite Hkey; cbv beta iota zeta delta [negb opt_or]; rewrite Hm, Hhist.
  cbv beta iota zeta.
  rewrite Hm.
  match goal with |- context [match openai_user_parts ?a ?b with _ => _ end] =>
    destruct (openai_user_parts a b) end;
  unfold try_except, tell; rewrite !Hstream;
  cbv beta iota zeta delta [ss_chunks ss_end];
  rewrite openai_stream_loop_run; unfold ret;
  cbn [w_settings w_history w_trace w_buf]; rewrite app_nil_l, <- app_assoc; reflexivity.
Qed.

Lemma chat_only_stream_run be prompt history request_id sid m images w cs hist :
  truthy (Some m) = true -> registered ModelProvider.OPENAI m = true ->
  truthy (openai_api_key (w_settings w)) = true ->
  openai_stream_history history = Ok hist ->
  (forall msgs, openai_create_stream be m msgs = mkStream (map Some cs) None) ->
  chat_only_stream be prompt history (chat_stream_callback request_id sid ModelProvider.OPENAI m)
    (Some m) (Some ModelProvider.OPENAI) images w
  = (Ok (result_dict ModelProvider.OPENAI (Some m) (strip (List.concat (filter nonempty cs)))),
     mkWorld (w_settings w) (w_history w)
       (w_trace w ++ SdkCall ModelProvider.OPENAI m
                     :: map (chunk_event request_id sid ModelProvider.OPENAI m) (filter nonempty cs))
       (w_buf w ++ List.concat (filter nonempty cs))).
Proof.
  intros Hm Hr Hkey Hhist Hstream.
  unfold chat_only_stream, get_settings, bind.
  rewrite (chat_determine_resolved m ModelProvider.OPENAI Hm ltac:(vm_compute; reflexivity)
             ltac:(vm_compute; reflexivity) Hr).
  cbv beta iota zeta delta [negb str_opt].
  rewrite pystr_eqb_refl, Hkey; cbv beta iota.
  unfold try_except, bind.
  rewrite (chat_openai_stream_run _ _ _ _ _ _ _ _ _ _ _ _ Hkey Hm Hhist Hstream).
  reflexivity.
Qed.

Lemma filter_delivered_chunks request_id sid p m cs full :
  filter (delivered_to (if truthy sid then sid else None))
    (SdkCall p m :: map (chunk_event request_id sid p m) cs ++ [end_event request_id sid p m full])
  = map (chunk_event request_id sid p m) cs ++ [end_event request_id sid p m full].
Proof.
  assert (Hd : opt_pystr_eqb (if truthy sid then sid else None)
                 (if truthy sid then sid else None) = true).
  { destruct (if truthy sid then sid else None); [apply pystr_eqb_refl|reflexivity]. }
  cbn [filter delivered_to].
  induction cs as [|c cs IH]; cbn [map app filter].
  - unfold end_event; cbn [delivered_to ev_to]; rewrite Hd; reflexivity.
  - unfold chunk_event at 1; cbn [delivered_to ev_to]; rewrite Hd, IH; reflexivity.
Qed.

Lemma interleaves_middle (before after : list (list effect)) (t : list effect)
    (g : list (nat * effect)) :
  interleaves (before ++ t :: after) g -> task_events (List.length before) g = t.
Proof.
  intros [_ H]; rewrite H.
  - rewrite app_nth2, Nat.sub_diag by lia; reflexivity.
  - rewrite length_app; cbn [List.length]; lia.
Qed.

(** Claim C3: a streaming OpenAI chat task whose SDK stream yields the
    chunks [cs] makes one SDK call, emits one [chat_stream_chunk] event per
    non-empty chunk in production order, then exactly one [chat_stream_end]
    event whose [full_message] is the concatenation of the chunks,
    accumulated in the task's own [full_response_text] cell; the history and
    the settings are unchanged.  This holds from any world, whatever earlier
    tasks left in it, and under any interleaving with any number of other
    tasks: the events of this task that reach its target (the [sid], or a
    broadcast) are exactly the chunk events and the end event, in this
    order.  (A Gemini task never reads its SDK stream: the
    [settings.GEMINI_MAX_TOKENS_STREAM] read raises first.) *)
Theorem streaming_chat_chunks_then_full_message (be : Backend) (prompt : pystr)
    (history : list turn) (request_id : pystr) (sid model_id provider_name image_base64 : option pystr)
    (all_images_base64 : option (list pystr)) (w : world) (m : pystr) (cs : list pystr) :
  _determine_model_and_provider (w_settings w) model_id provider_name ModelProvider.OPENAI
    = (Some m, Some ModelProvider.OPENAI) ->
  truthy (openai_api_key (w_settings w)) = true ->
  (exists hist, openai_stream_history history = Ok hist) ->
  (forall msgs, openai_create_stream be m msgs = mkStream (map Some cs) None) ->
  let p := ModelProvider.OPENAI in
  let t := _task_chat_only be prompt history request_id sid true model_id provider_name
             image_base64 all_images_base64 in
  (let '(r, w') := t w in
   r = Ok tt /\ w_settings w' = w_settings w /\ w_history w' = w_history w /\
   w_trace w' = w_trace w ++ SdkCall p m
                  :: map (chunk_event request_id sid p m) (filter nonempty cs)
                  ++ [end_event request_id sid p m (List.concat cs)])
  /\ (forall (before after : list (list effect)) (g : list (nat * effect)),
        interleaves (before ++ own_trace t w :: after) g ->
        filter (delivered_to (if truthy sid then sid else None))
          (task_events (List.length before) g)
        = map (chunk_event request_id sid p m) (filter nonempty cs)
          ++ [end_event request_id sid p m (List.concat cs)]).
Proof.
  intros Hdet Hkey [hist Hhist] Hstream p t.
  destruct (determine_resolved _ _ _ _ _ _ Hdet) as [Hm [_ [_ [Hr _]]]].
  assert (Hrun : forall w0, w_settings w0 = w_settings w ->
            t w0 = (Ok tt, mkWorld (w_settings w0) (w_history w0)
                             (w_trace w0 ++ SdkCall p m
                                :: map (chunk_event request_id sid p m) (filter nonempty cs)
                                ++ [end_event request_id sid p m (List.concat cs)])
                             (List.concat (filter nonempty cs)))).
  { intros [s0 h0 tr0 b0] Hs; cbn [w_settings] in Hs; subst s0.
    unfold t, _task_chat_only, get_settings, bind; cbn [w_settings].
    rewrite Hdet; cbv beta iota zeta.
    unfold try_except, put_buf, bind.
    rewrite (chat_only_stream_run be prompt history request_id sid m _
               (mkWorld (w_settings w) h0 tr0 []) cs hist Hm Hr Hkey Hhist Hstream).
    unfold get_buf, emit_sid, emit, tell, end_event.
    cbn [w_settings w_history w_trace w_buf].
    rewrite app_nil_l, concat_filter_nonempty.
    rewrite <- !app_assoc; reflexivity. }
  split.
  - rewrite (Hrun w eq_refl); cbn [w_settings w_history w_trace].
    split; [reflexivity|]; split; [reflexivity|]; split; reflexivity.
  - intros before after g Hg.
    apply interleaves_middle in Hg; rewrite Hg.
    unfold own_trace; rewrite Hrun by reflexivity; cbn [snd w_trace app].
    apply filter_delivered_chunks.
Qed.

(** A concrete run of [analysis_task_records_failed_analysis]. *)
Lemma analysis_task_records_failed_analysis_witness :
  _determine_model_and_provider (w_settings sample_world) (Some (py "gpt-4o")) (Some (py "openai"))
    (image_analysis_provider (w_settings sample_world)) = (Some (py "gpt-4o"), Some (py "openai"))
  /\ let '(r, w') := _task_analyze_image (stub_backend []) [137; 80; 78; 71]
                       (py "/static/screenshots/s.png") 1700000000000 None (Some (py "req-1")) None
                       (Some (py "gpt-4o")) (Some (py "openai")) (py "uuid-1") sample_world in
     exists entry,
       r = Ok tt
       /\ w_history w' = w_history sample_world ++ [entry]
       /\ dict_get entry (py "provider") = Some (VStr (py "error"))
       /\ In (Emit (mkEmission (py "new_screenshot") entry None)) (w_trace w').
Proof.
  assert (H : _determine_model_and_provider (w_settings sample_world) (Some (py "gpt-4o"))
                (Some (py "openai")) (image_analysis_provider (w_settings sample_world))
              = (Some (py "gpt-4o"), Some (py "openai"))) by (vm_compute; reflexivity).
  split; [exact H|].
  exact (analysis_task_records_failed_analysis (stub_backend []) [137; 80; 78; 71]
           (py "/static/screenshots/s.png") 1700000000000 None (Some (py "req-1")) None
           (Some (py "gpt-4o")) (Some (py "openai")) (py "uuid-1") sample_world
           (py "gpt-4o") (py "openai") H).
Defined.

(** A concrete run of [chat_route_defers_resolution_to_task]. *)
Lemma chat_route_defers_resolution_to_task_witness :
  let d := mkChatRequest (Some (py "hello")) [] false (Some (py "nonexistent-model")) None None in
  truthy (Some (strip (match cr_prompt d with Some p => p | None => [] end))) = true
  /\ _determine_model_and_provider (w_settings sample_world) (cr_model_id d) (cr_provider d)
       ModelProvider.OPENAI = (None, None)
  /\ let '(resp, spawned) := http_chat_route (py "req-1") (Some d) in
     status_code resp = 202
     /\ exists t, spawned = Some t /\ run_spawn (stub_backend []) (py "uuid-1") t sample_world
                                     = (Ok tt, sample_world).
Proof.
  intros d.
  assert (H1 : truthy (Some (strip (match cr_prompt d with Some p => p | None => [] end))) = true)
    by (vm_compute; reflexivity).
  assert (H2 : _determine_model_and_provider (w_settings sample_world) (cr_model_id d) (cr_provider d)
                 ModelProvider.OPENAI = (None, None)) by (vm_compute; reflexivity).
  split; [exact H1|]; split; [exact H2|].
  exact (chat_route_defers_resolution_to_task (stub_backend []) (py "uuid-1") (py "req-1") d
           sample_world H1 H2).
Defined.

(** A concrete run of [streaming_chat_chunks_then_full_message]. *)
Lemma streaming_chat_chunks_then_full_message_witness :
  let be := stub_backend [py "Hel"; py "lo, "; []; py "world"] in
  let cs := [py "Hel"; py "lo, "; []; py "world"] in
  let p := ModelProvider.OPENAI in
  let t := _task_chat_only be (py "hi") [] (py "req-1") (Some (py "sid-1")) true
             (Some (py "gpt-4o")) (Some (py "openai")) None None in
  _determine_model_and_provider (w_settings sample_world) (Some (py "gpt-4o")) (Some (py "openai"))
    ModelProvider.OPENAI = (Some (py "gpt-4o"), Some ModelProvider.OPENAI)
  /\ truthy (openai_api_key (w_settings sample_world)) = true
  /\ (exists hist, openai_stream_history [] = Ok hist)
  /\ (forall msgs, openai_create_stream be (py "gpt-4o") msgs = mkStream (map Some cs) None)
  /\ (let '(r, w') := t sample_world in
      r = Ok tt /\ w_settings w' = w_settings sample_world
      /\ w_history w' = w_history sample_world
      /\ w_trace w' = w_trace sample_world
           ++ SdkCall p (py "gpt-4o")
           :: map (chunk_event (py "req-1") (Some (py "sid-1")) p (py "gpt-4o")) (filter nonempty cs)
           ++ [end_event (py "req-1") (Some (py "sid-1")) p (py "gpt-4o") (List.concat cs)])
  /\ (forall (before after : list (list effect)) (g : list (nat * effect)),
        interleaves (before ++ own_trace t sample_world :: after) g ->
        filter (delivered_to (if truthy (Some (py "sid-1")) then Some (py "sid-1") else None))
          (task_events (List.length before) g)
        = map (chunk_event (py "req-1") (Some (py "sid-1")) p (py "gpt-4o")) (filter nonempty cs)
          ++ [end_event (py "req-1") (Some (py "sid-1")) p (py "gpt-4o") (List.concat cs)]).
Proof.
  intros be cs p t.
  assert (H1 : _determine_model_and_provider (w_settings sample_world) (Some (py "gpt-4o"))
                 (Some (py "openai")) ModelProvider.OPENAI
               = (Some (py "gpt-4o"), Some ModelProvider.OPENAI)) by (vm_compute; reflexivity).
  assert (H2 : truthy (openai_api_key (w_settings sample_world)) = true) by (vm_compute; reflexivity).
  assert (H3 : exists hist, openai_stream_history [] = Ok hist) by (exists []; reflexivity).
  assert (H4 : forall msgs, openai_create_stream be (py "gpt-4o") msgs = mkStream (map Some cs) None)
    by (intros msgs; reflexivity).
  split; [exact H1|]; split; [exact H2|]; split; [exact H3|]; split; [exact H4|].
  exact (streaming_chat_chunks_then_full_message be (py "hi") [] (py "req-1") (Some (py "sid-1"))
           (Some (py "gpt-4o")) (Some (py "openai")) None None sample_world (py "gpt-4o") cs
           H1 H2 H3 H4).
Defined.

(** A concrete run of [chat_task_reports_backend_failure_as_response]. *)
Lemma chat_task_reports_backend_failure_as_response_witness :
  let be := failing_backend (py "rate limited") in
  _determine_model_and_provider (w_settings sample_world) (Some (py "gpt-4o")) (Some (py "openai"))
    ModelProvider.OPENAI = (Some (py "gpt-4o"), Some ModelProvider.OPENAI)
  /\ truthy (openai_api_key (w_settings sample_world)) = true
  /\ _task_chat_only be (py "hi") [] (py "req-1") (Some (py "sid-1")) false (Some (py "gpt-4o"))
       (Some (py "openai")) None None sample_world
     = (Ok tt,
        {| w_settings := w_settings sample_world;
           w_history := w_history sample_world;
           w_trace := w_trace sample_world ++
             [SdkCall ModelProvider.OPENAI (py "gpt-4o");
              Emit (mkEmission (py "chat_response")
                      [kv "request_id" (VStr (py "req-1"));
                       kv "message" (VStr (py "与 AI (" ++ ModelProvider.OPENAI ++ py "/"
                                           ++ py "gpt-4o" ++ py ") 通信时出错: "
                                           ++ py "rate limited"));
                       kv "provider" (VStr ModelProvider.OPENAI);
                       kv "model_id" (VStr (py "gpt-4o"))]
                      (if truthy (Some (py "sid-1")) then Some (py "sid-1") else None))];
           w_buf := w_buf sample_world |}).
Proof.
  intros be.
  assert (H1 : _determine_model_and_provider (w_settings sample_world) (Some (py "gpt-4o"))
                 (Some (py "openai")) ModelProvider.OPENAI
               = (Some (py "gpt-4o"), Some ModelProvider.OPENAI)) by (vm_compute; reflexivity).
  assert (H2 : truthy (openai_api_key (w_settings sample_world)) = true) by reflexivity.
  split; [exact H1|]; split; [exact H2|].
  apply (chat_task_reports_backend_failure_as_response be (py "hi") [] (py "req-1")
           (Some (py "sid-1")) (Some (py "gpt-4o")) (Some (py "openai")) None None sample_world
           (py "gpt-4o") (py "rate limited") H1 H2).
  intros msgs; reflexivity.
Defined.

(** A concrete run of [chat_with_file_images_pasted_first]. *)
Lemma chat_with_file_images_pasted_first_witness :
  let form := mkChatFileForm (Some (py "req-1")) (Some (py "describe")) [] None None false
                (Some [py "UA=="]) [mkUpload (py "shot.png") [1; 2; 3]] in
  cf_request_id form = Some (py "req-1") /\ truthy (Some (py "req-1")) = true
  /\ cf_pasted form = Some [py "UA=="] /\ [py "UA=="] <> []
  /\ exists prompt,
       snd (chat_with_file_route (fun name => name) 4000 form)
       = Some (SpawnChat prompt (cf_history form) (py "req-1") (cf_use_streaming form)
                 (cf_model_id form) (cf_provider form) None
                 (Some ([py "UA=="] ++ uploaded_images (fun name => name) (cf_files form)))).
Proof.
  intros form.
  assert (H1 : cf_request_id form = Some (py "req-1")) by reflexivity.
  assert (H2 : truthy (Some (py "req-1")) = true) by reflexivity.
  assert (H3 : cf_pasted form = Some [py "UA=="]) by reflexivity.
  assert (H4 : [py "UA=="] <> []) by discriminate.
  split; [exact H1|]; split; [exact H2|]; split; [exact H3|]; split; [exact H4|].
  exact (chat_with_file_images_pasted_first (fun name => name) 4000 form (py "req-1") [py "UA=="]
           H1 H2 H3 H4).
Defined.

(** A concrete run of [long_text_upload_truncated_with_marker]. *)
Lemma long_text_upload_truncated_with_marker_witness :
  let f := mkUpload (py "notes.txt") (repeat 97 (100 * 100)) in
  truthy (Some (up_filename f)) = true
  /\ py_in (lower (splitext_ext (up_filename f))) ALLOWED_TEXT_EXT = true
  /\ (4000 < List.length (read_text (up_bytes f)))%nat
  /\ process_upload (fun name => name) 4000 ([], []) f
     = ([], [text_file_part (up_filename f)
               (firstn 4000 (read_text (up_bytes f)) ++ TRUNCATION_MARKER)]).
Proof.
  intros f.
  assert (H1 : truthy (Some (up_filename f)) = true) by reflexivity.
  assert (H2 : py_in (lower (splitext_ext (up_filename f))) ALLOWED_TEXT_EXT = true)
    by (vm_compute; reflexivity).
  assert (H3 : (4000 < List.length (read_text (up_bytes f)))%nat)
    by (apply Nat.ltb_lt; vm_compute; reflexivity).
  split; [exact H1|]; split; [exact H2|]; split; [exact H3|].
  exact (proj1 (long_text_upload_truncated_with_marker (fun name => name) 4000 f H1 H2 H3) [] []).
Defined.

(** A concrete run of [upload_raw_rejects_exactly_undecodable]. *)
Lemma upload_raw_rejects_exactly_undecodable_witness :
  let s := py "data:image/png;base64,QUI" in
  let d := mkUploadRaw (Some (JStr s)) None None None in
  ur_image d = Some (JStr s)
  /\ ((status_code (fst (upload_raw_route (py "req-1") (Some d) 1700000000000 true)) = 400
       /\ snd (upload_raw_route (py "req-1") (Some d) 1700000000000 true) = None)
      <-> b64decode (upload_raw_normalize s) = None)
  /\ status_code (fst (upload_raw_route (py "req-1") (Some d) 1700000000000 true)) = 202.
Proof.
  intros s d.
  assert (H : ur_image d = Some (JStr s)) by reflexivity.
  destruct (upload_raw_rejects_exactly_undecodable (py "req-1") d 1700000000000 true s H)
    as [Hiff [_ Hacc]].
  split; [exact H|]; split; [exact Hiff|].
  apply (Hacc (py "data:image/png;base64") (py "QUI")).
  - vm_compute; intros [Hc|Hc]; try discriminate; repeat (destruct Hc as [Hc|Hc]; try discriminate); exact Hc.
  - vm_compute; reflexivity.
  - vm_compute; discriminate.
  - left; vm_compute; reflexivity.
  - reflexivity.
Defined.

(* ------------------------------------------------------------------------ *)
(** ** Further properties of the code *)

Lemma rsplit_last_some (c : Z) (s a b : pystr) :
  rsplit_last c s = Some (a, b) -> s = a ++ c :: b /\ ~ In c b.
Proof.
  revert a b; induction s as [|x s IH]; intros a b H; [discriminate|].
  simpl in H; destruct (rsplit_last c s) as [[a' b']|] eqn:E.
  - injection H as <- <-; destruct (IH a' b' eq_refl) as [-> Hn]; split; [reflexivity|exact Hn].
  - destruct (x =? c) eqn:Ex; [|discriminate].
    injection H as <- <-; apply Z.eqb_eq in Ex; subst x; split; [reflexivity|].
    clear -E; induction s as [|y s IHs]; [tauto|].
    simpl in E; destruct (rsplit_last c s) as [[]|]; [discriminate|].
    intros [->|Hin]; [rewrite Z.eqb_refl in E; discriminate|].
    destruct (y =? c); [discriminate|exact (IHs E Hin)].
Qed.

Lemma splitext_ext_suffix (p : pystr) :
  exists q, p = q ++ splitext_ext p /\
  (splitext_ext p = [] \/ exists r, splitext_ext p = 46 :: r /\ ~ In 46 r /\ ~ In 47 r).
Proof.
  unfold splitext_ext.
  assert (Hb : exists q0, p = q0 ++ (match rsplit_last 47 p with Some (_, b) => b | None => p end)
               /\ ~ In 47 (match rsplit_last 47 p with Some (_, b) => b | None => p end)
               \/ rsplit_last 47 p = None).
  { destruct (rsplit_last 47 p) as [[a b]|] eqn:E.
    - apply rsplit_last_some in E as [-> Hn]; exists (a ++ [47]); left.
      rewrite <- app_assoc; split; [reflexivity|exact Hn].
    - exists []; right; reflexivity. }
  assert (Hnone : rsplit_last 47 p = None -> ~ In 47 p).
  { clear; induction p as [|x p IH]; simpl; [tauto|].
    destruct (rsplit_last 47 p) as [[]|]; [discriminate|].
    intros H [->|Hin]; [simpl in H; discriminate|exact (IH eq_refl Hin)]. }
  set (base := match rsplit_last 47 p with Some (_, b) => b | None => p end) in *.
  assert (Hbase : exists q0, p = q0 ++ base /\ ~ In 47 base).
  { destruct Hb as [q0 [[H1 H2]|H]].
    - exists q0; split; assumption.
    - exists []; subst base; rewrite H; split; [reflexivity|exact (Hnone H)]. }
  destruct Hbase as [q0 [Hp Hn47]].
  destruct (rsplit_last 46 base) as [[before after]|] eqn:E.
  - apply rsplit_last_some in E as [Hbase Hn46].
    destruct (existsb (fun x => negb (x =? 46)) before).
    + exists (q0 ++ before); split.
      * rewrite Hp, Hbase, <- app_assoc; reflexivity.
      * right; exists after; split; [reflexivity|split; [exact Hn46|]].
        intros Hin; apply Hn47; rewrite Hbase; apply in_or_app; right; right; exact Hin.
    + exists p; rewrite app_nil_r; split; [reflexivity|left; reflexivity].
  - exists p; rewrite app_nil_r; split; [reflexivity|left; reflexivity].
Qed.

Lemma translate_newlines_no_cr (s : pystr) : ~ In 13 (translate_newlines s).
Proof.
  induction s as [s IH] using (well_founded_induction (Wf_nat.well_founded_ltof _ (@List.length Z))).
  unfold Wf_nat.ltof in IH.
  destruct s as [|x r]; simpl; [tauto|].
  destruct (x =? 13) eqn:Ex.
  - intros [H|H]; [discriminate|].
    destruct r as [|y r']; [exact H|].
    destruct (y =? 10).
    + apply (IH r'); [simpl; lia|exact H].
    + apply (IH (y :: r')); [simpl; lia|exact H].
  - intros [H|H]; [subst; discriminate|].
    apply (IH r); [simpl; lia|exact H].
Qed.

Lemma odict_get_not_key {V} (d : odict V) (k : pystr) :
  py_in k (odict_keys d) = false -> odict_get d k = None.
Proof.
  induction d as [|[k' v] d IH]; simpl; [reflexivity|].
  unfold py_in; simpl; intros H; apply orb_false_iff in H as [H1 H2].
  rewrite H1; apply IH; exact H2.
Qed.

Lemma registry_keys :
  odict_keys ALL_AVAILABLE_MODELS
  = [ModelProvider.OPENAI; ModelProvider.GEMINI; ModelProvider.CLAUDE; ModelProvider.GROK].
Proof. reflexivity. Qed.

Lemma default_model_not_key (p : pystr) :
  py_in p (odict_keys ALL_AVAILABLE_MODELS) = false -> get_default_model_for_provider p = None.
Proof.
  intros H; pose proof H as H'.
  rewrite registry_keys in H'; unfold py_in in H'; cbn [existsb] in H'.
  repeat rewrite orb_false_iff in H'; destruct H' as [E1 [E2 [E3 [E4 _]]]].
  unfold get_default_model_for_provider; rewrite E1, E2, E3, E4.
  rewrite odict_get_not_key by exact H; reflexivity.
Qed.

Lemma In_registry_key (p : pystr) :
  In p (odict_keys ALL_AVAILABLE_MODELS) ->
  p = ModelProvider.OPENAI \/ p = ModelProvider.GEMINI \/ p = ModelProvider.CLAUDE
  \/ p = ModelProvider.GROK.
Proof. rewrite registry_keys; simpl; intuition. Qed.



Lemma dict_lookup_last_app {V} (l1 l2 : list (pystr * V)) (k : pystr) :
  dict_lookup_last (l1 ++ l2) k
  = match dict_lookup_last l2 k with Some v => Some v | None => dict_lookup_last l1 k end.
Proof.
  induction l1 as [|[k' v] l1 IH]; simpl.
  - destruct (dict_lookup_last l2 k); reflexivity.
  - rewrite IH; destruct (dict_lookup_last l2 k); [reflexivity|].
    destruct (dict_lookup_last l1 k); reflexivity.
Qed.

Lemma dict_lookup_last_const (ks : list pystr) (p k : pystr) :
  dict_lookup_last (map (fun model_id => (model_id, p)) ks) k
  = if py_in k ks then Some p else None.
Proof.
  induction ks as [|k' ks IH]; [reflexivity|].
  cbn [map dict_lookup_last]; rewrite IH; unfold py_in; cbn [existsb].
  destruct (existsb (pystr_eqb k) ks), (pystr_eqb k k'); reflexivity.
Qed.

Lemma scan_providers_none (reg : odict (odict pystr)) (m : pystr) :
  scan_providers reg m = None <-> ~ In m (flat_keys reg).
Proof.
  induction reg as [|[p ms] reg IH]; simpl; [tauto|].
  rewrite in_app_iff.
  destruct (py_in m (odict_keys ms)) eqn:E.
  - apply py_in_In in E; split; [discriminate|tauto].
  - rewrite IH; split; [|tauto].
    intros Hn [Hin|Hin]; [apply py_in_In in Hin; congruence|exact (Hn Hin)].
Qed.

Lemma NoDup_app_disjoint {A} (l1 l2 : list A) (a : A) :
  NoDup (l1 ++ l2) -> In a l1 -> ~ In a l2.
Proof.
  induction l1 as [|x l1 IH]; simpl; [tauto|].
  intros Hnd [->|Hin] Hin2; inversion Hnd as [|? ? Hn Hnd']; subst.
  - apply Hn, in_or_app; right; exact Hin2.
  - exact (IH Hnd' Hin Hin2).
Qed.

Lemma provider_pairs_scan (reg : odict (odict pystr)) (m : pystr) :
  NoDup (flat_keys reg) ->
  dict_lookup_last (provider_pairs reg) m = scan_providers reg m.
Proof.
  induction reg as [|[p ms] reg IH]; intros Hnd; [reflexivity|].
  cbn [provider_pairs flat_map scan_providers]; fold (provider_pairs reg).
  cbn [flat_keys flat_map] in Hnd; fold (flat_keys reg) in Hnd.
  rewrite dict_lookup_last_app, IH by (eapply NoDup_app_remove_l; exact Hnd).
  rewrite dict_lookup_last_const.
  destruct (py_in m (odict_keys ms)) eqn:E.
  - assert (Hn : ~ In m (flat_keys reg)).
    { apply py_in_In in E; intros Hin.
      exact (NoDup_app_disjoint _ _ _ Hnd E Hin). }
    apply scan_providers_none in Hn; rewrite Hn; reflexivity.
  - destruct (scan_providers reg m); reflexivity.
Qed.

Lemma FLAT_MODEL_ID_LIST_NoDup : NoDup FLAT_MODEL_ID_LIST.
Proof.
  vm_compute.
  repeat constructor; simpl; intuition discriminate.
Qed.

(** The tables [constants.py] derives from the registry agree with the
    provider scan of [_determine_model_and_provider]: looking a model id up
    in [MODEL_TO_PROVIDER_MAP] gives the first provider whose model table
    lists it (no model id is listed twice, so no entry of the map is
    overwritten), and a model id is in [FLAT_MODEL_ID_LIST] exactly when the
    scan finds a provider for it. *)
Theorem model_tables_agree_with_scan (m : pystr) :
  dict_lookup_last MODEL_TO_PROVIDER_MAP m = scan_providers ALL_AVAILABLE_MODELS m
  /\ (In m FLAT_MODEL_ID_LIST <-> scan_providers ALL_AVAILABLE_MODELS m <> None).
Proof.
  split.
  - apply (provider_pairs_scan ALL_AVAILABLE_MODELS m FLAT_MODEL_ID_LIST_NoDup).
  - pose proof (scan_providers_none ALL_AVAILABLE_MODELS m) as H.
    unfold FLAT_MODEL_ID_LIST; fold (flat_keys ALL_AVAILABLE_MODELS).
    destruct (scan_providers ALL_AVAILABLE_MODELS m) eqn:E.
    + split; [intros _; discriminate|intros _].
      destruct (in_dec (list_eq_dec Z.eq_dec) m (flat_keys ALL_AVAILABLE_MODELS)) as [Hin|Hn];
        [exact Hin|apply H in Hn; discriminate].
    + split; [intros Hin; exfalso; exact (proj1 H eq_refl Hin)|intros Hn; congruence].
Qed.

(** A request that names only a provider resolves exactly when the provider
    is one of the registry's four providers, and then to that provider's
    default model, which its model table lists. *)
Theorem provider_only_request_resolves_to_default (st : Settings) (model : option pystr)
    (p default_provider_type : pystr) :
  truthy model = false -> truthy (Some p) = true ->
  (In p (odict_keys ALL_AVAILABLE_MODELS) ->
   exists m, get_default_model_for_provider p = Some m /\ registered p m = true
   /\ _determine_model_and_provider st model (Some p) default_provider_type = (Some m, Some p))
  /\ (~ In p (odict_keys ALL_AVAILABLE_MODELS) ->
      _determine_model_and_provider st model (Some p) default_provider_type = (None, None)).
Proof.
  intros Hm Hp; split.
  - intros Hin; apply In_registry_key in Hin.
    destruct model as [[|c m]|]; [|discriminate|];
    destruct Hin as [-> | [-> | [-> | ->]]]; eexists; vm_compute; repeat split.
  - intros Hn; assert (Hk : py_in p (odict_keys ALL_AVAILABLE_MODELS) = false).
    { destruct (py_in p _) eqn:E; [apply py_in_In in E; contradiction|reflexivity]. }
    unfold _determine_model_and_provider; rewrite Hp, Hm.
    destruct (get_default_model_for_provider p); [|reflexivity].
    rewrite Hk, andb_false_r, andb_false_l; reflexivity.
Qed.

(** [check_token] guards [/api_info]: with a non-empty dashboard token [t]
    the route answers 401 unless the [Authorization] header is exactly
    ["Bearer " ++ t]; with no token, or an empty one, it always answers. *)
Theorem api_info_unauthorized_iff (tok auth : option pystr) (st : Settings) :
  api_info_route tok auth st = unauthorized
  <-> exists t, tok = Some t /\ t <> [] /\ auth <> Some (py "Bearer " ++ t).
Proof.
  unfold api_info_route, check_token.
  destruct tok as [[|c t]|]; cbn [truthy negb].
  - split; [discriminate|intros [t [Ht [Hne _]]]; inversion Ht; subst; congruence].
  - destruct auth as [a|].
    + destruct (pystr_eqb a (py "Bearer " ++ c :: t)) eqn:E; cbn [negb].
      * apply pystr_eqb_true in E; subst a; split; [discriminate|].
        intros [t' [Ht [_ Hne]]]; inversion Ht; subst; exfalso; apply Hne; reflexivity.
      * split; [intros _|reflexivity].
        exists (c :: t); split; [reflexivity|split; [discriminate|]].
        intros Ha; inversion Ha; subst; rewrite pystr_eqb_refl in E; discriminate.
    + split; [intros _|reflexivity].
      exists (c :: t); split; [reflexivity|split; [discriminate|discriminate]].
  - split; [discriminate|intros [t [Ht _]]; discriminate].
Qed.

(** An authorized [/api_info] request answers 200 with a provider and a
    default model id such that the model is in that provider's table, or,
    when the configured provider is not a registry key, the model id is
    ["N/A"]. *)
Theorem api_info_default_model_registered (tok auth : option pystr) (st : Settings) :
  check_token tok auth = true ->
  exists p m,
    api_info_route tok auth st
    = mkResponse 200 [kv "provider" (VStr p); kv "default_model_id" (VStr m)]
    /\ (registered p m = true
        \/ (py_in p (odict_keys ALL_AVAILABLE_MODELS) = false /\ m = py "N/A")).
Proof.
  intros Hc; unfold api_info_route; rewrite Hc; cbn [negb].
  set (p := if truthy (Some (image_analysis_provider st)) then image_analysis_provider st
            else ModelProvider.OPENAI).
  exists p.
  destruct (py_in p (odict_keys ALL_AVAILABLE_MODELS)) eqn:E.
  - apply py_in_In, In_registry_key in E.
    destruct E as [E|[E|[E|E]]]; rewrite E; eexists; split; [reflexivity|left; vm_compute; reflexivity
      |reflexivity|left; vm_compute; reflexivity|reflexivity|left; vm_compute; reflexivity
      |reflexivity|left; vm_compute; reflexivity].
  - rewrite (default_model_not_key p E).
    eexists; split; [reflexivity|right; split; reflexivity].
Qed.

(** The crop box [/crop_image] passes to [img.crop] lies inside the image,
    is non-empty, and covers exactly the pixels of the requested rectangle
    that are inside the image. *)
Theorem crop_box_is_clipped_request (x y w h width height x1 y1 x2 y2 : Z) :
  crop_box x y w h width height = CropBox x1 y1 x2 y2 ->
  0 <= x1 < x2 /\ x2 <= width /\ 0 <= y1 < y2 /\ y2 <= height /\
  (forall px py, (x1 <= px < x2 /\ y1 <= py < y2)
                 <-> (0 <= px < width /\ x <= px < x + w /\ 0 <= py < height /\ y <= py < y + h)).
Proof.
  unfold crop_box.
  destruct ((w <=? 0) || (h <=? 0)) eqn:E1; [discriminate|].
  destruct ((Z.min width (x + w) <=? Z.max 0 x) || (Z.min height (y + h) <=? Z.max 0 y)) eqn:E2;
    [discriminate|].
  intros H; inversion H; subst; clear H.
  apply orb_false_iff in E2 as [E2 E3]; rewrite Z.leb_gt in E2, E3.
  repeat split; try lia.
Qed.

(** [/crop_image] rejects a request as "Calculated crop area invalid"
    exactly when its width and height are positive but the requested
    rectangle has no pixel inside the image. *)
Theorem crop_area_invalid_iff_outside (x y w h width height : Z) :
  crop_box x y w h width height = CropAreaInvalid
  <-> 0 < w /\ 0 < h /\
      ~ (exists px py, 0 <= px < width /\ x <= px < x + w /\ 0 <= py < height /\ y <= py < y + h).
Proof.
  unfold crop_box.
  destruct ((w <=? 0) || (h <=? 0)) eqn:E1.
  - split; [discriminate|]. apply orb_true_iff in E1; rewrite !Z.leb_le in E1; lia.
  - apply orb_false_iff in E1 as [E1 E1']; rewrite Z.leb_gt in E1, E1'.
    destruct ((Z.min width (x + w) <=? Z.max 0 x) || (Z.min height (y + h) <=? Z.max 0 y)) eqn:E2.
    + split; [intros _|reflexivity].
      split; [lia|split; [lia|]].
      intros [px [py Hpx]]; apply orb_true_iff in E2; rewrite !Z.leb_le in E2; lia.
    + split; [discriminate|].
      intros [_ [_ Hn]]; exfalso; apply Hn.
      apply orb_false_iff in E2 as [E2 E3]; rewrite Z.leb_gt in E2, E3.
      exists (Z.max 0 x), (Z.max 0 y); lia.
Qed.

(** [os.path.splitext]: the root and the extension concatenate back to the
    path; the extension is empty or a dot followed by characters that are
    neither a dot nor a slash. *)
Theorem splitext_round_trip (p : pystr) :
  fst (splitext p) ++ snd (splitext p) = p
  /\ (snd (splitext p) = []
      \/ exists r, snd (splitext p) = 46 :: r /\ ~ In 46 r /\ ~ In 47 r).
Proof.
  destruct (splitext_ext_suffix p) as [q [Hq Hext]].
  unfold splitext; cbn [fst snd]; split; [|exact Hext].
  set (e := splitext_ext p) in *; clearbody e; subst p.
  rewrite length_app.
  replace (List.length q + List.length e - List.length e)%nat with (List.length q) by lia.
  rewrite firstn_app, firstn_all, Nat.sub_diag, firstn_O, app_nil_r; reflexivity.
Qed.

(** Text read from an uploaded file has no carriage return: text-mode
    reading turns ["\r\n"] and ["\r"] into ["\n"]. *)
Theorem read_text_no_carriage_return (bs : list Z) : ~ In 13 (read_text bs).
Proof. unfold read_text; apply translate_newlines_no_cr. Qed.

Lemma digits_rev_chars (fuel : nat) (n : Z) :
  Forall (fun c => 48 <= c <= 57) (digits_rev fuel n).
Proof.
  revert n; induction fuel as [|f IH]; intros n; cbn [digits_rev]; [constructor|].
  constructor; [pose proof (Z.mod_pos_bound n 10 ltac:(lia)); lia|].
  destruct (n <? 10); [constructor|apply IH].
Qed.

Lemma int_str_chars (n : Z) : Forall (fun c => c = 45 \/ 48 <= c <= 57) (int_str n).
Proof.
  assert (H : forall f m, Forall (fun c => c = 45 \/ 48 <= c <= 57) (rev (digits_rev f m))).
  { intros f m; apply Forall_rev; eapply Forall_impl; [|apply digits_rev_chars].
    intros c Hc; right; exact Hc. }
  unfold int_str; destruct (n <? 0); [constructor; [left; reflexivity|]|]; apply H.
Qed.

Lemma lower_id (s : pystr) :
  Forall (fun c => c = 45 \/ 48 <= c <= 57) s -> lower s = s.
Proof.
  intros H; unfold lower; induction H as [|c s Hc Hs IH]; [reflexivity|].
  cbn [map]; rewrite IH; unfold in_range.
  destruct Hc as [->|Hc]; [reflexivity|].
  replace (65 <=? c) with false by (symmetry; apply Z.leb_gt; lia); reflexivity.
Qed.

Lemma int_str_one (n : Z) : int_str n = [49] <-> n = 1.
Proof.
  split; [|intros ->; reflexivity].
  unfold int_str; destruct (n <? 0) eqn:En; [discriminate|].
  apply Z.ltb_ge in En; intros H.
  apply (f_equal (@rev Z)) in H; rewrite rev_involutive in H.
  change (rev [49]) with [49] in H.
  cbn [digits_rev] in H.
  pose proof (f_equal (hd 0) H) as H1; pose proof (f_equal (@tl Z) H) as H2.
  cbn [hd tl] in H1, H2.
  destruct (n <? 10) eqn:E10.
  - apply Z.ltb_lt in E10; rewrite Z.mod_small in H1 by lia; lia.
  - apply Z.ltb_ge in E10.
    assert (Hl : (3 <= Z.log2 n)) by (apply Z.log2_le_pow2; lia).
    destruct (Z.to_nat (Z.log2 n)) as [|f] eqn:Ef; [lia|].
    discriminate H2.
Qed.

Lemma int_str_not_word (n : Z) (w : pystr) :
  In 116 w \/ In 121 w -> pystr_eqb (lower (int_str n)) w = false.
Proof.
  intros Hw; rewrite lower_id by apply int_str_chars.
  destruct (pystr_eqb (int_str n) w) eqn:E; [|reflexivity].
  apply pystr_eqb_true in E; subst w.
  pose proof (int_str_chars n) as Hc; rewrite Forall_forall in Hc.
  destruct Hw as [Hw|Hw]; apply Hc in Hw; lia.
Qed.

(** The [use_streaming] test on [str(v).lower()]. *)

Lemma streaming_word_head (c : Z) (s : pystr) :
  c <> 116 -> c <> 121 -> c <> 49 -> streaming_word (c :: s) = false.
Proof.
  intros H1 H2 H3; unfold streaming_word, pystr_eqb.
  repeat match goal with |- context [list_eq_dec Z.eq_dec ?a ?b] =>
    destruct (list_eq_dec Z.eq_dec a b) as [E|_]; [vm_compute in E; injection E; intros; lia|]
  end; reflexivity.
Qed.

Lemma streaming_word_In (s : pystr) :
  streaming_word s = true <-> In s [py "true"; py "yes"; py "1"].
Proof.
  unfold streaming_word; rewrite !orb_true_iff, !pystr_eqb_true; simpl; intuition.
Qed.

(** The [chat_message] handler reads the payload with [data.keys()] before it
    tests [isinstance(data, dict)]: a payload that is not a JSON object
    raises [AttributeError] in that log line, and the "Invalid request
    format." reply is never emitted, for any payload. *)
Theorem socket_chat_non_dict_raises (data : sval) (fresh_uuid : pystr) :
  (is_dict data = false ->
   handle_chat_message_socket data fresh_uuid
   = SocketRaised (OtherError (py "'" ++ type_name data ++ py "' object has no attribute 'keys'")))
  /\ handle_chat_message_socket data fresh_uuid
     <> SocketEmit (py "task_error") [(py "message", SStr (py "Invalid request format."))].
Proof.
  destruct data as [s|b|n| |l|d]; try (split; [reflexivity|discriminate]).
  split; [discriminate|].
  unfold handle_chat_message_socket; cbn [is_dict negb]; cbv zeta.
  destruct (sdict_get d (py "prompt") (SStr [])); try discriminate.
  match goal with |- (if ?b then _ else _) <> _ => destruct b end; discriminate.
Qed.

(** A [chat_message] whose prompt is blank after [strip()] and which carries
    neither a non-empty [image_data_array] list nor a non-empty [image_data]
    string is answered with a [task_error] event carrying the client's
    [request_id] (or [None]), and no task is started. *)
Theorem socket_chat_blank_request_rejected (d : list (pystr * sval)) (fresh_uuid s : pystr) :
  sdict_get d (py "prompt") (SStr []) = SStr s -> strip s = [] ->
  (forall l, sdict_get d (py "image_data_array") SNull = SList l -> l = []) ->
  (forall t, sdict_get d (py "image_data") SNull = SStr t -> t = []) ->
  handle_chat_message_socket (SDict d) fresh_uuid
  = SocketEmit (py "task_error")
      [(py "request_id", sdict_get d (py "request_id") SNull);
       (py "error", SStr (py "Prompt or images cannot be empty."))].
Proof.
  intros Hp Hs Harr Himg.
  unfold handle_chat_message_socket; cbn [is_dict negb]; cbv zeta.
  rewrite Hp, Hs.
  destruct (sdict_get d (py "image_data_array") SNull) as [| | | |l|] eqn:Ea;
  try (rewrite (Harr l eq_refl));
  destruct (sdict_get d (py "image_data") SNull) as [t| | | | |] eqn:Ei;
  try (rewrite (Himg t eq_refl)); rewrite ?andb_false_r; reflexivity.
Qed.

(** A task started by the [chat_message] handler always has something to
    answer: a prompt that is non-blank after [strip()], or a non-empty
    image list. *)
Theorem socket_chat_spawn_has_input (data : sval) (fresh_uuid prompt : pystr)
    (history request_id : sval) (use_streaming : bool) (model_id provider_name : sval)
    (images : option (list sval)) :
  handle_chat_message_socket data fresh_uuid
  = SocketSpawn prompt history request_id use_streaming model_id provider_name images ->
  truthy (Some prompt) = true \/ opt_list_truthy images = true.
Proof.
  destruct data as [s|b|n| |l|d]; try discriminate.
  unfold handle_chat_message_socket; cbn [is_dict negb]; cbv zeta.
  destruct (sdict_get d (py "prompt") (SStr [])); try discriminate.
  match goal with |- (if ?b then _ else _) = _ -> _ => destruct b eqn:Eb end; [discriminate|].
  intros H; injection H as <- _ _ _ _ _ <-.
  apply andb_false_iff in Eb as [Eb|Eb]; apply negb_false_iff in Eb; [left|right]; exact Eb.
Qed.

(** The [use_streaming] flag of a socket chat task is [str(v).lower()] tested
    against "true", "yes" and "1", where [v] is the payload's value (a
    missing key reads as "true"): the task streams exactly when [v] is the
    JSON [true], the integer 1, or a string that lower-cases to one of the
    three words.  [false], [null], other numbers, lists and objects all
    select the non-streaming path. *)
Theorem socket_chat_use_streaming (d : list (pystr * sval)) (fresh_uuid prompt : pystr)
    (history request_id : sval) (use_streaming : bool) (model_id provider_name : sval)
    (images : option (list sval)) :
  handle_chat_message_socket (SDict d) fresh_uuid
  = SocketSpawn prompt history request_id use_streaming model_id provider_name images ->
  let v := sdict_get d (py "use_streaming") (SStr (py "true")) in
  use_streaming = true
  <-> v = SBool true \/ v = SInt 1
      \/ exists s, v = SStr s /\ In (lower s) [py "true"; py "yes"; py "1"].
Proof.
  unfold handle_chat_message_socket; cbn [is_dict negb]; cbv zeta.
  destruct (sdict_get d (py "prompt") (SStr [])); try discriminate.
  match goal with |- (if ?b then _ else _) = _ -> _ => destruct b end; [discriminate|].
  intros H; injection H as _ _ _ <- _ _ _.
  fold (streaming_word (lower (sval_str (sdict_get d (py "use_streaming") (SStr (py "true")))))).
  destruct (sdict_get d (py "use_streaming") (SStr (py "true"))) as [u|[]|n| |l|e].
  - cbn [sval_str sval_fmt]; rewrite streaming_word_In.
    split; [intros H; right; right; exists u; split; [reflexivity|exact H]|].
    intros [H|[H|[s' [H Hin]]]]; try discriminate; injection H as <-; exact Hin.
  - split; [intros _; left; reflexivity|reflexivity].
  - split; [vm_compute; discriminate|].
    intros [H|[H|[s' [H _]]]]; discriminate.
  - cbn [sval_str sval_fmt]; unfold streaming_word.
    rewrite (int_str_not_word n (py "true")) by (left; vm_compute; tauto).
    rewrite (int_str_not_word n (py "yes")) by (right; vm_compute; tauto).
    rewrite lower_id by apply int_str_chars.
    replace (py "1") with [49] by reflexivity.
    cbn [orb]; rewrite pystr_eqb_true, int_str_one.
    split; [intros ->; right; left; reflexivity|].
    intros [H|[H|[s' [H _]]]]; try discriminate; injection H as ->; reflexivity.
  - split; [vm_compute; discriminate|].
    intros [H|[H|[s' [H _]]]]; discriminate.
  - cbn [sval_str sval_fmt]; unfold lower; rewrite map_cons.
    change (if in_range 65 90 91 then 91 + 32 else 91) with 91.
    rewrite streaming_word_head by lia.
    split; [discriminate|intros [H|[H|[s' [H _]]]]; discriminate].
  - cbn [sval_str sval_fmt]; unfold lower; rewrite map_cons.
    change (if in_range 65 90 123 then 123 + 32 else 123) with 123.
    rewrite streaming_word_head by lia.
    split; [discriminate|intros [H|[H|[s' [H _]]]]; discriminate].
Qed.

Lemma replace_char_no_old (old new : Z) (s : pystr) :
  old <> new -> ~ In old (replace_char old new s).
Proof.
  intros Hne Hin; unfold replace_char in Hin; apply in_map_iff in Hin as [c [Hc _]].
  destruct (c =? old) eqn:E; [lia|apply Z.eqb_neq in E; lia].
Qed.

(** [/upload_screenshot] starts an analysis only for a request with an image
    file that saves and is non-empty.  The task then receives the uploaded
    bytes, and the file is saved as [form_upload_<timestamp>_<stem><ext>],
    where the stem has at most 20 characters and no space and [ext] is one of
    [ALLOWED_IMAGE_EXT], whatever the client's file name. *)
Theorem upload_screenshot_saved_name (secure_filename : pystr -> pystr) (request_id : pystr)
    (form : screenshot_form) (timestamp_ms : Z) (save_ok : bool) (resp : http_response)
    (sp : spawn) :
  upload_screenshot_route secure_filename request_id form timestamp_ms save_ok = (resp, Some sp) ->
  exists f stem ext,
    sf_image form = Some f /\ up_bytes f <> [] /\ save_ok = true /\ status_code resp = 202
    /\ In ext ALLOWED_IMAGE_EXT /\ (List.length stem <= 20)%nat /\ ~ In 32 stem
    /\ sp = SpawnAnalyze (up_bytes f)
              (py "/screenshots/" ++ py "form_upload_" ++ z_str timestamp_ms ++ py "_" ++ stem ++ ext)
              timestamp_ms (sf_prompt form) (Some request_id) (sf_model_id form) (sf_provider form).
Proof.
  unfold upload_screenshot_route.
  destruct (sf_image form) as [f|]; [|discriminate].
  destruct (splitext _) as [base ext].
  destruct save_ok; [|discriminate]; cbn [negb].
  destruct (up_bytes f) as [|b bs] eqn:Eb; [discriminate|].
  intros H; injection H as <- <-.
  exists f, (replace_char 32 95 (firstn 20 base)),
    (if py_in (lower ext) ALLOWED_IMAGE_EXT then lower ext else py ".png").
  split; [reflexivity|]; split; [rewrite Eb; discriminate|]; split; [reflexivity|].
  split; [reflexivity|].
  split; [|split; [|split]].
  - destruct (py_in (lower ext) ALLOWED_IMAGE_EXT) eqn:E; [apply py_in_In; exact E|].
    right; right; left; reflexivity.
  - unfold replace_char; rewrite length_map, length_firstn; lia.
  - apply replace_char_no_old; lia.
  - rewrite Eb; reflexivity.
Qed.

(** [/upload_screenshot] starts an analysis exactly when the request has an
    image file, saving it succeeds, and the saved file is not empty. *)
Theorem upload_screenshot_spawns_iff (secure_filename : pystr -> pystr) (request_id : pystr)
    (form : screenshot_form) (timestamp_ms : Z) (save_ok : bool) :
  snd (upload_screenshot_route secure_filename request_id form timestamp_ms save_ok) <> None
  <-> exists f, sf_image form = Some f /\ save_ok = true /\ up_bytes f <> [].
Proof.
  unfold upload_screenshot_route.
  destruct (sf_image form) as [f|]; cbn [snd].
  - destruct (splitext _) as [base ext].
    destruct save_ok; cbn [negb snd].
    + destruct (up_bytes f) as [|b bs] eqn:Eb; cbn [snd].
      * split; [intros H; exfalso; apply H; reflexivity|intros [f' [Hf [_ Hne]]]].
        injection Hf as <-; contradiction.
      * split; [intros _; exists f; split; [reflexivity|split; [reflexivity|rewrite Eb; discriminate]]
               |discriminate].
    + split; [intros H; exfalso; apply H; reflexivity|intros [f' [_ [Hs _]]]; discriminate].
  - split; [intros H; exfalso; apply H; reflexivity|intros [f' [Hf _]]; discriminate].
Qed.

(** [analyze_image] never reaches a provider: for every input it returns
    a result dict whose provider is "error" and leaves the world (settings,
    history and trace of effects) as it was.  Its call of [chat_only]
    passes the keyword [image_base64], which raises [TypeError] before
    [chat_only] runs. *)
Theorem analyze_image_never_reaches_provider (be : Backend) (img_bytes : list Z)
    (prompt model_id provider : option pystr) (w : world) :
  exists r, analyze_image be img_bytes prompt model_id provider w = (Ok r, w)
            /\ dict_get r (py "provider") = Some (VStr (py "error")).
Proof.
  unfold analyze_image, get_settings, bind, try_except, call_with_kwargs.
  rewrite analyze_image_kwargs_rejected.
  cbv beta iota zeta delta [raise ret].
  repeat match goal with |- context [match ?x with _ => _ end] => destruct x end.
  all: try (eexists; split; [reflexivity|reflexivity]).
  all: destruct is_value_error; eexists; split; reflexivity.
Qed.

Lemma pystr_eqb_false (a b : pystr) : a <> b -> pystr_eqb a b = false.
Proof. intros H; destruct (pystr_eqb a b) eqn:E; [apply pystr_eqb_true in E; contradiction|reflexivity]. Qed.

Lemma unsupported_message_truthy (x : pystr) :
  truthy (Some (py "聊天功能未启用或提供商 '" ++ x)) = true.
Proof. vm_compute; reflexivity. Qed.

(** A chat task whose target resolves to a registered provider other than
    OpenAI and Gemini (Claude or Grok) makes no SDK call.  Without streaming
    it emits one [chat_response] whose message says the provider is not
    supported; with streaming it emits one [chat_stream_chunk] carrying that
    error and a [chat_stream_end] whose full message is that chunk. *)
Theorem chat_task_unsupported_provider (be : Backend) (prompt : pystr) (history : list turn)
    (request_id : pystr) (sid model_id provider_name image_base64 : option pystr)
    (all_images_base64 : option (list pystr)) (w : world) (m p : pystr) :
  _determine_model_and_provider (w_settings w) model_id provider_name ModelProvider.OPENAI
    = (Some m, Some p) ->
  p <> ModelProvider.OPENAI -> p <> ModelProvider.GEMINI ->
  _task_chat_only be prompt history request_id sid false model_id provider_name
    image_base64 all_images_base64 w
  = (Ok tt, mkWorld (w_settings w) (w_history w)
              (w_trace w ++
                 [Emit (mkEmission (py "chat_response")
                          [kv "request_id" (VStr request_id);
                           kv "message" (VStr (py "聊天功能未启用或提供商 '" ++ p ++ py "' 不支持。"));
                           kv "provider" (VStr p); kv "model_id" (VStr m)]
                          (if truthy sid then sid else None))])
              (w_buf w))
  /\ _task_chat_only be prompt history request_id sid true model_id provider_name
       image_base64 all_images_base64 w
  = (Ok tt, mkWorld (w_settings w) (w_history w)
              (w_trace w ++
                 [chunk_event request_id sid p m
                    (py "[ERROR: 流式聊天功能未启用或提供商 '" ++ p ++ py "' 不支持。]");
                  end_event request_id sid p m
                    (py "[ERROR: 流式聊天功能未启用或提供商 '" ++ p ++ py "' 不支持。]")])
              (py "[ERROR: 流式聊天功能未启用或提供商 '" ++ p ++ py "' 不支持。]")).
Proof.
  intros Hdet Ho Hg.
  destruct (determine_resolved _ _ _ _ _ _ Hdet) as [Hm [Hp [Hk [Hr _]]]].
  pose proof (pystr_eqb_false _ _ Ho) as Eo; pose proof (pystr_eqb_false _ _ Hg) as Eg.
  split.
  - unfold _task_chat_only, get_settings, bind, try_except.
    rewrite Hdet.
    unfold chat_only, get_settings, bind, try_except.
    rewrite (chat_determine_resolved _ _ Hm Hp Hk Hr).
    cbv beta iota zeta delta [negb str_opt].
    rewrite Eo, Eg.
    cbv beta iota zeta delta [ret].
    rewrite result_dict_get_message; cbv beta iota zeta delta [py_str].
    rewrite unsupported_message_truthy.
    unfold emit_sid, emit, tell; destruct w; reflexivity.
  - unfold _task_chat_only, get_settings, bind, try_except.
    rewrite Hdet.
    unfold put_buf, chat_only_stream, get_settings, bind, try_except.
    rewrite (chat_determine_resolved _ _ Hm Hp Hk Hr).
    cbv beta iota zeta delta [negb str_opt].
    rewrite Eo, Eg.
    rewrite chat_stream_callback_run.
    unfold get_buf, ret, emit_sid, emit, tell; destruct w.
    cbv beta iota delta [w_trace w_buf w_settings w_history].
    rewrite <- app_assoc; unfold end_event; rewrite !app_nil_l; reflexivity.
Qed.

(** [chat_only] for OpenAI or Gemini with the provider's API key unset
    answers a configuration error naming the missing key, and leaves the
    world unchanged: no SDK call is made. *)
Theorem chat_only_missing_key (be : Backend) (prompt : pystr) (history : list turn)
    (images_base64 : option (list pystr)) (w : world) (m : pystr) :
  truthy (Some m) = true ->
  (registered ModelProvider.OPENAI m = true -> truthy (openai_api_key (w_settings w)) = false ->
   chat_only be prompt history (Some m) (Some ModelProvider.OPENAI) images_base64 w
   = (Ok (result_dict (py "error") (Some m) (py "配置错误: " ++ py "OpenAI API Key missing.")), w))
  /\ (registered ModelProvider.GEMINI m = true -> truthy (gemini_api_key (w_settings w)) = false ->
   chat_only be prompt history (Some m) (Some ModelProvider.GEMINI) images_base64 w
   = (Ok (result_dict (py "error") (Some m) (py "配置错误: " ++ py "Gemini API Key missing.")), w)).
Proof.
  intros Hm; split; intros Hr Hkey.
  - unfold chat_only, get_settings, bind, try_except.
    rewrite (chat_determine_resolved m ModelProvider.OPENAI Hm eq_refl eq_refl Hr).
    cbv beta iota zeta delta [negb str_opt].
    rewrite pystr_eqb_refl, Hkey; reflexivity.
  - unfold chat_only, get_settings, bind, try_except.
    rewrite (chat_determine_resolved m ModelProvider.GEMINI Hm eq_refl eq_refl Hr).
    cbv beta iota zeta delta [negb str_opt].
    replace (pystr_eqb ModelProvider.GEMINI ModelProvider.OPENAI) with false by reflexivity.
    rewrite pystr_eqb_refl, Hkey; reflexivity.
Qed.

Lemma zrange_In (n : nat) (x : Z) : 0 <= x < Z.of_nat n -> In x (zrange n).
Proof.
  intros H; unfold zrange; apply in_map_iff; exists (Z.to_nat x); split.
  - apply Z2Nat.id; lia.
  - apply in_seq; lia.
Qed.

Lemma zrange_forall (n : nat) (P : Z -> bool) :
  forallb P (zrange n) = true -> forall x, 0 <= x < Z.of_nat n -> P x = true.
Proof. intros H x Hx; rewrite forallb_forall in H; apply H, zrange_In, Hx. Qed.

Lemma zrange_forall2 (n : nat) (P : Z -> Z -> bool) :
  forallb (fun a => forallb (P a) (zrange n)) (zrange n) = true ->
  forall x y, 0 <= x < Z.of_nat n -> 0 <= y < Z.of_nat n -> P x y = true.
Proof.
  intros H x y Hx Hy.
  apply (zrange_forall n (P x)); [exact (zrange_forall n _ H x Hx) | exact Hy].
Qed.


Lemma b64_sextet_ok_all (v : Z) : 0 <= v < 64 -> b64_sextet_ok v = true.
Proof. apply (zrange_forall 64 b64_sextet_ok); vm_compute; reflexivity. Qed.

Lemma b64_char_value (v : Z) : 0 <= v < 64 -> b64_value (b64_char v) = v.
Proof.
  intros H; pose proof (b64_sextet_ok_all v H) as E; unfold b64_sextet_ok in E.
  rewrite !andb_true_iff in E; destruct E as [[[E _] _] _]; apply Z.eqb_eq, E.
Qed.

Lemma b64_char_not_pad (v : Z) : 0 <= v < 64 -> (b64_char v =? 61) = false.
Proof.
  intros H; pose proof (b64_sextet_ok_all v H) as E; unfold b64_sextet_ok in E.
  rewrite !andb_true_iff in E; destruct E as [[[_ E] _] _]; apply negb_true_iff, E.
Qed.

Lemma b64_char_ascii (v : Z) : 0 <= v < 64 -> (b64_char v <? 128) = true.
Proof.
  intros H; pose proof (b64_sextet_ok_all v H) as E; unfold b64_sextet_ok in E.
  rewrite !andb_true_iff in E; destruct E as [[_ E] _]; exact E.
Qed.

Lemma b64_char_not_space (v : Z) : 0 <= v < 64 -> py_isspace (b64_char v) = false.
Proof.
  intros H; pose proof (b64_sextet_ok_all v H) as E; unfold b64_sextet_ok in E.
  rewrite !andb_true_iff in E; destruct E as [_ E]; apply negb_true_iff, E.
Qed.

(** The sextets the encoder computes are in range, and the decoder's shifts
    give back the bytes, checked over all bytes and pairs of bytes. *)




Lemma enc_first (a b : Z) : is_byte a -> is_byte b -> enc_first_ok a b = true.
Proof. apply (zrange_forall2 256 enc_first_ok); vm_compute; reflexivity. Qed.

Lemma enc_second (b c : Z) : is_byte b -> is_byte c -> enc_second_ok b c = true.
Proof. apply (zrange_forall2 256 enc_second_ok); vm_compute; reflexivity. Qed.

Lemma enc_single (a : Z) : is_byte a -> enc_single_ok a = true.
Proof. apply (zrange_forall 256 enc_single_ok); vm_compute; reflexivity. Qed.

Lemma sextet_range (v : Z) : sextet v = true -> 0 <= v < 64.
Proof. unfold sextet; rewrite andb_true_iff, Z.leb_le, Z.ltb_lt; tauto. Qed.

Ltac b64_facts :=
  repeat match goal with
  | H : _ && _ = true |- _ => apply andb_true_iff in H as [? ?]
  | H : (_ =? _) = true |- _ => apply Z.eqb_eq in H
  | H : sextet _ = true |- _ => apply sextet_range in H
  end.

(** One alphabet character read by [a2b_base64] at each quad position. *)
Lemma a2b_char0 (v : Z) s lc pads acc : 0 <= v < 64 ->
  a2b_base64 (b64_char v :: s) 0 lc pads acc = a2b_base64 s 1 v 0 acc.
Proof.
  intros H; cbn [a2b_base64]; rewrite b64_char_not_pad, b64_char_value by exact H.
  replace (64 <=? v) with false by (symmetry; apply Z.leb_gt; lia); reflexivity.
Qed.

Lemma a2b_char1 (v : Z) s lc pads acc : 0 <= v < 64 ->
  a2b_base64 (b64_char v :: s) 1 lc pads acc
  = a2b_base64 s 2 (Z.land v 15) 0 (Z.land (Z.lor (Z.shiftl lc 2) (Z.shiftr v 4)) 255 :: acc).
Proof.
  intros H; cbn [a2b_base64]; rewrite b64_char_not_pad, b64_char_value by exact H.
  replace (64 <=? v) with false by (symmetry; apply Z.leb_gt; lia); reflexivity.
Qed.

Lemma a2b_char2 (v : Z) s lc pads acc : 0 <= v < 64 ->
  a2b_base64 (b64_char v :: s) 2 lc pads acc
  = a2b_base64 s 3 (Z.land v 3) 0 (Z.land (Z.lor (Z.shiftl lc 4) (Z.shiftr v 2)) 255 :: acc).
Proof.
  intros H; cbn [a2b_base64]; rewrite b64_char_not_pad, b64_char_value by exact H.
  replace (64 <=? v) with false by (symmetry; apply Z.leb_gt; lia); reflexivity.
Qed.

Lemma a2b_char3 (v : Z) s lc pads acc : 0 <= v < 64 ->
  a2b_base64 (b64_char v :: s) 3 lc pads acc
  = a2b_base64 s 0 0 0 (Z.land (Z.lor (Z.shiftl lc 6) v) 255 :: acc).
Proof.
  intros H; cbn [a2b_base64]; rewrite b64_char_not_pad, b64_char_value by exact H.
  replace (64 <=? v) with false by (symmetry; apply Z.leb_gt; lia); reflexivity.
Qed.

Lemma enc_single_spec (a : Z) : is_byte a ->
  0 <= Z.shiftr a 2 < 64 /\ 0 <= Z.shiftl (Z.land a 3) 4 < 64
  /\ 0 <= Z.shiftl (Z.land a 15) 2 < 64 /\ 0 <= Z.land a 63 < 64
  /\ Z.land (Z.lor (Z.shiftl (Z.shiftr a 2) 2) (Z.shiftr (Z.shiftl (Z.land a 3) 4) 4)) 255 = a
  /\ Z.land (Z.lor (Z.shiftl (Z.shiftr a 4) 4) (Z.shiftr (Z.shiftl (Z.land a 15) 2) 2)) 255 = a
  /\ Z.land (Z.lor (Z.shiftl (Z.shiftr a 6) 6) (Z.land a 63)) 255 = a.
Proof.
  intros H; pose proof (enc_single a H) as E; unfold enc_single_ok in E; cbv zeta in E; b64_facts.
  repeat (split; [assumption|]); assumption.
Qed.

Lemma enc_first_spec (a b : Z) : is_byte a -> is_byte b ->
  0 <= Z.lor (Z.shiftl (Z.land a 3) 4) (Z.shiftr b 4) < 64
  /\ Z.land (Z.lor (Z.shiftl (Z.shiftr a 2) 2)
                   (Z.shiftr (Z.lor (Z.shiftl (Z.land a 3) 4) (Z.shiftr b 4)) 4)) 255 = a
  /\ Z.land (Z.lor (Z.shiftl (Z.land a 3) 4) (Z.shiftr b 4)) 15 = Z.shiftr b 4.
Proof.
  intros Ha Hb; pose proof (enc_first a b Ha Hb) as E; unfold enc_first_ok in E; cbv zeta in E; b64_facts.
  repeat (split; [assumption|]); assumption.
Qed.

Lemma enc_second_spec (b c : Z) : is_byte b -> is_byte c ->
  0 <= Z.lor (Z.shiftl (Z.land b 15) 2) (Z.shiftr c 6) < 64
  /\ Z.land (Z.lor (Z.shiftl (Z.shiftr b 4) 4)
                   (Z.shiftr (Z.lor (Z.shiftl (Z.land b 15) 2) (Z.shiftr c 6)) 2)) 255 = b
  /\ Z.land (Z.lor (Z.shiftl (Z.land b 15) 2) (Z.shiftr c 6)) 3 = Z.shiftr c 6.
Proof.
  intros Hb Hc; pose proof (enc_second b c Hb Hc) as E; unfold enc_second_ok in E; cbv zeta in E; b64_facts.
  repeat (split; [assumption|]); assumption.
Qed.

Lemma a2b_b64encode_aux (fuel : nat) (bs acc : list Z) :
  Forall is_byte bs -> (List.length bs <= fuel)%nat ->
  a2b_base64 (b64encode_aux fuel bs) 0 0 0 acc = Some (rev acc ++ bs).
Proof.
  revert bs acc; induction fuel as [|fuel IH]; intros bs acc Hb Hl.
  - destruct bs; [|cbn in Hl; lia]. cbn; rewrite app_nil_r; reflexivity.
  - destruct bs as [|a [|b [|c rest]]].
    + cbn; rewrite app_nil_r; reflexivity.
    + inversion Hb as [|? ? Ha _]; subst.
      destruct (enc_single_spec a Ha) as (R1 & R2 & _ & _ & Q1 & _ & _).
      cbn [b64encode_aux].
      rewrite a2b_char0, a2b_char1 by assumption.
      cbn [a2b_base64 Z.eqb Z.leb Z.add andb Pos.eqb Pos.add Pos.compare Z.compare].
      cbn [rev]; rewrite Q1; reflexivity.
    + inversion Hb as [|? ? Ha Hb']; inversion Hb' as [|? ? Hb0 _]; subst.
      destruct (enc_single_spec a Ha) as (R1 & _ & _ & _ & _ & _ & _).
      destruct (enc_first_spec a b Ha Hb0) as (R2 & Q1 & L1).
      destruct (enc_single_spec b Hb0) as (_ & _ & R3 & _ & _ & Q2 & _).
      cbn [b64encode_aux].
      rewrite a2b_char0, a2b_char1, a2b_char2 by assumption.
      rewrite L1.
      cbn [a2b_base64 Z.eqb Z.leb Z.add andb Pos.eqb Pos.add Pos.compare Z.compare].
      cbn [rev]; rewrite Q1, Q2, <- app_assoc; reflexivity.
    + inversion Hb as [|? ? Ha Hb']; inversion Hb' as [|? ? Hb0 Hc'];
        inversion Hc' as [|? ? Hc0 Hrest]; subst.
      destruct (enc_single_spec a Ha) as (R1 & _ & _ & _ & _ & _ & _).
      destruct (enc_first_spec a b Ha Hb0) as (R2 & Q1 & L1).
      destruct (enc_second_spec b c Hb0 Hc0) as (R3 & Q2 & L2).
      destruct (enc_single_spec c Hc0) as (_ & _ & _ & R4 & _ & _ & Q3).
      cbn [b64encode_aux app].
      rewrite a2b_char0, a2b_char1, a2b_char2, a2b_char3 by assumption.
      rewrite L1, L2, Q1, Q2, Q3.
      rewrite IH by (assumption || (cbn [List.length] in Hl; lia)).
      cbn [rev]; rewrite <- !app_assoc; reflexivity.
Qed.

Lemma b64encode_aux_ascii (fuel : nat) (bs : list Z) :
  Forall is_byte bs ->
  forallb (fun c => c <? 128) (b64encode_aux fuel bs) = true
  /\ forallb (fun c => negb (py_isspace c)) (b64encode_aux fuel bs) = true.
Proof.
  revert bs; induction fuel as [|fuel IH]; intros bs Hb; [split; reflexivity|].
  destruct bs as [|a [|b [|c rest]]]; [split; reflexivity| | |].
  - inversion Hb as [|? ? Ha _]; subst.
    destruct (enc_single_spec a Ha) as (R1 & R2 & _).
    cbn [b64encode_aux forallb].
    rewrite !b64_char_ascii, !b64_char_not_space by assumption; split; reflexivity.
  - inversion Hb as [|? ? Ha Hb']; inversion Hb' as [|? ? Hb0 _]; subst.
    destruct (enc_single_spec a Ha) as (R1 & _).
    destruct (enc_first_spec a b Ha Hb0) as (R2 & _).
    destruct (enc_single_spec b Hb0) as (_ & _ & R3 & _).
    cbn [b64encode_aux forallb].
    rewrite !b64_char_ascii, !b64_char_not_space by assumption; split; reflexivity.
  - inversion Hb as [|? ? Ha Hb']; inversion Hb' as [|? ? Hb0 Hc'];
      inversion Hc' as [|? ? Hc0 Hrest]; subst.
    destruct (enc_single_spec a Ha) as (R1 & _).
    destruct (enc_first_spec a b Ha Hb0) as (R2 & _).
    destruct (enc_second_spec b c Hb0 Hc0) as (R3 & _).
    destruct (enc_single_spec c Hc0) as (_ & _ & _ & R4 & _).
    destruct (IH rest Hrest) as [I1 I2].
    cbn [b64encode_aux app forallb].
    rewrite !b64_char_ascii, !b64_char_not_space, I1, I2 by assumption; split; reflexivity.
Qed.

Lemma b64decode_b64encode_aux (bs : list Z) :
  Forall is_byte bs -> b64decode (b64encode bs) = Some bs.
Proof.
  intros Hb; unfold b64decode, b64encode.
  rewrite (proj1 (b64encode_aux_ascii _ _ Hb)).
  rewrite a2b_b64encode_aux by (assumption || lia); reflexivity.
Qed.

Lemma gemini_turn_parts_text (t : turn) :
  Forall (fun p => is_gdata p = false) (gemini_turn_parts t).
Proof.
  unfold gemini_turn_parts.
  destruct (turn_parts t) as [ps|].
  - apply Forall_forall; intros p Hp; apply in_flat_map in Hp as [q [_ Hq]].
    destruct q as [[x|]|]; [|destruct Hq|destruct Hq].
    destruct (truthy (Some (strip x))); [|destruct Hq].
    destruct Hq as [<-|[]]; reflexivity.
  - destruct (turn_content t) as [c|]; [|constructor].
    destruct (truthy (Some (strip c))); repeat constructor.
Qed.

Lemma filter_none {A} (f : A -> bool) (l : list A) :
  Forall (fun x => f x = false) l -> filter f l = [].
Proof. induction 1 as [|x l Hx _ IH]; [reflexivity|]; cbn; rewrite Hx; exact IH. Qed.

Lemma filter_all {A} (f : A -> bool) (l : list A) :
  Forall (fun x => f x = true) l -> filter f l = l.
Proof. induction 1 as [|x l Hx _ IH]; [reflexivity|]; cbn; rewrite Hx, IH; reflexivity. Qed.

Lemma strip_no_space (s : pystr) :
  forallb (fun c => negb (py_isspace c)) s = true -> strip s = s.
Proof.
  intros H.
  assert (L : forall u, forallb (fun c => negb (py_isspace c)) u = true -> lstrip u = u).
  { intros [|c u] Hu; [reflexivity|]; cbn in Hu |- *.
    apply andb_true_iff in Hu as [Hc _]; apply negb_true_iff in Hc; rewrite Hc; reflexivity. }
  unfold strip; rewrite (L s H), L, rev_involutive; [reflexivity|].
  apply forallb_forall; intros c Hc; apply in_rev in Hc.
  rewrite forallb_forall in H; apply H, Hc.
Qed.

Lemma b64encode_nonempty (bs : list Z) : bs <> [] -> b64encode bs <> [].
Proof.
  intros H; unfold b64encode.
  destruct bs as [|a [|b [|c rest]]]; [congruence| | |]; cbn; discriminate.
Qed.

Lemma gemini_images_dropped (images_base64 : option (list pystr)) :
  match images_base64 with
  | Some l =>
      flat_map (fun s => if truthy (Some (strip s)) then
                           match gemini_image_part s with
                           | Ok image_part => [image_part]
                           | Raised _ => []
                           end
                         else []) l
  | None => [] end = [].
Proof.
  destruct images_base64 as [l|]; [|reflexivity].
  induction l as [|s l IH]; [reflexivity|].
  cbn [flat_map]; rewrite IH.
  unfold gemini_image_part; destruct (truthy (Some (strip s))); [|reflexivity].
  destruct (b64decode s); reflexivity.
Qed.

(** [_prepare_gemini_contents] sends text only: [Part.from_data] raises for
    every image and the loop skips it, so the images given have no effect on
    the request and the image count is 0.  Every content block has the role
    "user" or "model", at least one part, and no image part. *)
Theorem prepare_gemini_contents_drops_images (prompt : pystr) (history : list turn)
    (images_base64 : option (list pystr)) :
  _prepare_gemini_contents prompt history images_base64
  = _prepare_gemini_contents prompt history None
  /\ let '(contents, n) := _prepare_gemini_contents prompt history images_base64 in
     Forall (fun c => (gc_role c = py "user" \/ gc_role c = py "model") /\ gc_parts c <> []
                      /\ Forall (fun p => is_gdata p = false) (gc_parts c)) contents
     /\ n = 0%nat.
Proof.
  unfold _prepare_gemini_contents; cbv zeta.
  rewrite gemini_images_dropped; split; [reflexivity|].
  match goal with |- context [flat_map ?F history] => set (hist := flat_map F history) end.
  assert (Hh : Forall (fun c => (gc_role c = py "user" \/ gc_role c = py "model")
                                /\ gc_parts c <> []
                                /\ Forall (fun p => is_gdata p = false) (gc_parts c)) hist).
  { apply Forall_forall; intros c Hc; apply in_flat_map in Hc as [t [_ Hc]].
    pose proof (gemini_turn_parts_text t) as Ht.
    destruct (turn_role t) as [r|]; [|destruct Hc].
    destruct (py_in r [py "user"; py "model"]) eqn:Er; [|destruct Hc].
    destruct (gemini_turn_parts t) as [|q qs]; [destruct Hc|].
    destruct Hc as [<-|[]]; cbn [gc_role gc_parts].
    apply py_in_In in Er; destruct Er as [<-|[<-|[]]]; (split; [auto|split; [discriminate|exact Ht]]). }
  rewrite app_nil_r; split; [|reflexivity].
  destruct (truthy (Some prompt)); cbn [List.length].
  - apply Forall_app; split; [exact Hh|].
    constructor; [|constructor]; cbn [gc_role gc_parts].
    split; [left; reflexivity|split; [discriminate|repeat constructor]].
  - rewrite app_nil_r; exact Hh.
Qed.

(** [base64.b64decode] inverts [base64.b64encode]: encoding a byte string
    and decoding the result gives the byte string back. *)
Theorem b64decode_b64encode (bs : list Z) :
  Forall is_byte bs -> b64decode (b64encode bs) = Some bs.
Proof. exact (b64decode_b64encode_aux bs). Qed.

Lemma default_model_openai :
  get_default_model_for_provider ModelProvider.OPENAI = Some DEFAULT_MODEL_OPENAI.
Proof. vm_compute; reflexivity. Qed.

(** [_chat_openai] with an API key always reaches the SDK: the system
    message is always in [messages], so the early answer for an empty
    request is unreachable.  It makes exactly one SDK call, with the
    requested model (the default model when none is requested) and messages
    headed by the system message, and returns the stripped reply text, the
    empty string when the reply has none, or the SDK's exception. *)
Theorem chat_openai_always_calls_sdk (be : Backend) (prompt : pystr) (history : list turn)
    (model_id : option pystr) (images_base64 : option (list pystr)) (w : world) :
  truthy (openai_api_key (w_settings w)) = true ->
  let m := if truthy model_id then str_opt model_id else DEFAULT_MODEL_OPENAI in
  exists msgs,
    hd_error msgs = Some openai_system_message /\
    _chat_openai be prompt history model_id images_base64 w
    = (match openai_create be m msgs with
       | Ok (Some c) => Ok (if truthy (Some c) then strip c else [])
       | Ok None => Ok []
       | Raised e => Raised e
       end,
       mkWorld (w_settings w) (w_history w) (w_trace w ++ [SdkCall ModelProvider.OPENAI m])
         (w_buf w)).
Proof.
  intros Hkey m.
  unfold _chat_openai, get_settings, bind.
  rewrite Hkey; cbv beta iota zeta delta [negb opt_or].
  assert (Hm : match (if truthy model_id then model_id
                      else get_default_model_for_provider ModelProvider.OPENAI) with
               | Some m0 => if truthy (Some m0) then m0 else py "gpt-4o"
               | None => py "gpt-4o" end = m).
  { subst m; rewrite default_model_openai.
    destruct model_id as [x|]; [|reflexivity].
    destruct (truthy (Some x)) eqn:Ex; [rewrite Ex; reflexivity|reflexivity]. }
  rewrite Hm.
  destruct (openai_user_parts prompt images_base64) as [|q qs].
  - exists (openai_system_message :: openai_history openai_turn_text history).
    split; [reflexivity|].
    unfold tell; destruct (openai_create be m _) as [[c|]|e]; reflexivity.
  - exists ((openai_system_message :: openai_history openai_turn_text history)
              ++ [UserParts (q :: qs)]).
    split; [reflexivity|].
    unfold tell; destruct (openai_create be m _) as [[c|]|e]; reflexivity.
Qed.

Lemma chat_openai_stream_error_run be prompt history request_id sid p m' m images w hist cs msg :
  truthy (openai_api_key (w_settings w)) = true -> truthy (Some m) = true ->
  openai_stream_history history = Ok hist ->
  (forall msgs, openai_create_stream be m msgs = mkStream (map Some cs) (Some (OpenAIAPIError msg))) ->
  _chat_openai_stream be prompt history (chat_stream_callback request_id sid p m') (Some m) images w
  = (Raised (OpenAIAPIError msg),
     mkWorld (w_settings w) (w_history w)
       (w_trace w ++ SdkCall ModelProvider.OPENAI m
                     :: map (chunk_event request_id sid p m') (filter nonempty cs)
                     ++ [chunk_event request_id sid p m' (py "[ERROR: OpenAI API Error - " ++ msg ++ py "]")])
       (w_buf w ++ List.concat (filter nonempty cs) ++ (py "[ERROR: OpenAI API Error - " ++ msg ++ py "]"))).
Proof.
  intros Hkey Hm Hhist Hstream.
  unfold _chat_openai_stream, get_settings, bind.
  rewrite Hkey; cbv beta iota zeta delta [negb opt_or]; rewrite Hm, Hhist.
  cbv beta iota zeta.
  rewrite Hm.
  match goal with |- context [match openai_user_parts ?a ?b with _ => _ end] =>
    destruct (openai_user_parts a b) end;
  unfold try_except, tell; rewrite !Hstream;
  cbv beta iota zeta delta [ss_chunks ss_end];
  rewrite openai_stream_loop_run; unfold raise, bind;
  rewrite chat_stream_callback_run; cbv beta iota zeta delta [exn_str];
  cbn [w_settings w_history w_trace w_buf]; rewrite ?app_nil_l, <- !app_assoc; reflexivity.
Qed.

(** A streaming chat task with OpenAI whose stream fails with an OpenAI API
    error after yielding the chunks [cs] reports the failure twice inside
    the stream and never as a [task_error]: after the chunk events come a
    chunk with the API error, a chunk with the communication error, and a
    [chat_stream_end] whose full message is the text streamed so far
    followed by both error chunks.  History is untouched. *)
Theorem streaming_openai_failure_reported_in_stream (be : Backend) (prompt : pystr)
    (history : list turn) (request_id : pystr) (sid model_id provider_name image_base64 : option pystr)
    (all_images_base64 : option (list pystr)) (w : world) (m : pystr) (hist : list message)
    (cs : list pystr) (msg : pystr) :
  _determine_model_and_provider (w_settings w) model_id provider_name ModelProvider.OPENAI
    = (Some m, Some ModelProvider.OPENAI) ->
  truthy (openai_api_key (w_settings w)) = true ->
  openai_stream_history history = Ok hist ->
  (forall msgs, openai_create_stream be m msgs = mkStream (map Some cs) (Some (OpenAIAPIError msg))) ->
  let e1 := py "[ERROR: OpenAI API Error - " ++ msg ++ py "]" in
  let e2 := py "[ERROR: 与 AI (" ++ ModelProvider.OPENAI ++ py "/" ++ m ++ py ") 流式通信时出错 - "
            ++ msg ++ py "]" in
  let '(r, w') := _task_chat_only be prompt history request_id sid true model_id provider_name
                    image_base64 all_images_base64 w in
  r = Ok tt /\ w_history w' = w_history w /\
  w_trace w' = w_trace w ++ SdkCall ModelProvider.OPENAI m
                 :: map (chunk_event request_id sid ModelProvider.OPENAI m) (filter nonempty cs)
                 ++ [chunk_event request_id sid ModelProvider.OPENAI m e1;
                     chunk_event request_id sid ModelProvider.OPENAI m e2;
                     end_event request_id sid ModelProvider.OPENAI m (List.concat cs ++ e1 ++ e2)].
Proof.
  intros Hdet Hkey Hhist Hstream e1 e2.
  destruct (determine_resolved _ _ _ _ _ _ Hdet) as [Hm [Hp [Hk [Hr _]]]].
  unfold _task_chat_only, get_settings, bind.
  rewrite Hdet; cbv beta iota zeta.
  unfold try_except, put_buf, bind.
  unfold chat_only_stream, get_settings, bind.
  rewrite (chat_determine_resolved _ _ Hm Hp Hk Hr).
  cbv beta iota zeta delta [negb str_opt].
  rewrite pystr_eqb_refl; cbn [w_settings]; rewrite Hkey; cbv beta iota.
  unfold try_except, bind.
  rewrite (chat_openai_stream_error_run _ _ _ _ _ _ _ _ _
             (mkWorld (w_settings w) (w_history w) (w_trace w) []) _ _ _ Hkey Hm Hhist Hstream).
  cbv beta iota zeta delta [is_value_error exn_str].
  rewrite chat_stream_callback_run.
  unfold ret, get_buf, emit_sid, emit, tell.
  cbn [w_settings w_history w_trace w_buf].
  rewrite !app_nil_l, concat_filter_nonempty.
  split; [reflexivity|]; split; [reflexivity|].
  unfold end_event, e1, e2; repeat (rewrite <- app_assoc || rewrite <- app_comm_cons); reflexivity.
Qed.

Lemma prepare_gemini_contents_nonempty prompt history images :
  truthy (Some prompt) = true -> fst (_prepare_gemini_contents prompt history images) <> [].
Proof.
  intros Hp; unfold _prepare_gemini_contents; rewrite Hp; cbn [fst app].
  intros H; apply app_eq_nil in H; destruct H as [_ H]; discriminate H.
Qed.

Lemma chat_gemini_run (be : Backend) prompt history model_id images w :
  _chat_gemini be prompt history model_id images w
  = (if truthy (gemini_api_key (w_settings w)) then
       match fst (_prepare_gemini_contents prompt history images) with
       | [] => Ok (py "请求内容为空，请输入问题或提供有效图片。")
       | _ => Raised (settings_no_attribute (py "GEMINI_MAX_TOKENS"))
       end
     else Raised (ValueError (py "Gemini API key not configured in settings.")), w).
Proof.
  unfold _chat_gemini, get_gemini_client, settings_getattr_missing, get_settings, bind, ret, raise.
  destruct (truthy (gemini_api_key (w_settings w))); [|reflexivity].
  destruct (_prepare_gemini_contents prompt history images) as [[|c cs] n]; reflexivity.
Qed.

(** [_chat_gemini] never calls the Gemini SDK and never changes the world.
    Without an API key it raises [ValueError]; with one, it answers the
    'empty request' message when there is nothing to send, and otherwise
    raises [AttributeError] for [settings.GEMINI_MAX_TOKENS] before the
    [try] around the SDK call. *)
Theorem chat_gemini_raises_before_sdk (be : Backend) (prompt : pystr) (history : list turn)
    (model_id : option pystr) (images_base64 : option (list pystr)) (w : world) :
  _chat_gemini be prompt history model_id images_base64 w
  = (if truthy (gemini_api_key (w_settings w)) then
       match fst (_prepare_gemini_contents prompt history images_base64) with
       | [] => Ok (py "请求内容为空，请输入问题或提供有效图片。")
       | _ => Raised (settings_no_attribute (py "GEMINI_MAX_TOKENS"))
       end
     else Raised (ValueError (py "Gemini API key not configured in settings.")), w).
Proof.
  unfold _chat_gemini, get_gemini_client, settings_getattr_missing, get_settings, bind, ret, raise.
  destruct (truthy (gemini_api_key (w_settings w))); [|reflexivity].
  destruct (_prepare_gemini_contents prompt history images_base64) as [[|c cs] n]; reflexivity.
Qed.

(** [chat_only] for a registered Gemini model, with the Gemini key set and a
    non-empty prompt, makes no SDK call and answers an 'error' result whose
    message reports the [AttributeError] of [settings.GEMINI_MAX_TOKENS] as
    a communication error; the world is unchanged. *)
Theorem chat_only_gemini_reports_missing_setting (be : Backend) (prompt : pystr)
    (history : list turn) (images_base64 : option (list pystr)) (w : world) (m : pystr) :
  truthy (Some m) = true -> registered ModelProvider.GEMINI m = true ->
  truthy (gemini_api_key (w_settings w)) = true -> truthy (Some prompt) = true ->
  chat_only be prompt history (Some m) (Some ModelProvider.GEMINI) images_base64 w
  = (Ok (result_dict (py "error") (Some m)
           (py "与 AI (" ++ ModelProvider.GEMINI ++ py "/" ++ m ++ py ") 通信时出错: "
            ++ exn_str (settings_no_attribute (py "GEMINI_MAX_TOKENS")))), w).
Proof.
  intros Hm Hr Hkey Hp.
  unfold chat_only, get_settings, bind, try_except.
  rewrite (chat_determine_resolved m ModelProvider.GEMINI Hm eq_refl eq_refl Hr).
  cbv beta iota zeta delta [negb str_opt].
  replace (pystr_eqb ModelProvider.GEMINI ModelProvider.OPENAI) with false by reflexivity.
  rewrite pystr_eqb_refl, Hkey; cbv beta iota.
  rewrite chat_gemini_run, Hkey.
  destruct (fst (_prepare_gemini_contents prompt history images_base64)) eqn:E;
    [exfalso; exact (prepare_gemini_contents_nonempty _ _ _ Hp E)|].
  reflexivity.
Qed.

Lemma chat_gemini_stream_run (be : Backend) prompt history cb model_id images w :
  _chat_gemini_stream be prompt history cb model_id images w
  = if truthy (gemini_api_key (w_settings w)) then
      match fst (_prepare_gemini_contents prompt history images) with
      | [] => (cb (py "[错误: 请求内容为空。]") ;; ret (py "请求内容为空。")) w
      | _ => (Raised (settings_no_attribute (py "GEMINI_MAX_TOKENS_STREAM")), w)
      end
    else (Raised (ValueError (py "Gemini API key not configured in settings.")), w).
Proof.
  unfold _chat_gemini_stream, get_gemini_client, settings_getattr_missing, get_settings, raise.
  unfold bind at 1 2; cbv beta iota.
  destruct (truthy (gemini_api_key (w_settings w))); [|reflexivity].
  unfold ret; cbv beta iota.
  destruct (_prepare_gemini_contents prompt history images) as [[|c cs] n]; reflexivity.
Qed.

Lemma chat_only_stream_gemini_run be prompt history request_id sid m images w :
  truthy (Some m) = true -> registered ModelProvider.GEMINI m = true ->
  truthy (gemini_api_key (w_settings w)) = true -> truthy (Some prompt) = true ->
  let err := py "[ERROR: 与 AI (" ++ ModelProvider.GEMINI ++ py "/" ++ m ++ py ") 流式通信时出错 - "
             ++ exn_str (settings_no_attribute (py "GEMINI_MAX_TOKENS_STREAM")) ++ py "]" in
  chat_only_stream be prompt history (chat_stream_callback request_id sid ModelProvider.GEMINI m)
    (Some m) (Some ModelProvider.GEMINI) images w
  = (Ok (result_dict (py "error") (Some m)
           (py "与 AI (" ++ ModelProvider.GEMINI ++ py "/" ++ m ++ py ") 流式通信时出错: "
            ++ exn_str (settings_no_attribute (py "GEMINI_MAX_TOKENS_STREAM")))),
     mkWorld (w_settings w) (w_history w)
       (w_trace w ++ [chunk_event request_id sid ModelProvider.GEMINI m err]) (w_buf w ++ err)).
Proof.
  intros Hm Hr Hkey Hp err.
  unfold chat_only_stream, get_settings, bind.
  rewrite (chat_determine_resolved m ModelProvider.GEMINI Hm eq_refl eq_refl Hr).
  cbv beta iota zeta delta [negb str_opt].
  replace (pystr_eqb ModelProvider.GEMINI ModelProvider.OPENAI) with false by reflexivity.
  rewrite pystr_eqb_refl, Hkey; cbv beta iota.
  unfold try_except.
  rewrite chat_gemini_stream_run, Hkey.
  destruct (fst (_prepare_gemini_contents prompt history images)) eqn:E;
    [exfalso; exact (prepare_gemini_contents_nonempty _ _ _ Hp E)|].
  cbv beta iota delta [is_value_error].
  cbv beta iota delta [settings_no_attribute].
  rewrite chat_stream_callback_run; unfold ret.
  reflexivity.
Qed.

(** A streaming chat task whose target resolves to a Gemini model, with the
    Gemini key set and a non-empty prompt, never reads a Gemini stream: the
    [settings.GEMINI_MAX_TOKENS_STREAM] read raises first, [chat_only_stream]
    passes its error text to the callback as one chunk, and the task ends
    the stream with that text as [full_message]. *)
Theorem streaming_gemini_task_reports_missing_setting (be : Backend) (prompt : pystr)
    (history : list turn) (request_id : pystr) (sid model_id provider_name image_base64 : option pystr)
    (all_images_base64 : option (list pystr)) (w : world) (m : pystr) :
  _determine_model_and_provider (w_settings w) model_id provider_name ModelProvider.OPENAI
    = (Some m, Some ModelProvider.GEMINI) ->
  truthy (gemini_api_key (w_settings w)) = true ->
  truthy (Some prompt) = true ->
  let err := py "[ERROR: 与 AI (" ++ ModelProvider.GEMINI ++ py "/" ++ m ++ py ") 流式通信时出错 - "
             ++ exn_str (settings_no_attribute (py "GEMINI_MAX_TOKENS_STREAM")) ++ py "]" in
  _task_chat_only be prompt history request_id sid true model_id provider_name
    image_base64 all_images_base64 w
  = (Ok tt, mkWorld (w_settings w) (w_history w)
              (w_trace w ++ [chunk_event request_id sid ModelProvider.GEMINI m err;
                             end_event request_id sid ModelProvider.GEMINI m err])
              err).
Proof.
  intros Hdet Hkey Hp err.
  destruct (determine_resolved _ _ _ _ _ _ Hdet) as [Hm [_ [_ [Hr _]]]].
  unfold _task_chat_only, get_settings, bind; cbv beta iota.
  rewrite Hdet; cbv beta iota zeta.
  unfold try_except, put_buf, bind.
  rewrite (chat_only_stream_gemini_run be prompt history request_id sid m _
             (mkWorld (w_settings w) (w_history w) (w_trace w) []) Hm Hr Hkey Hp).
  unfold get_buf, emit_sid, emit, tell, end_event.
  cbn [w_settings w_history w_trace w_buf].
  rewrite app_nil_l, <- app_assoc; reflexivity.
Qed.

Lemma scan_providers_key (reg : odict (odict pystr)) (m p : pystr) :
  scan_providers reg m = Some p -> In p (odict_keys reg).
Proof.
  induction reg as [|[q ms] reg IH]; cbn [scan_providers]; [discriminate|].
  destruct (py_in m (odict_keys ms)); [intros [= <-]; left; reflexivity|].
  intros H; right; exact (IH H).
Qed.

Lemma scan_providers_truthy (m p : pystr) :
  scan_providers ALL_AVAILABLE_MODELS m = Some p -> truthy (Some p) = true.
Proof.
  intros H; pose proof ALL_AVAILABLE_MODELS_keys_truthy as Ht.
  rewrite forallb_forall in Ht; exact (Ht p (scan_providers_key _ _ _ H)).
Qed.

Lemma try_except_total {A} (m : M A) (h : exn -> M A) (w : world) :
  (forall e w', exists a w'', h e w' = (Ok a, w'')) ->
  exists a w', try_except m h w = (Ok a, w').
Proof.
  intros Hh; unfold try_except.
  destruct (m w) as [[a|e] w']; [eauto|apply Hh].
Qed.

(** [chat_only] raises exactly when the request names no provider and its
    model id, if any, is in no provider's table: the fallback then reads
    [settings.DEFAULT_CHAT_PROVIDER], which raises [AttributeError] outside
    the [try], and the world is unchanged.  Every other request gets a
    result dict. *)
Theorem chat_only_raises_iff_no_provider (be : Backend) (prompt : pystr) (history : list turn)
    (model_id provider : option pystr) (images_base64 : option (list pystr)) (w : world) :
  let inferred := match model_id with
                  | Some m => scan_providers ALL_AVAILABLE_MODELS m
                  | None => None end in
  (truthy provider = false -> inferred = None ->
   chat_only be prompt history model_id provider images_base64 w
   = (Raised (settings_no_attribute (py "DEFAULT_CHAT_PROVIDER")), w))
  /\ (truthy provider = true \/ inferred <> None ->
      exists r w', chat_only be prompt history model_id provider images_base64 w = (Ok r, w')).
Proof.
  intros inferred; split.
  - intros Hp Hi.
    unfold chat_only, get_settings, bind, raise; cbv beta iota.
    unfold chat_determine; rewrite Hp.
    replace (truthy (match model_id with
                     | Some m => if truthy model_id then scan_providers ALL_AVAILABLE_MODELS m else None
                     | None => None end)) with false; [reflexivity|].
    subst inferred; destruct model_id as [m|]; [|reflexivity].
    rewrite Hi; destruct (truthy (Some m)); reflexivity.
  - intros Hpi.
    assert (Hd : exists r, chat_determine model_id provider = Ok r).
    { unfold chat_determine.
      destruct (truthy provider) eqn:Ep; [eexists; reflexivity|].
      destruct Hpi as [Hpi|Hpi]; [congruence|].
      subst inferred; destruct model_id as [m|]; [|congruence].
      destruct (scan_providers ALL_AVAILABLE_MODELS m) as [q|] eqn:Eq; [|congruence].
      assert (Hm : truthy (Some m) = true).
      { destruct m as [|c m]; [|reflexivity].
        exfalso; vm_compute in Eq; discriminate Eq. }
      rewrite Hm, (scan_providers_truthy _ _ Eq); eexists; reflexivity. }
    destruct Hd as [[[cm cp] valid] Hd].
    unfold chat_only, get_settings, bind; cbv beta iota.
    rewrite Hd; cbv beta iota zeta.
    destruct (negb valid); [do 2 eexists; reflexivity|].
    apply try_except_total; intros e w'.
    destruct (is_value_error e); do 2 eexists; reflexivity.
Qed.

(** A chat task never raises: every failure, including an exception of
    [chat_only] or [chat_only_stream], ends in an emitted error event or,
    without a [sid], in silence. *)
Theorem chat_task_never_raises (be : Backend) (prompt : pystr) (history : list turn)
    (request_id : pystr) (sid : option pystr) (use_streaming : bool)
    (model_id provider_name image_base64 : option pystr)
    (all_images_base64 : option (list pystr)) (w : world) :
  fst (_task_chat_only be prompt history request_id sid use_streaming model_id provider_name
         image_base64 all_images_base64 w) = Ok tt.
Proof.
  unfold _task_chat_only, get_settings, bind; cbv beta iota.
  destruct (_determine_model_and_provider (w_settings w) model_id provider_name
              ModelProvider.OPENAI) as [[fm|] [fp|]]; cbv beta iota zeta;
    try (destruct (truthy sid); reflexivity).
  unfold try_except.
  match goal with |- fst (match ?x with _ => _ end) = _ => destruct x as [[u|e] w'] end;
    [destruct u; reflexivity|].
  destruct (truthy sid); reflexivity.
Qed.

Lemma starts_with_app (p q s : pystr) :
  starts_with p q = true -> starts_with p (q ++ s) = true.
Proof.
  revert q; induction p as [|x p IH]; intros q H; [reflexivity|].
  destruct q as [|y q]; [discriminate|].
  cbn in *; apply andb_true_iff in H as [H1 H2]; rewrite H1; cbn; exact (IH q H2).
Qed.

Lemma substr_app_r (p q s : pystr) : substr p s = true -> substr p (q ++ s) = true.
Proof.
  induction q as [|c q IH]; intros H; [exact H|].
  cbn [app substr]; rewrite (IH H), orb_true_r; reflexivity.
Qed.

Lemma proxy_url_scheme (x : pystr) : substr (py "://") (proxy_url x) = true.
Proof.
  unfold proxy_url; destruct (substr (py "://") x) eqn:E; [exact E|].
  change (py "http://" ++ x) with (py "http" ++ (py "://" ++ x)).
  apply substr_app_r. destruct (py "://" ++ x) eqn:F; [discriminate F|].
  cbn [substr]; rewrite <- F, starts_with_app; reflexivity.
Qed.

(** Both helpers route HTTPS through [https_proxy] when it is set and
    through [http_proxy] otherwise, and HTTP through [http_proxy]. *)
Lemma get_proxy_dict_routes (http_proxy https_proxy : option pystr) :
  (get_proxy_dict http_proxy https_proxy = None
     <-> truthy http_proxy = false /\ truthy https_proxy = false)
  /\ forall d, get_proxy_dict http_proxy https_proxy = Some d ->
     odict_get d (py "https") =
       (if truthy https_proxy then Some (proxy_url (str_opt https_proxy))
        else if truthy http_proxy then Some (proxy_url (str_opt http_proxy)) else None)
     /\ odict_get d (py "http") =
       (if truthy http_proxy then Some (proxy_url (str_opt http_proxy)) else None)
     /\ incl (odict_keys d) [py "https"; py "http"]
     /\ Forall (fun kv => substr (py "://") (snd kv) = true) d.
Proof.
  pose proof (proxy_url_scheme (str_opt http_proxy)) as Hu.
  pose proof (proxy_url_scheme (str_opt https_proxy)) as Hv.
  unfold get_proxy_dict.
  generalize dependent (proxy_url (str_opt http_proxy)); intros u Hu.
  generalize dependent (proxy_url (str_opt https_proxy)); intros v Hv.
  destruct (truthy http_proxy), (truthy https_proxy); vm_compute odict_setitem;
  vm_compute odict_setdefault; vm_compute odict_setitem.
  all: cbv beta iota; split;
    [split; [intros H; try discriminate H; auto | intros [H1 H2]; try discriminate; reflexivity]
    | intros d Hd; try discriminate Hd; injection Hd as <-].
  all: split; [vm_compute; reflexivity|]; split; [vm_compute; reflexivity|]; split;
    [intros a Ha; cbn [odict_keys map fst In] in Ha; vm_compute;
     repeat (destruct Ha as [<-|Ha]; [tauto|]); destruct Ha
    | repeat constructor; assumption].
Qed.

(** The client handed to the OpenAI SDK uses the same HTTP and HTTPS proxies
    as the dictionary handed to requests and Gemini, and exists exactly when
    that dictionary does (given httpx is installed and the client builds). *)
Lemma httpx_client_matches_proxy_dict (httpx_installed client_ok : bool)
    (http_proxy https_proxy : option pystr) :
  (httpx_installed = false \/ client_ok = false ->
     get_httpx_client httpx_installed client_ok http_proxy https_proxy = None)
  /\ match get_proxy_dict http_proxy https_proxy,
           get_httpx_client true true http_proxy https_proxy with
     | None, None => True
     | Some d, Some c =>
         odict_get c (py "http://") = odict_get d (py "http")
         /\ odict_get c (py "https://") = odict_get d (py "https")
         /\ List.length c = List.length d
     | _, _ => False
     end.
Proof.
  unfold get_proxy_dict, get_httpx_client.
  generalize (proxy_url (str_opt http_proxy)); intros u.
  generalize (proxy_url (str_opt https_proxy)); intros v.
  split.
  - intros [H|H]; subst; [reflexivity|].
    destruct httpx_installed; [|reflexivity]; cbn [negb].
    destruct (truthy http_proxy), (truthy https_proxy); vm_compute odict_setitem;
      vm_compute odict_setdefault; vm_compute odict_setitem; reflexivity.
  - destruct (truthy http_proxy), (truthy https_proxy); vm_compute odict_setitem;
      vm_compute odict_setdefault; vm_compute odict_setitem; cbv beta iota.
    all: try exact I.
    all: vm_compute; auto.
Qed.

(** Every value the validator accepts is a registry provider, and a request
    that names neither model nor provider then falls back to that provider
    and its default model, so it is never refused for lack of a target. *)
Lemma validated_provider_fallback_resolves (v r : pystr) (st : Settings)
    (model_id provider_name : option pystr) (default_provider_type : pystr) :
  _norm_provider v = Some r ->
  image_analysis_provider st = r ->
  truthy model_id = false -> truthy provider_name = false ->
  (r = ModelProvider.OPENAI
   /\ _determine_model_and_provider st model_id provider_name default_provider_type
      = (Some DEFAULT_MODEL_OPENAI, Some ModelProvider.OPENAI))
  \/ (r = ModelProvider.GEMINI
   /\ _determine_model_and_provider st model_id provider_name default_provider_type
      = (Some DEFAULT_MODEL_GEMINI, Some ModelProvider.GEMINI)).
Proof.
  unfold _norm_provider; intros H Hst Hm Hp.
  destruct (py_in (strip (lower v)) [py "openai"; py "gemini"]) eqn:E; [|discriminate H].
  injection H as <-. apply py_in_In in E.
  destruct model_id as [[|a l]|]; try discriminate Hm;
  destruct provider_name as [[|b l']|]; try discriminate Hp;
  unfold _determine_model_and_provider; rewrite Hst;
  destruct E as [E|[E|[]]]; rewrite <- E; [left|right|left|right|left|right|left|right];
  (split; [reflexivity|vm_compute; reflexivity]).
Qed.

(** A concrete run of [provider_only_request_resolves_to_default]. *)
Lemma provider_only_request_resolves_to_default_witness :
  truthy (@None pystr) = false /\ truthy (Some ModelProvider.CLAUDE) = true /\
  (In ModelProvider.CLAUDE (odict_keys ALL_AVAILABLE_MODELS) ->
   exists m, get_default_model_for_provider ModelProvider.CLAUDE = Some m
   /\ registered ModelProvider.CLAUDE m = true
   /\ _determine_model_and_provider sample_settings None (Some ModelProvider.CLAUDE)
        ModelProvider.OPENAI = (Some m, Some ModelProvider.CLAUDE))
  /\ (~ In ModelProvider.CLAUDE (odict_keys ALL_AVAILABLE_MODELS) ->
      _determine_model_and_provider sample_settings None (Some ModelProvider.CLAUDE)
        ModelProvider.OPENAI = (None, None)).
Proof.
  assert (H1 : truthy (@None pystr) = false) by reflexivity.
  assert (H2 : truthy (Some ModelProvider.CLAUDE) = true) by (vm_compute; reflexivity).
  split; [exact H1|]; split; [exact H2|].
  exact (provider_only_request_resolves_to_default sample_settings None ModelProvider.CLAUDE
           ModelProvider.OPENAI H1 H2).
Defined.

(** A concrete run of [api_info_default_model_registered]. *)
Lemma api_info_default_model_registered_witness :
  check_token (Some (py "s3cret")) (Some (py "Bearer s3cret")) = true /\
  exists p m,
    api_info_route (Some (py "s3cret")) (Some (py "Bearer s3cret")) sample_settings
    = mkResponse 200 [kv "provider" (VStr p); kv "default_model_id" (VStr m)]
    /\ (registered p m = true
        \/ (py_in p (odict_keys ALL_AVAILABLE_MODELS) = false /\ m = py "N/A")).
Proof.
  assert (H : check_token (Some (py "s3cret")) (Some (py "Bearer s3cret")) = true)
    by (vm_compute; reflexivity).
  split; [exact H|].
  exact (api_info_default_model_registered _ _ sample_settings H).
Defined.

(** A concrete run of [crop_box_is_clipped_request]: a request sticking out
    on the left and on the right of a 30 x 25 image. *)
Lemma crop_box_is_clipped_request_witness :
  crop_box (-5) 10 50 20 30 25 = CropBox 0 10 30 25 /\
  0 <= 0 < 30 /\ 30 <= 30 /\ 0 <= 10 < 25 /\ 25 <= 25 /\
  (forall px py, (0 <= px < 30 /\ 10 <= py < 25)
                 <-> (0 <= px < 30 /\ -5 <= px < -5 + 50 /\ 0 <= py < 25 /\ 10 <= py < 10 + 20)).
Proof.
  assert (H : crop_box (-5) 10 50 20 30 25 = CropBox 0 10 30 25) by (vm_compute; reflexivity).
  split; [exact H|].
  exact (crop_box_is_clipped_request (-5) 10 50 20 30 25 0 10 30 25 H).
Defined.

(** A concrete run of [socket_chat_non_dict_raises] on a string payload. *)
Lemma socket_chat_non_dict_raises_witness :
  is_dict (SStr (py "hi")) = false /\
  ((is_dict (SStr (py "hi")) = false ->
    handle_chat_message_socket (SStr (py "hi")) (py "u-1")
    = SocketRaised (OtherError (py "'" ++ type_name (SStr (py "hi"))
                                 ++ py "' object has no attribute 'keys'")))
   /\ handle_chat_message_socket (SStr (py "hi")) (py "u-1")
      <> SocketEmit (py "task_error") [(py "message", SStr (py "Invalid request format."))]).
Proof.
  split; [reflexivity|].
  exact (socket_chat_non_dict_raises (SStr (py "hi")) (py "u-1")).
Defined.

(** A concrete run of [socket_chat_blank_request_rejected]: a prompt of
    blanks and no image. *)
Lemma socket_chat_blank_request_rejected_witness :
  let d := [(py "prompt", SStr (py "   ")); (py "request_id", SStr (py "r-1"))] in
  sdict_get d (py "prompt") (SStr []) = SStr (py "   ") /\ strip (py "   ") = [] /\
  handle_chat_message_socket (SDict d) (py "u-1")
  = SocketEmit (py "task_error")
      [(py "request_id", sdict_get d (py "request_id") SNull);
       (py "error", SStr (py "Prompt or images cannot be empty."))].
Proof.
  intros d.
  assert (H1 : sdict_get d (py "prompt") (SStr []) = SStr (py "   ")) by (vm_compute; reflexivity).
  assert (H2 : strip (py "   ") = []) by (vm_compute; reflexivity).
  split; [exact H1|]; split; [exact H2|].
  apply (socket_chat_blank_request_rejected d (py "u-1") (py "   ") H1 H2).
  - intros l Hl; vm_compute in Hl; discriminate Hl.
  - intros t Ht; vm_compute in Ht; discriminate Ht.
Defined.

(** A concrete run of [socket_chat_spawn_has_input]. *)
Lemma socket_chat_spawn_has_input_witness :
  handle_chat_message_socket (SDict [(py "prompt", SStr (py " hi "))]) (py "u-1")
  = SocketSpawn (py "hi") (SList []) (SStr (py "u-1")) true SNull SNull None /\
  (truthy (Some (py "hi")) = true \/ opt_list_truthy (@None (list sval)) = true).
Proof.
  assert (H : handle_chat_message_socket (SDict [(py "prompt", SStr (py " hi "))]) (py "u-1")
              = SocketSpawn (py "hi") (SList []) (SStr (py "u-1")) true SNull SNull None)
    by (vm_compute; reflexivity).
  split; [exact H|].
  exact (socket_chat_spawn_has_input _ _ _ _ _ _ _ _ _ H).
Defined.

(** A concrete run of [socket_chat_use_streaming] with ["Yes"]. *)
Lemma socket_chat_use_streaming_witness :
  let d := [(py "prompt", SStr (py "hi")); (py "use_streaming", SStr (py "Yes"))] in
  handle_chat_message_socket (SDict d) (py "u-1")
  = SocketSpawn (py "hi") (SList []) (SStr (py "u-1")) true SNull SNull None /\
  let v := sdict_get d (py "use_streaming") (SStr (py "true")) in
  true = true
  <-> v = SBool true \/ v = SInt 1
      \/ exists s, v = SStr s /\ In (lower s) [py "true"; py "yes"; py "1"].
Proof.
  intros d.
  assert (H : handle_chat_message_socket (SDict d) (py "u-1")
              = SocketSpawn (py "hi") (SList []) (SStr (py "u-1")) true SNull SNull None)
    by (vm_compute; reflexivity).
  split; [exact H|].
  exact (socket_chat_use_streaming d _ _ _ _ _ _ _ _ H).
Defined.

(** A concrete run of [upload_screenshot_saved_name]. *)
Lemma upload_screenshot_saved_name_witness :
  let form := mkScreenshotForm (Some (mkUpload (py "my shot.PNG") [1; 2; 3])) None None None in
  let sp := SpawnAnalyze [1; 2; 3] (py "/screenshots/form_upload_1700_my_shot.png") 1700
              None (Some (py "req-1")) None None in
  let resp := fst (upload_screenshot_route (fun s => s) (py "req-1") form 1700 true) in
  upload_screenshot_route (fun s => s) (py "req-1") form 1700 true = (resp, Some sp) /\
  exists f stem ext,
    sf_image form = Some f /\ up_bytes f <> [] /\ true = true /\ status_code resp = 202
    /\ In ext ALLOWED_IMAGE_EXT /\ (List.length stem <= 20)%nat /\ ~ In 32 stem
    /\ sp = SpawnAnalyze (up_bytes f)
              (py "/screenshots/" ++ py "form_upload_" ++ z_str 1700 ++ py "_" ++ stem ++ ext)
              1700 (sf_prompt form) (Some (py "req-1")) (sf_model_id form) (sf_provider form).
Proof.
  intros form sp resp.
  assert (H : upload_screenshot_route (fun s => s) (py "req-1") form 1700 true = (resp, Some sp))
    by (vm_compute; reflexivity).
  split; [exact H|].
  exact (upload_screenshot_saved_name (fun s => s) (py "req-1") form 1700 true resp sp H).
Defined.

(** A concrete run of [chat_task_unsupported_provider]: a Claude model,
    inferred from the model id. *)
Lemma chat_task_unsupported_provider_witness :
  let be := stub_backend [] in
  let w := sample_world in
  let m := py "claude-3.7-sonnet" in
  let p := ModelProvider.CLAUDE in
  _determine_model_and_provider (w_settings w) (Some m) None ModelProvider.OPENAI
    = (Some m, Some p) /\
  p <> ModelProvider.OPENAI /\ p <> ModelProvider.GEMINI /\
  _task_chat_only be (py "hi") [] (py "req-1") (Some (py "sid-1")) false (Some m) None
    None None w
  = (Ok tt, mkWorld (w_settings w) (w_history w)
              (w_trace w ++
                 [Emit (mkEmission (py "chat_response")
                          [kv "request_id" (VStr (py "req-1"));
                           kv "message" (VStr (py "聊天功能未启用或提供商 '" ++ p ++ py "' 不支持。"));
                           kv "provider" (VStr p); kv "model_id" (VStr m)]
                          (if truthy (Some (py "sid-1")) then Some (py "sid-1") else None))])
              (w_buf w))
  /\ _task_chat_only be (py "hi") [] (py "req-1") (Some (py "sid-1")) true (Some m) None
       None None w
  = (Ok tt, mkWorld (w_settings w) (w_history w)
              (w_trace w ++
                 [chunk_event (py "req-1") (Some (py "sid-1")) p m
                    (py "[ERROR: 流式聊天功能未启用或提供商 '" ++ p ++ py "' 不支持。]");
                  end_event (py "req-1") (Some (py "sid-1")) p m
                    (py "[ERROR: 流式聊天功能未启用或提供商 '" ++ p ++ py "' 不支持。]")])
              (py "[ERROR: 流式聊天功能未启用或提供商 '" ++ p ++ py "' 不支持。]")).
Proof.
  intros be w m p.
  assert (H1 : _determine_model_and_provider (w_settings w) (Some m) None ModelProvider.OPENAI
                 = (Some m, Some p)) by (vm_compute; reflexivity).
  assert (H2 : p <> ModelProvider.OPENAI) by (intros E; vm_compute in E; discriminate E).
  assert (H3 : p <> ModelProvider.GEMINI) by (intros E; vm_compute in E; discriminate E).
  split; [exact H1|]; split; [exact H2|]; split; [exact H3|].
  exact (chat_task_unsupported_provider be (py "hi") [] (py "req-1") (Some (py "sid-1"))
           (Some m) None None None w m p H1 H2 H3).
Defined.

(** A concrete run of [chat_only_missing_key] with no key configured. *)
Lemma chat_only_missing_key_witness :
  let be := stub_backend [] in
  let w := mkWorld (mkSettings (py "gemini") None None) [] [] [] in
  let m := py "gpt-4o" in
  truthy (Some m) = true /\
  (registered ModelProvider.OPENAI m = true -> truthy (openai_api_key (w_settings w)) = false ->
   chat_only be (py "hi") [] (Some m) (Some ModelProvider.OPENAI) None w
   = (Ok (result_dict (py "error") (Some m) (py "配置错误: " ++ py "OpenAI API Key missing.")), w))
  /\ (registered ModelProvider.GEMINI m = true -> truthy (gemini_api_key (w_settings w)) = false ->
   chat_only be (py "hi") [] (Some m) (Some ModelProvider.GEMINI) None w
   = (Ok (result_dict (py "error") (Some m) (py "配置错误: " ++ py "Gemini API Key missing.")), w)).
Proof.
  intros be w m.
  assert (H : truthy (Some m) = true) by (vm_compute; reflexivity).
  split; [exact H|].
  exact (chat_only_missing_key be (py "hi") [] None w m H).
Defined.

(** A concrete run of [b64decode_b64encode] on four bytes (a padded last
    group). *)
Lemma b64decode_b64encode_witness :
  Forall is_byte [0; 104; 105; 255] /\ b64decode (b64encode [0; 104; 105; 255]) = Some [0; 104; 105; 255].
Proof.
  assert (H : Forall is_byte [0; 104; 105; 255]) by (repeat constructor; unfold is_byte; lia).
  split; [exact H|].
  exact (b64decode_b64encode _ H).
Defined.

(** A concrete run of [chat_openai_always_calls_sdk]. *)
Lemma chat_openai_always_calls_sdk_witness :
  let be := stub_backend [] in
  truthy (openai_api_key (w_settings sample_world)) = true /\
  let m := if truthy (Some (py "gpt-4o")) then str_opt (Some (py "gpt-4o"))
           else DEFAULT_MODEL_OPENAI in
  exists msgs,
    hd_error msgs = Some openai_system_message /\
    _chat_openai be (py "hi") [] (Some (py "gpt-4o")) None sample_world
    = (match openai_create be m msgs with
       | Ok (Some c) => Ok (if truthy (Some c) then strip c else [])
       | Ok None => Ok []
       | Raised e => Raised e
       end,
       mkWorld (w_settings sample_world) (w_history sample_world)
         (w_trace sample_world ++ [SdkCall ModelProvider.OPENAI m]) (w_buf sample_world)).
Proof.
  intros be.
  assert (H : truthy (openai_api_key (w_settings sample_world)) = true) by reflexivity.
  split; [exact H|].
  exact (chat_openai_always_calls_sdk be (py "hi") [] (Some (py "gpt-4o")) None sample_world H).
Defined.

(** A concrete run of [streaming_openai_failure_reported_in_stream]: two
    chunks, then the connection is reset. *)
Lemma streaming_openai_failure_reported_in_stream_witness :
  let cs := [py "He"; py "llo"] in
  let be := mkBackend (fun _ _ => Ok None)
              (fun _ _ => mkStream (map Some cs) (Some (OpenAIAPIError (py "reset"))))
              (fun _ _ => Raised (GenaiAPIError [])) (fun _ _ => mkStream [] None)
              (Ok None) (fun _ => Ok []) in
  let m := py "gpt-4o" in
  _determine_model_and_provider (w_settings sample_world) (Some m) (Some (py "openai"))
    ModelProvider.OPENAI = (Some m, Some ModelProvider.OPENAI) /\
  truthy (openai_api_key (w_settings sample_world)) = true /\
  openai_stream_history [] = Ok [] /\
  (forall msgs, openai_create_stream be m msgs
                = mkStream (map Some cs) (Some (OpenAIAPIError (py "reset")))) /\
  let e1 := py "[ERROR: OpenAI API Error - " ++ py "reset" ++ py "]" in
  let e2 := py "[ERROR: 与 AI (" ++ ModelProvider.OPENAI ++ py "/" ++ m ++ py ") 流式通信时出错 - "
            ++ py "reset" ++ py "]" in
  let '(r, w') := _task_chat_only be (py "hi") [] (py "req-1") (Some (py "sid-1")) true
                    (Some m) (Some (py "openai")) None None sample_world in
  r = Ok tt /\ w_history w' = w_history sample_world /\
  w_trace w' = w_trace sample_world ++ SdkCall ModelProvider.OPENAI m
                 :: map (chunk_event (py "req-1") (Some (py "sid-1")) ModelProvider.OPENAI m)
                      (filter nonempty cs)
                 ++ [chunk_event (py "req-1") (Some (py "sid-1")) ModelProvider.OPENAI m e1;
                     chunk_event (py "req-1") (Some (py "sid-1")) ModelProvider.OPENAI m e2;
                     end_event (py "req-1") (Some (py "sid-1")) ModelProvider.OPENAI m
                       (List.concat cs ++ e1 ++ e2)].
Proof.
  intros cs be m.
  assert (H1 : _determine_model_and_provider (w_settings sample_world) (Some m) (Some (py "openai"))
                 ModelProvider.OPENAI = (Some m, Some ModelProvider.OPENAI))
    by (vm_compute; reflexivity).
  assert (H2 : truthy (openai_api_key (w_settings sample_world)) = true) by reflexivity.
  assert (H3 : openai_stream_history [] = Ok []) by reflexivity.
  assert (H4 : forall msgs, openai_create_stream be m msgs
                            = mkStream (map Some cs) (Some (OpenAIAPIError (py "reset"))))
    by (intros; reflexivity).
  split; [exact H1|]; split; [exact H2|]; split; [exact H3|]; split; [exact H4|].
  exact (streaming_openai_failure_reported_in_stream be (py "hi") [] (py "req-1")
           (Some (py "sid-1")) (Some m) (Some (py "openai")) None None sample_world m [] cs
           (py "reset") H1 H2 H3 H4).
Defined.

(** A concrete run of [httpx_client_matches_proxy_dict]: httpx missing, and
    an HTTP proxy without a scheme. *)
Lemma httpx_client_matches_proxy_dict_witness :
  (false = false \/ true = false) /\
  (false = false \/ true = false ->
     get_httpx_client false true (Some (py "127.0.0.1:8080")) None = None)
  /\ match get_proxy_dict (Some (py "127.0.0.1:8080")) None,
           get_httpx_client true true (Some (py "127.0.0.1:8080")) None with
     | None, None => True
     | Some d, Some c =>
         odict_get c (py "http://") = odict_get d (py "http")
         /\ odict_get c (py "https://") = odict_get d (py "https")
         /\ List.length c = List.length d
     | _, _ => False
     end.
Proof.
  split; [left; reflexivity|].
  exact (httpx_client_matches_proxy_dict false true (Some (py "127.0.0.1:8080")) None).
Defined.

(** A concrete run of [validated_provider_fallback_resolves] on the
    setting value ["  GEMINI "]. *)
Lemma validated_provider_fallback_resolves_witness :
  _norm_provider (py "  GEMINI ") = Some ModelProvider.GEMINI /\
  image_analysis_provider sample_settings = ModelProvider.GEMINI /\
  ((ModelProvider.GEMINI = ModelProvider.OPENAI
    /\ _determine_model_and_provider sample_settings None None ModelProvider.OPENAI
       = (Some DEFAULT_MODEL_OPENAI, Some ModelProvider.OPENAI))
   \/ (ModelProvider.GEMINI = ModelProvider.GEMINI
    /\ _determine_model_and_provider sample_settings None None ModelProvider.OPENAI
       = (Some DEFAULT_MODEL_GEMINI, Some ModelProvider.GEMINI))).
Proof.
  assert (H1 : _norm_provider (py "  GEMINI ") = Some ModelProvider.GEMINI)
    by (vm_compute; reflexivity).
  assert (H2 : image_analysis_provider sample_settings = ModelProvider.GEMINI) by reflexivity.
  split; [exact H1|]; split; [exact H2|].
  exact (validated_provider_fallback_resolves (py "  GEMINI ") ModelProvider.GEMINI sample_settings
           None None ModelProvider.OPENAI H1 H2 eq_refl eq_refl).
Defined.

(** A concrete run of [chat_only_gemini_reports_missing_setting]. *)
Lemma chat_only_gemini_reports_missing_setting_witness :
  truthy (Some (py "gemini-2.0-flash")) = true
  /\ registered ModelProvider.GEMINI (py "gemini-2.0-flash") = true
  /\ truthy (gemini_api_key (w_settings sample_world)) = true
  /\ truthy (Some (py "hello")) = true
  /\ chat_only (stub_backend [py "hi"]) (py "hello") [] (Some (py "gemini-2.0-flash"))
       (Some ModelProvider.GEMINI) None sample_world
     = (Ok (result_dict (py "error") (Some (py "gemini-2.0-flash"))
              (py "与 AI (" ++ ModelProvider.GEMINI ++ py "/" ++ py "gemini-2.0-flash"
               ++ py ") 通信时出错: " ++ exn_str (settings_no_attribute (py "GEMINI_MAX_TOKENS")))),
        sample_world).
Proof.
  assert (H1 : truthy (Some (py "gemini-2.0-flash")) = true) by (vm_compute; reflexivity).
  assert (H2 : registered ModelProvider.GEMINI (py "gemini-2.0-flash") = true)
    by (vm_compute; reflexivity).
  assert (H3 : truthy (gemini_api_key (w_settings sample_world)) = true) by (vm_compute; reflexivity).
  assert (H4 : truthy (Some (py "hello")) = true) by (vm_compute; reflexivity).
  split; [exact H1|]; split; [exact H2|]; split; [exact H3|]; split; [exact H4|].
  exact (chat_only_gemini_reports_missing_setting (stub_backend [py "hi"]) (py "hello") [] None
           sample_world (py "gemini-2.0-flash") H1 H2 H3 H4).
Defined.

(** A concrete run of [streaming_gemini_task_reports_missing_setting]: the
    backend would stream two chunks, but none of them is read. *)
Lemma streaming_gemini_task_reports_missing_setting_witness :
  let m := py "gemini-2.0-flash" in
  let err := py "[ERROR: 与 AI (" ++ ModelProvider.GEMINI ++ py "/" ++ m ++ py ") 流式通信时出错 - "
             ++ exn_str (settings_no_attribute (py "GEMINI_MAX_TOKENS_STREAM")) ++ py "]" in
  _determine_model_and_provider (w_settings sample_world) (Some m) (Some (py "gemini"))
    ModelProvider.OPENAI = (Some m, Some ModelProvider.GEMINI)
  /\ truthy (gemini_api_key (w_settings sample_world)) = true
  /\ truthy (Some (py "hello")) = true
  /\ _task_chat_only (stub_backend [py "Hel"; py "lo"]) (py "hello") [] (py "req-1")
       (Some (py "sid-1")) true (Some m) (Some (py "gemini")) None None sample_world
     = (Ok tt, mkWorld (w_settings sample_world) (w_history sample_world)
                 (w_trace sample_world
                  ++ [chunk_event (py "req-1") (Some (py "sid-1")) ModelProvider.GEMINI m err;
                      end_event (py "req-1") (Some (py "sid-1")) ModelProvider.GEMINI m err])
                 err).
Proof.
  intros m err.
  assert (H1 : _determine_model_and_provider (w_settings sample_world) (Some m) (Some (py "gemini"))
                 ModelProvider.OPENAI = (Some m, Some ModelProvider.GEMINI))
    by (vm_compute; reflexivity).
  assert (H2 : truthy (gemini_api_key (w_settings sample_world)) = true) by (vm_compute; reflexivity).
  assert (H3 : truthy (Some (py "hello")) = true) by (vm_compute; reflexivity).
  split; [exact H1|]; split; [exact H2|]; split; [exact H3|].
  exact (streaming_gemini_task_reports_missing_setting (stub_backend [py "Hel"; py "lo"]) (py "hello")
           [] (py "req-1") (Some (py "sid-1")) (Some m) (Some (py "gemini")) None None sample_world m
           H1 H2 H3).
Defined.

(** A concrete run of [chat_only_raises_iff_no_provider]: no provider and
    an unknown model id. *)
Lemma chat_only_raises_iff_no_provider_witness :
  truthy (@None pystr) = false
  /\ scan_providers ALL_AVAILABLE_MODELS (py "no-such-model") = None
  /\ chat_only (stub_backend []) (py "hi") [] (Some (py "no-such-model")) None None sample_world
     = (Raised (settings_no_attribute (py "DEFAULT_CHAT_PROVIDER")), sample_world).
Proof.
  assert (H1 : truthy (@None pystr) = false) by reflexivity.
  assert (H2 : scan_providers ALL_AVAILABLE_MODELS (py "no-such-model") = None)
    by (vm_compute; reflexivity).
  split; [exact H1|]; split; [exact H2|].
  exact (proj1 (chat_only_raises_iff_no_provider (stub_backend []) (py "hi") []
                  (Some (py "no-such-model")) None None sample_world) H1 H2).
Defined.
